(** * Ledger, reconciliation and TDS logic of the freight application

    A shallow embedding of
    - [backend/src/controllers/paymentController.ts]
      ([updateThnStatus], [createPayment]),
    - the truck-hiring-note controller ([createTruckHiringNote]),
    - the zod schema [createPaymentSchema] of [utils/validation], and
    - the front-end [LedgerService]
      ([generateClientLedger], [generateCompanyLedger]),
    - the other handlers of the two controllers ([deletePayment],
      [getTruckHiringNotes], [getTruckHiringNoteById],
      [recalculateThnStatus], [updateTruckHiringNote],
      [deleteTruckHiringNote]),
    - the front-end PDF service ([generatePdf], [generateMultiPagePdf],
      [generateDocumentPdf], [printToPdfFile]), and
    - the object the payment form [UniversalPaymentForm] submits.

    Conventions.
    - A JavaScript [number] that holds money or a rate is a rational [Q];
      equalities between amounts are stated with [==].  Document and
      voucher numbers are naturals [N].  [NaN] only arises from parsing a
      date and is the [None] of [option Z].
    - [undefined]/[null] fields are [option]s; [x || d] is written out with
      the falsy values of the type at hand.
    - MongoDB collections are explicit state ([Db]); an [async] function is
      a state transformer returning [result], where [Throw] is a rejected
      promise. *)

From Stdlib Require Import ZArith NArith QArith Qminmax Qabs Qround Lqa Lia.
From Stdlib Require Import String Ascii List Sorted Permutation DecimalString.
From stdpp Require Import base option list gmap strings sorting.
Import ListNotations.

Local Open Scope string_scope.
Local Open Scope Q_scope.

(** ** Numbers and strings *)

(** [x || 0] on an optional amount: [undefined], [null] and [0] give [0]. *)
Definition orZero (x : option Q) : Q :=
  match x with
  | Some q => if Qeq_bool q 0 then 0 else q
  | None => 0
  end.

(** [s || d] on an optional string: [undefined] and [''] give [d]. *)
Definition orStr (s : option string) (d : string) : string :=
  match s with
  | Some "" | None => d
  | Some t => t
  end.

(** Truthiness of an optional string. *)
Definition truthyStr (s : option string) : bool :=
  match s with
  | Some "" | None => false
  | Some _ => true
  end.

(** [Math.max(0, x)]. *)
Definition max0 (x : Q) : Q := Qmax 0 x.

(** The sum of [f] over a list, used to state what the code accumulates. *)
Definition sumOver {A} (f : A -> Q) (l : list A) : Q :=
  fold_right (fun x acc => f x + acc) 0 l.

(** [q <= 0] and [q > 0] as the tests of the source. *)
Definition leb0 (q : Q) : bool := Qle_bool q 0.
Definition gtb0 (q : Q) : bool := negb (Qle_bool q 0).

(** ** Enumerations of [types] *)

Inductive THNStatus := UNPAID | PARTIALLY_PAID | PAID.

Inductive InvoiceStatus := INV_UNPAID | INV_PARTIALLY_PAID | INV_PAID.

Inductive PaymentType := ADVANCE | RECEIPT | PAYMENT.

Inductive PaymentMode := CASH | CHEQUE | NEFT | RTGS | UPI.

#[global] Instance PaymentType_eq_dec : EqDecision PaymentType.
Proof. solve_decision. Defined.

#[global] Instance THNStatus_eq_dec : EqDecision THNStatus.
Proof. solve_decision. Defined.

Definition isAdvance (t : PaymentType) : bool := bool_decide (t = ADVANCE).
Definition isReceipt (t : PaymentType) : bool := bool_decide (t = RECEIPT).

Definition PaymentMode_str (m : PaymentMode) : string :=
  match m with
  | CASH => "Cash" | CHEQUE => "Cheque" | NEFT => "NEFT" | RTGS => "RTGS" | UPI => "UPI"
  end.

Definition parsePaymentType (s : string) : option PaymentType :=
  if String.eqb s "Advance" then Some ADVANCE
  else if String.eqb s "Receipt" then Some RECEIPT
  else if String.eqb s "Payment" then Some PAYMENT
  else None.

Definition parsePaymentMode (s : string) : option PaymentMode :=
  if String.eqb s "Cash" then Some CASH
  else if String.eqb s "Cheque" then Some CHEQUE
  else if String.eqb s "NEFT" then Some NEFT
  else if String.eqb s "RTGS" then Some RTGS
  else if String.eqb s "UPI" then Some UPI
  else None.

(** A 12-byte MongoDB [ObjectId], as the number it encodes. *)
Definition ObjectId := N.
Bind Scope N_scope with ObjectId.

(** Decimal rendering of a number inside a template literal. *)
Definition showN (n : N) : string :=
  NilZero.string_of_uint (N.to_uint n).

(** The test [/^[0-9a-fA-F]{24}$/] of [createPayment]. *)
Definition isHexDigit (c : ascii) : bool :=
  let n := nat_of_ascii c in
  ((48 <=? n) && (n <=? 57) || (65 <=? n) && (n <=? 70) || (97 <=? n) && (n <=? 102))%nat.

Definition isHex24 (s : string) : bool :=
  (String.length s =? 24)%nat && forallb isHexDigit (list_ascii_of_string s).

(** [String.prototype.trimStart], with strings read as UTF-8: the white
    space and line terminators of ECMAScript are the six ASCII ones and
    nineteen code points of two or three bytes. *)
Local Open Scope nat_scope.

Fixpoint dropWhite (fuel : nat) (bs : list nat) : list nat :=
  match fuel with
  | O => bs
  | S fuel' =>
      match bs with
      | 194 :: 160 :: r => dropWhite fuel' r
      | 225 :: 154 :: 128 :: r => dropWhite fuel' r
      | 226 :: 128 :: b :: r =>
          if (128 <=? b) && (b <=? 138) || (b =? 168) || (b =? 169) || (b =? 175)
          then dropWhite fuel' r else bs
      | 226 :: 129 :: 159 :: r => dropWhite fuel' r
      | 227 :: 128 :: 128 :: r => dropWhite fuel' r
      | 239 :: 187 :: 191 :: r => dropWhite fuel' r
      | b :: r => if (9 <=? b) && (b <=? 13) || (b =? 32) then dropWhite fuel' r else bs
      | [] => []
      end
  end.

Definition trimStart (s : string) : string :=
  string_of_list_ascii
    (List.map ascii_of_nat
       (dropWhite (String.length s) (List.map nat_of_ascii (list_ascii_of_string s)))).

(** [s.trim().length > 0] fails exactly when nothing is left of [s]. *)
Definition isBlank (s : string) : bool := String.eqb (trimStart s) "".

(** [s.slice(-6)] *)
Definition sliceLast6 (s : string) : string :=
  String.substring (String.length s - 6) 6 s.

Local Close Scope nat_scope.

(** ** Request validation ([utils/validation]) *)

Module Validation.

(** A JSON value of the request body; a missing key reads as [JUndefined]. *)
Inductive Json :=
| JUndefined
| JNull
| JBool (b : bool)
| JNumber (q : Q)
| JString (s : string)
| JCompound.

(** The keys of the body that [createPaymentSchema] looks at (zod strips
    the others). *)
Record RawPayment := mkRawPayment {
  raw_invoiceId : Json;
  raw_truckHiringNoteId : Json;
  raw_customer : Json;
  raw_amount : Json;
  raw_date : Json;
  raw_type : Json;
  raw_mode : Json;
  raw_referenceNo : Json;
  raw_notes : Json;
  raw_tdsApplicable : Json;
  raw_tdsRate : Json;
  raw_tdsAmount : Json;
  raw_tdsDate : Json
}.

(** The value [createPaymentSchema.parse] returns. *)
Record PaymentData := mkPaymentData {
  invoiceId : option string;
  truckHiringNoteId : option string;
  customer : option string;
  amount : Q;
  date : string;
  type : PaymentType;
  mode : PaymentMode;
  referenceNo : option string;
  notes : option string;
  tdsApplicable : option bool;
  tdsRate : option Q;
  tdsAmount : option Q;
  tdsDate : option string
}.

(** [z.string().optional()] *)
Definition z_string_optional (j : Json) : option (option string) :=
  match j with
  | JUndefined => Some None
  | JString s => Some (Some s)
  | _ => None
  end.

(** [z.string().min(1)] *)
Definition z_string_min1 (j : Json) : option string :=
  match j with
  | JString s => if (1 <=? String.length s)%nat then Some s else None
  | _ => None
  end.

(** [z.number().positive()] *)
Definition z_number_positive (j : Json) : option Q :=
  match j with
  | JNumber q => if gtb0 q then Some q else None
  | _ => None
  end.

(** [z.number().nonnegative().optional()] *)
Definition z_number_nonnegative_optional (j : Json) : option (option Q) :=
  match j with
  | JUndefined => Some None
  | JNumber q => if Qle_bool 0 q then Some (Some q) else None
  | _ => None
  end.

(** [z.number().min(0).max(100).optional()] *)
Definition z_number_0_100_optional (j : Json) : option (option Q) :=
  match j with
  | JUndefined => Some None
  | JNumber q => if Qle_bool 0 q && Qle_bool q 100 then Some (Some q) else None
  | _ => None
  end.

(** [z.boolean().optional()] *)
Definition z_boolean_optional (j : Json) : option (option bool) :=
  match j with
  | JUndefined => Some None
  | JBool b => Some (Some b)
  | _ => None
  end.

(** [z.nativeEnum(E)] for a string enum. *)
Definition z_nativeEnum {E} (parse : string -> option E) (j : Json) : option E :=
  match j with
  | JString s => parse s
  | _ => None
  end.

(** The [z.object({...})] of [createPaymentSchema]. *)
Definition paymentObject (r : RawPayment) : option PaymentData :=
  invoiceId ← z_string_optional (raw_invoiceId r);
  truckHiringNoteId ← z_string_optional (raw_truckHiringNoteId r);
  customer ← z_string_optional (raw_customer r);
  amount ← z_number_positive (raw_amount r);
  date ← z_string_min1 (raw_date r);
  type ← z_nativeEnum parsePaymentType (raw_type r);
  mode ← z_nativeEnum parsePaymentMode (raw_mode r);
  referenceNo ← z_string_optional (raw_referenceNo r);
  notes ← z_string_optional (raw_notes r);
  tdsApplicable ← z_boolean_optional (raw_tdsApplicable r);
  tdsRate ← z_number_0_100_optional (raw_tdsRate r);
  tdsAmount ← z_number_nonnegative_optional (raw_tdsAmount r);
  tdsDate ← z_string_optional (raw_tdsDate r);
  Some (mkPaymentData invoiceId truckHiringNoteId customer amount date type mode
          referenceNo notes tdsApplicable tdsRate tdsAmount tdsDate).

(** The four [.refine] predicates, in the order of the source. *)

(** [data.invoiceId || data.truckHiringNoteId] *)
Definition refineReference (data : PaymentData) : bool :=
  truthyStr (invoiceId data) || truthyStr (truckHiringNoteId data).

(** [data.invoiceId ? (data.customer && data.customer.trim().length > 0) : true] *)
Definition refineCustomer (data : PaymentData) : bool :=
  if truthyStr (invoiceId data)
  then match customer data with
       | Some c => truthyStr (Some c) && negb (isBlank c)
       | None => false
       end
  else true.

(** TDS can only be applied to Receipts. *)
Definition refineTdsReceipt (data : PaymentData) : bool :=
  match tdsApplicable data with
  | Some true => isReceipt (type data)
  | _ => true
  end.

(** If TDS is applicable, the rate is required. *)
Definition refineTdsRate (data : PaymentData) : bool :=
  match tdsApplicable data, tdsRate data with
  | Some true, None => false
  | _, _ => true
  end.

(** [createPaymentSchema.parse]: [None] when zod throws its [ZodError] (the
    list of issues is not modelled). *)
Definition createPaymentSchema (r : RawPayment) : option PaymentData :=
  data ← paymentObject r;
  if refineReference data && refineCustomer data
     && refineTdsReceipt data && refineTdsRate data
  then Some data else None.

(** *** Vocabulary of the statements about the schema *)

(** The body carries a reference: a non-empty string under the key. *)
Definition carries (j : Json) : bool :=
  match j with
  | JString (String _ _) => true
  | _ => false
  end.

(** The body with [truckHiringNoteId] set. *)
Definition withTruckHiringNoteId (j : Json) (r : RawPayment) : RawPayment :=
  mkRawPayment (raw_invoiceId r) j (raw_customer r) (raw_amount r) (raw_date r)
               (raw_type r) (raw_mode r) (raw_referenceNo r) (raw_notes r)
               (raw_tdsApplicable r) (raw_tdsRate r) (raw_tdsAmount r) (raw_tdsDate r).

(** Following the specification's words: a body that does not carry exactly
    one of the two references is rejected. *)
Definition exactlyOneReference (r : RawPayment) : Prop :=
  xorb (carries (raw_invoiceId r)) (carries (raw_truckHiringNoteId r)) = false ->
  createPaymentSchema r = None.

End Validation.

(** ** The server side: documents, store, controllers *)

Module Backend.

(** A [Payment] document. [mode] is kept as the string handed to the model:
    [createTruckHiringNote] passes the note's free-form [paymentMode]. *)
Record PaymentDoc := mkPaymentDoc {
  _id : ObjectId;
  paymentNumber : N;
  invoiceId : option ObjectId;
  truckHiringNoteId : option ObjectId;
  customer : option ObjectId;
  date : string;
  amount : Q;
  type : PaymentType;
  mode : string;
  referenceNo : option string;
  notes : option string;
  tdsApplicable : option bool;
  tdsRate : option Q;
  tdsAmount : option Q;
  tdsDate : option string
}.

(** The fields of a [TruckHiringNote] document that the controllers read or
    write; the descriptive strings (route, vehicle, parties) are carried by
    the real document untouched and are left out. *)
Record ThnDoc := mkThnDoc {
  thnNumber : N;
  thnDate : string;
  paymentMode : string;
  freightRate : Q;
  additionalCharges : option Q;
  advanceAmount : option Q;
  balanceAmount : Q;
  paidAmount : Q;
  status : THNStatus;
  thnPayments : list ObjectId
}.

(** An [Invoice] document as far as the payment controller touches it. *)
Record InvoiceDoc := mkInvoiceDoc {
  grandTotal : Q;
  invoiceStatus : InvoiceStatus;
  invoicePayments : list ObjectId
}.

(** What the controllers write to the console. *)
Inductive LogLine :=
| LogUpdating (thnId : string)
| LogFound (number : N) (freight additional : Q)
| LogAggregation (totalPaid : list Q)
| LogCalculated (paid advance : Q) (advanceExists : bool) (totalPaid total balance : Q)
| LogStatus (s : THNStatus)
| LogUpdated
| LogNotFound (thnId : string)
| LogErrorUpdating (thnId : string)
| LogAdvanceCreating (number : N) (advance : Q)
| LogAdvanceSaved (id : ObjectId)
| LogAdvanceError.

(** The persistent store. *)
Record Db := mkDb {
  thns : gmap ObjectId ThnDoc;
  payments : list PaymentDoc;
  invoices : gmap ObjectId InvoiceDoc;
  numbering : gmap string N;
  console : list LogLine
}.

Definition setThns (f : gmap ObjectId ThnDoc -> gmap ObjectId ThnDoc) (db : Db) : Db :=
  mkDb (f (thns db)) (payments db) (invoices db) (numbering db) (console db).
Definition setPayments (f : list PaymentDoc -> list PaymentDoc) (db : Db) : Db :=
  mkDb (thns db) (f (payments db)) (invoices db) (numbering db) (console db).
Definition setInvoices (f : gmap ObjectId InvoiceDoc -> gmap ObjectId InvoiceDoc) (db : Db) : Db :=
  mkDb (thns db) (payments db) (f (invoices db)) (numbering db) (console db).
Definition setNumbering (f : gmap string N -> gmap string N) (db : Db) : Db :=
  mkDb (thns db) (payments db) (invoices db) (f (numbering db)) (console db).
Definition addLog (l : LogLine) (db : Db) : Db :=
  mkDb (thns db) (payments db) (invoices db) (numbering db) (console db ++ [l])%list.

(** *** Promises over the store

    An [async] computation reads and writes the store and either resolves
    ([Ok]) or rejects ([Throw]); writes made before a rejection stay. *)

Inductive Error := CastError | ZodError | ValidationError | OtherError.

Inductive result (A : Type) := Ok (a : A) | Throw (e : Error).
Arguments Ok {A} a.
Arguments Throw {A} e.

Definition M (A : Type) : Type := Db -> Db * result A.

Definition ret {A} (a : A) : M A := fun db => (db, Ok a).
Definition throw {A} (e : Error) : M A := fun db => (db, Throw e).
Definition bind {A B} (m : M A) (k : A -> M B) : M B :=
  fun db => match m db with
            | (db', Ok a) => k a db'
            | (db', Throw e) => (db', Throw e)
            end.
Definition tryCatch {A} (m : M A) (handler : Error -> M A) : M A :=
  fun db => match m db with
            | (db', Ok a) => (db', Ok a)
            | (db', Throw e) => handler e db'
            end.
Definition gets {A} (f : Db -> A) : M A := fun db => (db, Ok (f db)).
Definition modify (f : Db -> Db) : M unit := fun db => (f db, Ok tt).
Definition consoleLog (l : LogLine) : M unit := modify (addLog l).

#[global] Instance M_ret : MRet M := @ret.
#[global] Instance M_bind : MBind M := fun A B k m => bind m k.

(** A list of computations, run one after the other. *)
Fixpoint forEachM {A} (f : A -> M unit) (l : list A) : M unit :=
  match l with
  | [] => ret tt
  | a :: l' => f a;; forEachM f l'
  end.

(** The reference of the payment that stands for a note's advance. *)
Definition advanceReference (thnNumber : N) : string :=
  "THN-" ++ showN thnNumber ++ "-ADVANCE".

(** *** [updateThnStatus] (paymentController.ts)

    [castObjectId] is mongoose's cast of an id string to an [ObjectId]
    ([None]: the cast fails and the query rejects with a [CastError]). *)

Section Controllers.

Variable castObjectId : string -> option ObjectId.

Definition castId (s : string) : M ObjectId :=
  match castObjectId s with
  | Some oid => mret oid
  | None => throw CastError
  end.

(** [TruckHiringNote.findById(id)] *)
Definition findThnById (id : string) : M (option ThnDoc) :=
  oid ← castId id; gets (fun db => thns db !! oid).

(** [{ truckHiringNoteId: oid }] as a query filter. *)
Definition linkedTo (oid : ObjectId) (p : PaymentDoc) : bool :=
  bool_decide (truckHiringNoteId p = Some oid).

Definition sumAmounts (ps : list PaymentDoc) : Q :=
  fold_left (fun acc p => acc + amount p) ps 0.

(** [Payment.aggregate([{ $match }, { $group: { _id: null, total: { $sum } } }])]:
    no group, hence an empty array, when nothing matches. *)
Definition aggregateTotal (oid : ObjectId) (ps : list PaymentDoc) : list Q :=
  match List.filter (linkedTo oid) ps with
  | [] => []
  | matched => [sumAmounts matched]
  end.

(** [Payment.findOne({ truckHiringNoteId: oid, type: PaymentType.ADVANCE })] *)
Definition findAdvancePayment (oid : ObjectId) (ps : list PaymentDoc) : option PaymentDoc :=
  List.find (fun p => linkedTo oid p && isAdvance (type p)) ps.

(** The update document [{ paidAmount, balanceAmount, status }]. *)
Definition setFinancials (paid balance : Q) (st : THNStatus) (t : ThnDoc) : ThnDoc :=
  mkThnDoc (thnNumber t) (thnDate t) (paymentMode t) (freightRate t)
           (additionalCharges t) (advanceAmount t) balance paid st (thnPayments t).

(** [TruckHiringNote.findByIdAndUpdate(id, update)] *)
Definition findThnByIdAndUpdate (id : string) (f : ThnDoc -> ThnDoc) : M unit :=
  oid ← castId id; modify (setThns (alter f oid)).

Definition thnStatusOf (balanceAmount totalPaidAmount : Q) : THNStatus :=
  if leb0 balanceAmount then PAID
  else if gtb0 totalPaidAmount then PARTIALLY_PAID
  else UNPAID.

(** The body of the [try] block. *)
Definition updateThnStatus_try (thnId : string) : M unit :=
  consoleLog (LogUpdating thnId);;
  found ← findThnById thnId;
  match found with
  | Some thn =>
      consoleLog (LogFound (thnNumber thn) (freightRate thn) (orZero (additionalCharges thn)));;
      oid ← castId thnId;
      totalPaid ← gets (fun db => aggregateTotal oid (payments db));
      consoleLog (LogAggregation totalPaid);;
      let paidAmount := match totalPaid with total :: _ => total | [] => 0 end in
      let totalAmount := freightRate thn + orZero (additionalCharges thn) in
      advancePaymentExists ← gets (fun db => findAdvancePayment oid (payments db));
      let totalPaidAmount :=
        match advancePaymentExists with
        | Some _ => paidAmount
        | None => paidAmount + orZero (advanceAmount thn)
        end in
      let balanceAmount := max0 (totalAmount - totalPaidAmount) in
      consoleLog (LogCalculated paidAmount (orZero (advanceAmount thn))
                    (bool_decide (is_Some advancePaymentExists))
                    totalPaidAmount totalAmount balanceAmount);;
      let status := thnStatusOf balanceAmount totalPaidAmount in
      consoleLog (LogStatus status);;
      findThnByIdAndUpdate thnId (setFinancials totalPaidAmount balanceAmount status);;
      consoleLog LogUpdated
  | None => consoleLog (LogNotFound thnId)
  end.

Definition updateThnStatus (thnId : string) : M unit :=
  tryCatch (updateThnStatus_try thnId)
           (fun _ => consoleLog (LogErrorUpdating thnId)).

(** The fan-out [Promise.all(notes.map(note => updateThnStatus(id)))] of
    [getTruckHiringNotes], run one note after the other. *)
Definition recomputeAll (ids : list string) : M unit :=
  forEachM updateThnStatus ids.

(** *** Shared pieces of the two controllers

    The mongoose models [models/payment] and [models/truckHiringNote] and
    [utils/invoiceUtils] are outside the sources at hand: the models'
    validation on [save] and [updateInvoiceStatus] are parameters. *)

Variable paymentModelAccepts : PaymentDoc -> bool.
Variable thnModelAccepts : ThnDoc -> bool.

(** [updateInvoiceStatus(invoiceId)]: reads the store and rewrites the
    invoice collection; [None] when it rejects. *)
Variable updateInvoiceStatus : string -> Db -> option (gmap ObjectId InvoiceDoc).

Definition runUpdateInvoiceStatus (invoiceId : string) : M unit :=
  fun db => match updateInvoiceStatus invoiceId db with
            | Some inv => (setInvoices (fun _ => inv) db, Ok tt)
            | None => (db, Throw OtherError)
            end.

(** [payment.save()] *)
Definition savePayment (p : PaymentDoc) : M PaymentDoc :=
  if paymentModelAccepts p
  then modify (setPayments (fun ps => (ps ++ [p])%list));; mret p
  else throw ValidationError.

(** [note.save()] of a new note with identifier [id]. *)
Definition saveThn (id : ObjectId) (note : ThnDoc) : M ThnDoc :=
  if thnModelAccepts note
  then modify (setThns (<[id := note]>));; mret note
  else throw ValidationError.

(** The numbering block: [NumberingConfig.findOne({ type })], falling back
    to [Date.now()]. *)
Definition nextNumber (type : string) (dateNow : N) : M N :=
  config ← gets (fun db => numbering db !! type);
  match config with
  | Some currentNumber =>
      modify (setNumbering (<[type := (currentNumber + 1)%N]>));; mret currentNumber
  | None => mret dateNow
  end.

Definition pushThnPayment (payment : ObjectId) (t : ThnDoc) : ThnDoc :=
  mkThnDoc (thnNumber t) (thnDate t) (paymentMode t) (freightRate t)
           (additionalCharges t) (advanceAmount t) (balanceAmount t) (paidAmount t)
           (status t) (thnPayments t ++ [payment])%list.

Definition pushInvoicePayment (payment : ObjectId) (i : InvoiceDoc) : InvoiceDoc :=
  mkInvoiceDoc (grandTotal i) (invoiceStatus i) (invoicePayments i ++ [payment])%list.

(** [Invoice.findByIdAndUpdate(id, { $push: { payments } })] *)
Definition findInvoiceByIdAndUpdate (id : string) (f : InvoiceDoc -> InvoiceDoc) : M unit :=
  oid ← castId id; modify (setInvoices (alter f oid)).

Inductive Body :=
| BodyThn (note : option ThnDoc)
| BodyPayment (payment : option PaymentDoc)
| BodyMessage (message : string).

Record Response := mkResponse { statusCode : N; body : Body }.

(** *** [createTruckHiringNote] (truck-hiring-note controller) *)

(** The validated request ([createTruckHiringNoteSchema.parse]), as far as
    the controller reads it. *)
Record NoteData := mkNoteData {
  nd_date : string;
  nd_paymentMode : string;
  nd_freightRate : Q;
  nd_advanceAmount : option Q;
  nd_additionalCharges : option Q
}.

(** What the request draws from its environment: the two readings of
    [Date.now()] and the identifiers mongoose generates. *)
Record NoteEnv := mkNoteEnv {
  dateNowThn : N;
  newNoteId : ObjectId;
  dateNowPayment : N;
  newAdvancePaymentId : ObjectId
}.

Definition createTruckHiringNote (env : NoteEnv) (noteData : NoteData) : M Response :=
  tryCatch
    (nextThnNumber ← nextNumber "truckHiringNoteId" (dateNowThn env);
     let totalAmount := nd_freightRate noteData + orZero (nd_additionalCharges noteData) in
     let advanceAmount := orZero (nd_advanceAmount noteData) in
     let balanceAmount := max0 (totalAmount - advanceAmount) in
     let initialStatus := thnStatusOf balanceAmount advanceAmount in
     newNote ← saveThn (newNoteId env)
       (mkThnDoc nextThnNumber (nd_date noteData) (nd_paymentMode noteData)
                 (nd_freightRate noteData)
                 (Some (orZero (nd_additionalCharges noteData)))
                 (Some advanceAmount) balanceAmount advanceAmount initialStatus []);
     (if gtb0 advanceAmount
      then tryCatch
             (consoleLog (LogAdvanceCreating (thnNumber newNote) advanceAmount);;
              paymentNumber ← nextNumber "paymentId" (dateNowPayment env);
              savedAdvancePayment ← savePayment
                (mkPaymentDoc (newAdvancePaymentId env) paymentNumber None
                              (Some (newNoteId env)) None (nd_date noteData)
                              advanceAmount ADVANCE
                              (orStr (Some (nd_paymentMode noteData)) (PaymentMode_str CASH))
                              (Some (advanceReference (thnNumber newNote)))
                              (Some ("Advance payment for THN #" ++ showN (thnNumber newNote)))
                              None None None None);
              consoleLog (LogAdvanceSaved (_id savedAdvancePayment));;
              modify (setThns (alter (pushThnPayment (_id savedAdvancePayment)) (newNoteId env))))
             (fun _ => consoleLog LogAdvanceError)
      else mret tt);;
     populatedNote ← gets (fun db => thns db !! newNoteId env);
     mret (mkResponse 201 (BodyThn populatedNote)))
    (fun error =>
       match error with
       | ValidationError | ZodError => mret (mkResponse 400 (BodyMessage "Validation failed"))
       | _ => mret (mkResponse 500 (BodyMessage "Failed to create truck hiring note"))
       end).

(** *** [createPayment] (paymentController.ts) *)

Record PaymentEnv := mkPaymentEnv {
  dateNow : N;
  newPaymentId : ObjectId
}.

(** The cast mongoose applies to an optional reference of the new document. *)
Definition castRef (s : option string) : M (option ObjectId) :=
  match s with
  | Some id => oid ← castId id; mret (Some oid)
  | None => mret None
  end.

(** The block "Handle TDS calculation": the response that ends the request,
    or [(finalAmount, tdsAmount, tdsRate, tdsDate)]. *)
Definition handleTds (paymentData : Validation.PaymentData)
  : Response + (Q * option Q * option Q * option string) :=
  let finalAmount := Validation.amount paymentData in
  let tdsAmount := Validation.tdsAmount paymentData in
  let tdsDate := orStr (Validation.tdsDate paymentData) (Validation.date paymentData) in
  if bool_decide (Validation.tdsApplicable paymentData = Some true)
     && isReceipt (Validation.type paymentData)
  then
    match Validation.tdsRate paymentData with
    | None => inl (mkResponse 400 (BodyMessage "Validation failed"))
    | Some tdsRate =>
        let tdsAmount' :=
          match tdsAmount with
          | None => Validation.amount paymentData * (tdsRate / 100)
          | Some supplied => supplied
          end in
        let finalAmount' :=
          match Validation.tdsAmount paymentData with
          | None => Validation.amount paymentData - tdsAmount'
          | Some _ => Validation.amount paymentData
          end in
        inr (finalAmount', Some tdsAmount', Some tdsRate, Some tdsDate)
    end
  else inr (finalAmount, None, None, None).

Definition createPayment (env : PaymentEnv) (reqBody : Validation.RawPayment) : M Response :=
  tryCatch
    (match Validation.createPaymentSchema reqBody with
     | None => throw ZodError
     | Some paymentData =>
         if match Validation.customer paymentData with
            | Some c => truthyStr (Some c) && negb (isBlank c) && negb (isHex24 c)
            | None => false
            end
         then mret (mkResponse 400 (BodyMessage "Invalid customer ID format"))
         else
           match handleTds paymentData with
           | inl response => mret response
           | inr (finalAmount, tdsAmount, tdsRate, tdsDate) =>
               paymentNumber ← nextNumber "paymentId" (dateNow env);
               invoiceRef ← castRef (Validation.invoiceId paymentData);
               thnRef ← castRef (Validation.truckHiringNoteId paymentData);
               customerRef ← castRef (Validation.customer paymentData);
               newPayment ← savePayment
                 (mkPaymentDoc (newPaymentId env) paymentNumber invoiceRef thnRef customerRef
                               (Validation.date paymentData) finalAmount
                               (Validation.type paymentData)
                               (PaymentMode_str (Validation.mode paymentData))
                               (Validation.referenceNo paymentData)
                               (Validation.notes paymentData)
                               (Validation.tdsApplicable paymentData)
                               tdsRate tdsAmount tdsDate);
               match Validation.invoiceId paymentData, Validation.truckHiringNoteId paymentData with
               | Some (String c i), _ =>
                   findInvoiceByIdAndUpdate (String c i) (pushInvoicePayment (_id newPayment));;
                   runUpdateInvoiceStatus (String c i)
               | _, Some (String c t) =>
                   findThnByIdAndUpdate (String c t) (pushThnPayment (_id newPayment));;
                   updateThnStatus (String c t)
               | _, _ => mret tt
               end;;
               populatedPayment ← gets (fun db =>
                 List.find (fun p => bool_decide (_id p = _id newPayment)) (payments db));
               mret (mkResponse 201 (BodyPayment populatedPayment))
           end
     end)
    (fun error =>
       match error with
       | ZodError => mret (mkResponse 400 (BodyMessage "Validation failed"))
       | _ => mret (mkResponse 500 (BodyMessage "Internal server error"))
       end).

End Controllers.

(** *** Vocabulary of the statements about the recompute *)

(** The sum of the amounts of the payments linked to a note. *)
Definition linkedSum (oid : ObjectId) (ps : list PaymentDoc) : Q :=
  sumOver amount (List.filter (linkedTo oid) ps).

(** Some payment linked to the note has type Advance. *)
Definition advanceRecorded (oid : ObjectId) (ps : list PaymentDoc) : bool :=
  existsb (fun p => linkedTo oid p && isAdvance (type p)) ps.

(** Following the specification's words: some payment linked to the note has
    type Advance and carries the reference tag of the note. *)
Definition taggedAdvanceRecorded (oid : ObjectId) (thn : ThnDoc) (ps : list PaymentDoc) : bool :=
  existsb (fun p => linkedTo oid p && isAdvance (type p)
                    && bool_decide (referenceNo p = Some (advanceReference (thnNumber thn)))) ps.

(** The stored advance, a missing one counting as nothing. *)
Definition storedAdvance (thn : ThnDoc) : Q := default 0 (advanceAmount thn).

(** The financial fields of a note agree with each other. *)
Definition Reconciled (t : ThnDoc) : Prop :=
  balanceAmount t == Qmax 0 (freightRate t + default 0 (additionalCharges t) - paidAmount t)
  /\ 0 <= balanceAmount t
  /\ (balanceAmount t <= 0 -> status t = PAID)
  /\ (0 < balanceAmount t -> 0 < paidAmount t -> status t = PARTIALLY_PAID)
  /\ (0 < balanceAmount t -> paidAmount t <= 0 -> status t = UNPAID).

(** Following the specification's words: the recompute takes the advance to
    be recorded when a linked payment has type Advance and the note's
    reference tag, and persists the paid amount accordingly. *)
Definition taggedDetection (castObjectId : string -> option ObjectId)
    (thnId : string) (db : Db) : Prop :=
  forall oid thn,
    castObjectId thnId = Some oid ->
    thns db !! oid = Some thn ->
    exists thn',
      thns (updateThnStatus castObjectId thnId db).1 !! oid = Some thn'
      /\ (taggedAdvanceRecorded oid thn (payments db) = true ->
          paidAmount thn' == linkedSum oid (payments db))
      /\ (taggedAdvanceRecorded oid thn (payments db) = false ->
          paidAmount thn' == linkedSum oid (payments db) + storedAdvance thn).

(** The store apart from the console. *)
Definition sameRecords (a b : Db) : Prop :=
  thns a = thns b /\ payments a = payments b
  /\ invoices a = invoices b /\ numbering a = numbering b.

End Backend.

(** ** The ledger service ([LedgerService], front end) *)

Module Ledger.

Module Customer.
Record t := mk { _id : string; name : string }.
End Customer.

Module LorryReceipt.
Record t := mk { lrNumber : N }.
End LorryReceipt.

Module Invoice.
Record t := mk {
  _id : string;
  invoiceNumber : N;
  date : string;
  customer : option Customer.t;
  lorryReceipts : list LorryReceipt.t;
  grandTotal : Q;
  remarks : string
}.
End Invoice.

Module TruckHiringNote.
Record t := mk {
  _id : string;
  thnNumber : N;
  date : string;
  truckOwnerName : string;
  loadingLocation : string;
  unloadingLocation : string;
  freightRate : Q
}.
End TruckHiringNote.

(** A reference that is either the raw id or the populated record. *)
Inductive Ref (A : Type) := Unresolved (id : string) | Resolved (record : A).
Arguments Unresolved {A} id.
Arguments Resolved {A} record.

(** Truthiness of an optional reference: an empty id string is falsy. *)
Definition truthyRef {A} (r : option (Ref A)) : bool :=
  match r with
  | Some (Unresolved "") | None => false
  | Some _ => true
  end.

Module Payment.
Record t := mk {
  _id : string;
  invoiceId : option (Ref Invoice.t);
  truckHiringNoteId : option (Ref TruckHiringNote.t);
  customerId : option string;
  customer : option Customer.t;
  date : string;
  amount : Q;
  type : PaymentType;
  mode : PaymentMode;
  referenceNo : option string;
  notes : option string;
  tdsApplicable : option bool;
  tdsRate : option Q;
  tdsAmount : option Q;
  tdsDate : option string
}.
End Payment.

Record LedgerFilters := mkFilters {
  startDate : option string;
  endDate : option string;
  customerId : option string;
  voucherType : option string;
  minAmount : option Q;
  maxAmount : option Q
}.

(** A template literal, kept as its pieces: literal text, an interpolated
    integer, an interpolated optional number, and an amount rendered as
    the rupee sign followed by [toLocaleString('en-IN', 2 decimals)]. *)
Inductive Piece :=
| Str (s : string)
| Int (n : N)
| Num (q : option Q)
| Rupees (q : Q).

Definition Text := list Piece.

Inductive BalanceType := DR | CR.

Inductive VoucherType := INVOICE | VPAYMENT | VADVANCE | VRECEIPT.

Record ClientLedgerEntry := mkClientEntry {
  c_date : string;
  c_voucherNumber : Text;
  c_voucherType : VoucherType;
  c_particulars : Text;
  c_debit : Q;
  c_credit : Q;
  c_balance : Q;
  c_balanceType : BalanceType;
  c_reference : option Text;
  c_paymentMode : option PaymentMode;
  c_notes : option string
}.

Record CompanyLedgerEntry := mkCompanyEntry {
  date : string;
  particulars : Text;
  debit : Q;
  credit : Q;
  balance : Q;
  balanceType : BalanceType;
  reference : option Text;
  customerName : option string;
  notes : option Text
}.

Record LedgerSummary := mkSummary {
  openingBalance : Q;
  openingBalanceType : BalanceType;
  totalDebits : Q;
  totalCredits : Q;
  closingBalance : Q;
  closingBalanceType : BalanceType;
  transactionCount : nat
}.

Record ClientLedgerData := mkClientLedger {
  cl_customerId : string;
  cl_customerName : string;
  cl_openingBalance : Q;
  cl_openingBalanceType : BalanceType;
  cl_transactions : list ClientLedgerEntry;
  cl_summary : LedgerSummary
}.

Record CompanySummary := mkCompanySummary {
  totalRevenue : Q;
  totalExpenses : Q;
  netProfit : Q;
  totalAssets : Q;
  totalLiabilities : Q
}.

Record CompanyLedgerData := mkCompanyLedger {
  period : string * string;
  transactions : list CompanyLedgerEntry;
  summary : CompanySummary
}.

(** What the two entry interfaces share: the fields the sort and the
    running balance read, and the object spread
    [{ ...entry, balance, balanceType }]. *)
Class LedgerLine (E : Type) := {
  lineDate : E -> string;
  lineDebit : E -> Q;
  lineCredit : E -> Q;
  lineBalance : E -> Q;
  lineBalanceType : E -> BalanceType;
  withBalance : Q -> BalanceType -> E -> E
}.

#[global] Instance ClientLine : LedgerLine ClientLedgerEntry := {
  lineDate := c_date;
  lineDebit := c_debit;
  lineCredit := c_credit;
  lineBalance := c_balance;
  lineBalanceType := c_balanceType;
  withBalance b t e :=
    mkClientEntry (c_date e) (c_voucherNumber e) (c_voucherType e) (c_particulars e)
                  (c_debit e) (c_credit e) b t (c_reference e) (c_paymentMode e) (c_notes e)
}.

#[global] Instance CompanyLine : LedgerLine CompanyLedgerEntry := {
  lineDate := date;
  lineDebit := debit;
  lineCredit := credit;
  lineBalance := balance;
  lineBalanceType := balanceType;
  withBalance b t e :=
    mkCompanyEntry (date e) (particulars e) (debit e) (credit e) b t
                   (reference e) (customerName e) (notes e)
}.

(** The spread [{ ...entry, balance, balanceType }] sets the two fields and
    nothing else. *)
Class LedgerLineLaws (E : Type) `{LedgerLine E} : Prop := {
  date_withBalance : forall b t e, lineDate (withBalance b t e) = lineDate e;
  debit_withBalance : forall b t e, lineDebit (withBalance b t e) = lineDebit e;
  credit_withBalance : forall b t e, lineCredit (withBalance b t e) = lineCredit e;
  balance_withBalance : forall b t e, lineBalance (withBalance b t e) = b;
  balanceType_withBalance : forall b t e, lineBalanceType (withBalance b t e) = t;
  withBalance_twice :
    forall b t b' t' e, withBalance b t (withBalance b' t' e) = withBalance b t e
}.

Section Service.

(** [new Date(s).getTime()]; [None] is the [NaN] of an invalid date. *)
Variable parseDate : string -> option Z.

(** [new Date(ms).toISOString().split('T')[0]] *)
Variable isoDate : Z -> string.

(** [new Date(a) >= new Date(b)] and [<=]: false as soon as one is invalid. *)
Definition dateGe (a b : string) : bool :=
  match parseDate a, parseDate b with
  | Some x, Some y => (y <=? x)%Z
  | _, _ => false
  end.

Definition dateLe (a b : string) : bool :=
  match parseDate a, parseDate b with
  | Some x, Some y => (x <=? y)%Z
  | _, _ => false
  end.

(** The comparator [new Date(a.date).getTime() - new Date(b.date).getTime()];
    [None] is [NaN]. *)
Definition compareDates (a b : string) : option Z :=
  match parseDate a, parseDate b with
  | Some x, Some y => Some (x - y)%Z
  | _, _ => None
  end.

(** [Array.prototype.sort(comparator)]. The sort is stable (ECMAScript
    2019), so for a consistent comparator its result is that of the
    insertion sort below; a [NaN] from the comparator counts as [+0]. When
    a date does not parse the comparator is not consistent and the
    standard leaves the order open: statements on the order are made for
    dates that parse. *)
Section Sort.
Context {E : Type} `{LedgerLine E}.

Definition comesAfter (a b : E) : bool :=
  match compareDates (lineDate a) (lineDate b) with
  | Some v => (0 <? v)%Z
  | None => false
  end.

Fixpoint insertByDate (x : E) (l : list E) : list E :=
  match l with
  | [] => [x]
  | y :: l' => if comesAfter x y then y :: insertByDate x l' else x :: y :: l'
  end.

Fixpoint sortByDate (l : list E) : list E :=
  match l with
  | [] => []
  | x :: l' => insertByDate x (sortByDate l')
  end.

(** [entries.map(entry => { runningBalance += ...; return {...} })] *)
Fixpoint runningBalances (runningBalance : Q) (l : list E) : list E :=
  match l with
  | [] => []
  | entry :: l' =>
      let runningBalance' := runningBalance + (lineDebit entry - lineCredit entry) in
      withBalance (Qabs runningBalance')
                  (if Qle_bool 0 runningBalance' then DR else CR) entry
        :: runningBalances runningBalance' l'
  end.
(** *** Vocabulary of the statements about a ledger *)

Definition timeOf (e : E) : option Z := parseDate (lineDate e).

(** An entry with its running balance blanked out. *)
Definition unbalanced (e : E) : E := withBalance 0 DR e.

Definition datedAt (t : Z) (e : E) : bool := bool_decide (timeOf e = Some t).

(** Every entry has a date that parses. *)
Definition AllDated (l : list E) : Prop := Forall (fun e => is_Some (timeOf e)) l.

(** [a] is dated no later than [b]. *)
Definition notAfter (a b : E) : Prop :=
  exists ta tb, timeOf a = Some ta /\ timeOf b = Some tb /\ (ta <= tb)%Z.

(** The sum of [debit - credit] over a list of entries. *)
Definition netSum (l : list E) : Q :=
  fold_right (fun e acc => (lineDebit e - lineCredit e) + acc) 0 l.

(** The running balance at every index of the returned [transactions]:
    the absolute value of the sum of [debit - credit] so far, on the DR
    side when that sum is not negative and on the CR side otherwise. *)
Record BalanceLaw (transactions : list E) : Prop := {
  law_balance :
    forall i e, transactions !! i = Some e ->
      lineBalance e == Qabs (netSum (take (S i) transactions));
  law_side :
    forall i e, transactions !! i = Some e ->
      (0 <= netSum (take (S i) transactions) -> lineBalanceType e = DR)
      /\ (netSum (take (S i) transactions) < 0 -> lineBalanceType e = CR)
}.

(** The order of the returned [transactions] with respect to the array
    [entries] they were made from: ascending dates, entries of one date in
    their original order. *)
Record DateOrder (entries transactions : list E) : Prop := {
  law_ascending :
    forall i j a b, (i < j)%nat ->
      transactions !! i = Some a -> transactions !! j = Some b -> notAfter a b;
  law_stable :
    forall t, List.filter (datedAt t) (List.map unbalanced transactions)
              = List.filter (datedAt t) (List.map unbalanced entries)
}.
End Sort.

Definition customerNameOrUnknown (c : option Customer.t) : string :=
  orStr (Customer.name <$> c) "Unknown Customer".

Definition invoiceRefPiece (r : Ref Invoice.t) : Piece :=
  match r with
  | Unresolved id => Str id
  | Resolved invoice => Int (Invoice.invoiceNumber invoice)
  end.

Definition thnRefPiece (r : Ref TruckHiringNote.t) : Piece :=
  match r with
  | Unresolved id => Str id
  | Resolved thn => Int (TruckHiringNote.thnNumber thn)
  end.

(** The interpolation of an optional reference; it is only reached where
    the reference is truthy. *)
Definition refPiece {A} (f : Ref A -> Piece) (r : option (Ref A)) : Piece :=
  match r with
  | Some ref => f ref
  | None => Str "undefined"
  end.

(** [payment.invoiceId ? `INV-${...}` : undefined] *)
Definition invoiceReference (payment : Payment.t) : option Text :=
  if truthyRef (Payment.invoiceId payment)
  then Some [Str "INV-"; refPiece invoiceRefPiece (Payment.invoiceId payment)]
  else None.

Definition getInvoiceDescription (invoice : Invoice.t) : Text :=
  let lrCount := length (Invoice.lorryReceipts invoice) in
  let customerName := customerNameOrUnknown (Invoice.customer invoice) in
  [Str "Freight charges for "; Int (N.of_nat lrCount);
   Str (" LR" ++ (if (1 <? lrCount)%nat then "s" else "") ++ " - " ++ customerName)].

Definition getPaymentParticulars (payment : Payment.t)
    (customerInvoices : list Invoice.t) (customerTHNs : list TruckHiringNote.t) : Text :=
  let customerName := customerNameOrUnknown (Payment.customer payment) in
  let paymentMode := PaymentMode_str (Payment.mode payment) in
  if isAdvance (Payment.type payment)
  then [Str ("Advance received from " ++ customerName ++ " (Ref: "
             ++ orStr (Payment.referenceNo payment) "ADVANCE" ++ ") - Mode: " ++ paymentMode)]
  else if truthyRef (Payment.invoiceId payment)
  then [Str "Payment for Invoice INV-";
        refPiece invoiceRefPiece (Payment.invoiceId payment);
        Str (" - " ++ customerName ++ " (Mode: " ++ paymentMode ++ ")")]
  else if truthyRef (Payment.truckHiringNoteId payment)
  then [Str "Payment for THN-";
        refPiece thnRefPiece (Payment.truckHiringNoteId payment);
        Str (" - " ++ customerName ++ " (Mode: " ++ paymentMode ++ ")")]
  else [Str ("Payment received from " ++ customerName ++ " (Mode: " ++ paymentMode ++ ")")].

(** [x || undefined] on a string. *)
Definition nonEmpty (s : option string) : option string :=
  if truthyStr s then s else None.

(** *** [generateClientLedger] *)

(** [!filters || !filters.startDate || new Date(d) >= new Date(filters.startDate)] *)
Definition fromStart (filters : option LedgerFilters) (d : string) : bool :=
  match filters with
  | None => true
  | Some f =>
      match startDate f with
      | Some start => if truthyStr (Some start) then dateGe d start else true
      | None => true
      end
  end.

Definition isCustomerInvoice (customerId : string) (inv : Invoice.t) : bool :=
  match Invoice.customer inv with
  | Some c => String.eqb (Customer._id c) customerId
  | None => false
  end.

Definition isCustomerPayment (customerId : string) (p : Payment.t) : bool :=
  match Payment.customerId p with
  | Some id => String.eqb id customerId
  | None =>
      match Payment.customer p with
      | Some c => String.eqb (Customer._id c) customerId
      | None => false
      end
  end.

Definition clientInvoiceEntry (invoice : Invoice.t) : ClientLedgerEntry :=
  mkClientEntry (Invoice.date invoice)
    [Str "INV-"; Int (Invoice.invoiceNumber invoice)]
    INVOICE
    ([Str "Invoice No: INV-"; Int (Invoice.invoiceNumber invoice); Str " - "]
       ++ getInvoiceDescription invoice)%list
    (Invoice.grandTotal invoice) 0 0 DR
    (Some [Str "INV-"; Int (Invoice.invoiceNumber invoice)])
    None
    (nonEmpty (Some (Invoice.remarks invoice))).

Definition clientPaymentEntry (customerInvoices : list Invoice.t)
    (customerTHNs : list TruckHiringNote.t) (payment : Payment.t) : ClientLedgerEntry :=
  mkClientEntry (Payment.date payment)
    [Str (orStr (Payment.referenceNo payment) ("PAY-" ++ sliceLast6 (Payment._id payment)))]
    (if isAdvance (Payment.type payment) then VADVANCE else VPAYMENT)
    (getPaymentParticulars payment customerInvoices customerTHNs)
    0 (Payment.amount payment) 0 CR
    (invoiceReference payment)
    (Some (Payment.mode payment))
    (nonEmpty (Payment.notes payment)).

(** The array [entries] just before it is sorted. *)
Definition clientEntries (customerId : string) (customer : Customer.t)
    (invoices : list Invoice.t) (payments : list Payment.t)
    (truckHiringNotes : list TruckHiringNote.t) (filters : option LedgerFilters)
  : list ClientLedgerEntry :=
  let customerInvoices := List.filter (isCustomerInvoice customerId) invoices in
  let customerPayments := List.filter (isCustomerPayment customerId) payments in
  let customerTHNs :=
    List.filter (fun thn => String.eqb (TruckHiringNote.truckOwnerName thn)
                                       (Customer.name customer)) truckHiringNotes in
  (List.map clientInvoiceEntry
     (List.filter (fun invoice => fromStart filters (Invoice.date invoice)) customerInvoices)
   ++ List.map (clientPaymentEntry customerInvoices customerTHNs)
        (List.filter (fun payment => fromStart filters (Payment.date payment))
                     customerPayments))%list.

Definition generateClientLedger (customerId : string) (customer : Customer.t)
    (invoices : list Invoice.t) (payments : list Payment.t)
    (truckHiringNotes : list TruckHiringNote.t) (filters : option LedgerFilters)
  : ClientLedgerData :=
  let entries := clientEntries customerId customer invoices payments truckHiringNotes filters in
  let processedEntries := runningBalances 0 (sortByDate entries) in
  let summary :=
    mkSummary 0 DR
      (fold_left (fun sum entry => sum + c_debit entry) processedEntries 0)
      (fold_left (fun sum entry => sum + c_credit entry) processedEntries 0)
      (match last processedEntries with Some e => c_balance e | None => 0 end)
      (match last processedEntries with Some e => c_balanceType e | None => DR end)
      (length processedEntries) in
  mkClientLedger customerId (Customer.name customer) 0 DR processedEntries summary.

(** *** [generateCompanyLedger] *)

(** The two readings of the clock behind the default period. *)
Record Clock := mkClock { dateNow : Z; newDate : Z }.

Definition periodStart (clock : Clock) (filters : option LedgerFilters) : string :=
  orStr (filters ≫= startDate) (isoDate (dateNow clock - 365 * 24 * 60 * 60 * 1000)%Z).

Definition periodEnd (clock : Clock) (filters : option LedgerFilters) : string :=
  orStr (filters ≫= endDate) (isoDate (newDate clock)).

Definition inPeriod (startDate endDate d : string) : bool :=
  dateGe d startDate && dateLe d endDate.

Definition companyInvoiceEntries (invoice : Invoice.t) : list CompanyLedgerEntry :=
  let text := [Str "Invoice No: INV-"; Int (Invoice.invoiceNumber invoice);
               Str (" - " ++ customerNameOrUnknown (Invoice.customer invoice))] in
  let ref := Some [Str "INV-"; Int (Invoice.invoiceNumber invoice)] in
  let name := Customer.name <$> Invoice.customer invoice in
  let notes := (fun s => [Str s]) <$> nonEmpty (Some (Invoice.remarks invoice)) in
  [ mkCompanyEntry (Invoice.date invoice) text 0 (Invoice.grandTotal invoice) 0 CR ref name notes;
    mkCompanyEntry (Invoice.date invoice) text (Invoice.grandTotal invoice) 0 0 DR ref name notes ].

(** [payment.tdsApplicable && payment.type === RECEIPT && payment.tdsAmount
     && payment.tdsAmount > 0] *)
Definition hasTDS (payment : Payment.t) : bool :=
  bool_decide (Payment.tdsApplicable payment = Some true)
  && isReceipt (Payment.type payment)
  && match Payment.tdsAmount payment with
     | Some a => negb (Qeq_bool a 0) && gtb0 a
     | None => false
     end.

(** [payment.tdsAmount!] *)
Definition tdsOf (payment : Payment.t) : Q :=
  match Payment.tdsAmount payment with Some a => a | None => 0 end.

Definition companyPaymentEntries (payment : Payment.t) : list CompanyLedgerEntry :=
  let customerName := customerNameOrUnknown (Payment.customer payment) in
  let name := Customer.name <$> Payment.customer payment in
  let mode := PaymentMode_str (Payment.mode payment) in
  let ref := Some [Str (orStr (Payment.referenceNo payment) (sliceLast6 (Payment._id payment)))] in
  let plainNotes := Some [Str (orStr (Payment.notes payment) ("Payment Mode: " ++ mode))] in
  if isAdvance (Payment.type payment)
  then
    [ mkCompanyEntry (Payment.date payment)
        [Str ("Advance received from " ++ customerName ++ " (Ref: "
              ++ orStr (Payment.referenceNo payment) (sliceLast6 (Payment._id payment)) ++ ")")]
        0 (Payment.amount payment) 0 CR ref name plainNotes;
      mkCompanyEntry (Payment.date payment)
        [Str ("Advance received from " ++ customerName)]
        (Payment.amount payment) 0 0 DR ref name plainNotes ]
  else
    let grossAmount :=
      if hasTDS payment then Payment.amount payment + tdsOf payment
      else Payment.amount payment in
    let netAmount := Payment.amount payment in
    ([ mkCompanyEntry (Payment.date payment)
         (if hasTDS payment
          then [Str ("Payment received from " ++ customerName ++ " (Net after TDS: ");
                Rupees (tdsOf payment); Str ")"]
          else [Str ("Payment received from " ++ customerName)])
         netAmount 0 0 DR ref name
         (if hasTDS payment
          then Some [Str (trimStart (orStr (Payment.notes payment) ""
                                     ++ " Payment Mode: " ++ mode ++ ". TDS @ "));
                     Num (Payment.tdsRate payment); Str "%: "; Rupees (tdsOf payment)]
          else plainNotes) ]
     ++ (if hasTDS payment
         then [ mkCompanyEntry (orStr (Payment.tdsDate payment) (Payment.date payment))
                  [Str ("TDS deducted from payment received from " ++ customerName ++ " @ ");
                   Num (Payment.tdsRate payment); Str "%"]
                  0 (tdsOf payment) 0 CR ref name
                  (Some [Str "TDS @ "; Num (Payment.tdsRate payment);
                         Str "% on gross payment of "; Rupees grossAmount]) ]
         else [])
     ++ [ mkCompanyEntry (Payment.date payment)
            ([Str "Payment for "]
             ++ match invoiceReference payment with
                | Some inv => inv
                | None => [Str "General Payment"]
                end
             ++ [Str (" - " ++ customerName)]
             ++ (if hasTDS payment
                 then [Str " (Gross: "; Rupees grossAmount; Str ", TDS: ";
                       Rupees (tdsOf payment); Str ")"]
                 else []))
            0 grossAmount 0 CR (invoiceReference payment) name plainNotes ])%list.

Definition companyThnEntries (thn : TruckHiringNote.t) : list CompanyLedgerEntry :=
  let ref := Some [Str "THN-"; Int (TruckHiringNote.thnNumber thn)] in
  let name := Some (TruckHiringNote.truckOwnerName thn) in
  let notes := Some [Str ("Route: " ++ TruckHiringNote.loadingLocation thn ++ " to "
                          ++ TruckHiringNote.unloadingLocation thn)] in
  [ mkCompanyEntry (TruckHiringNote.date thn)
      [Str "THN No: THN-"; Int (TruckHiringNote.thnNumber thn);
       Str (" - " ++ TruckHiringNote.truckOwnerName thn)]
      (TruckHiringNote.freightRate thn) 0 0 DR ref name notes;
    mkCompanyEntry (TruckHiringNote.date thn)
      [Str "Payment for THN No: THN-"; Int (TruckHiringNote.thnNumber thn)]
      0 (TruckHiringNote.freightRate thn) 0 CR ref name notes ].

(** The array [entries] just before it is sorted. *)
Definition companyEntries (startDate endDate : string)
    (invoices : list Invoice.t) (payments : list Payment.t)
    (truckHiringNotes : list TruckHiringNote.t) : list CompanyLedgerEntry :=
  (flat_map (fun invoice =>
     if inPeriod startDate endDate (Invoice.date invoice)
     then companyInvoiceEntries invoice else []) invoices
   ++ flat_map (fun payment =>
        if inPeriod startDate endDate (Payment.date payment)
        then companyPaymentEntries payment else []) payments
   ++ flat_map (fun thn =>
        if inPeriod startDate endDate (TruckHiringNote.date thn)
        then companyThnEntries thn else []) truckHiringNotes)%list.

Definition generateCompanyLedger (clock : Clock) (customers : list Customer.t)
    (invoices : list Invoice.t) (payments : list Payment.t)
    (truckHiringNotes : list TruckHiringNote.t) (filters : option LedgerFilters)
  : CompanyLedgerData :=
  let startDate := periodStart clock filters in
  let endDate := periodEnd clock filters in
  let entries := companyEntries startDate endDate invoices payments truckHiringNotes in
  let processedEntries := runningBalances 0 (sortByDate entries) in
  let totalRevenue := fold_left (fun sum inv => sum + Invoice.grandTotal inv) invoices 0 in
  let totalExpenses :=
    fold_left (fun sum thn => sum + TruckHiringNote.freightRate thn) truckHiringNotes 0 in
  let netProfit := totalRevenue - totalExpenses in
  mkCompanyLedger (startDate, endDate) processedEntries
    (mkCompanySummary totalRevenue totalExpenses netProfit 0 0).

(** *** The claims on filters and on TDS receipts, in the specification's words *)

(** Every entry is dated within the period the filters give. *)
Definition withinFilters {E} `{LedgerLine E}
    (filters : LedgerFilters) (l : list E) : Prop :=
  forall e, In e l ->
    (forall s, startDate filters = Some s -> truthyStr (Some s) = true ->
               dateGe (lineDate e) s = true)
    /\ (forall s, endDate filters = Some s -> truthyStr (Some s) = true ->
                  dateLe (lineDate e) s = true).

(** Debits and credits of a list of entries come to the same total. *)
Definition balancedBooks {E} `{LedgerLine E} (l : list E) : Prop :=
  sumOver lineDebit l == sumOver lineCredit l.

End Service.

End Ledger.

(** ** Host functions, for running the model on data

    The developments above are parametric in the host's date functions and
    in mongoose's id cast. The readings below cover ISO calendar dates
    ([YYYY-MM-DD], years 0000 to 9999, read as UTC midnight) and ids of 24
    hexadecimal digits. *)

Module Host.

Local Open Scope Z_scope.

Definition digitOf (c : ascii) : option Z :=
  let n := Z.of_nat (nat_of_ascii c) in
  if (48 <=? n) && (n <=? 57) then Some (n - 48) else None.

Definition numberOf (cs : list ascii) : option Z :=
  fold_left (fun acc c => a ← acc; d ← digitOf c; Some (10 * a + d)) cs (Some 0).

Definition isLeap (y : Z) : bool :=
  (y mod 4 =? 0) && (negb (y mod 100 =? 0) || (y mod 400 =? 0)).

Definition daysInMonth (y m : Z) : Z :=
  if m =? 2 then (if isLeap y then 29 else 28)
  else if (m =? 4) || (m =? 6) || (m =? 9) || (m =? 11) then 30
  else 31.

(** Days since 1970-01-01 of a proleptic Gregorian date. *)
Definition daysFromCivil (y m d : Z) : Z :=
  let y' := if m <=? 2 then y - 1 else y in
  let era := y' / 400 in
  let yoe := y' - era * 400 in
  let doy := (153 * (if 2 <? m then m - 3 else m + 9) + 2) / 5 + d - 1 in
  let doe := yoe * 365 + yoe / 4 - yoe / 100 + doy in
  era * 146097 + doe - 719468.

Definition msPerDay : Z := 24 * 60 * 60 * 1000.

Definition parseDate (s : string) : option Z :=
  match list_ascii_of_string s with
  | [y1; y2; y3; y4; "-"%char; m1; m2; "-"%char; d1; d2] =>
      y ← numberOf [y1; y2; y3; y4];
      m ← numberOf [m1; m2];
      d ← numberOf [d1; d2];
      if (1 <=? m) && (m <=? 12) && (1 <=? d) && (d <=? daysInMonth y m)
      then Some (daysFromCivil y m d * msPerDay) else None
  | _ => None
  end.

Definition pad (width : nat) (n : Z) : string :=
  let digits := showN (Z.to_N n) in
  string_of_list_ascii (repeat "0"%char (width - String.length digits)) ++ digits.

Definition isoDate (ms : Z) : string :=
  let z := ms / msPerDay + 719468 in
  let era := z / 146097 in
  let doe := z - era * 146097 in
  let yoe := (doe - doe / 1460 + doe / 36524 - doe / 146096) / 365 in
  let doy := doe - (365 * yoe + yoe / 4 - yoe / 100) in
  let mp := (5 * doy + 2) / 153 in
  let d := doy - (153 * mp + 2) / 5 + 1 in
  let m := if mp <? 10 then mp + 3 else mp - 9 in
  let y := yoe + era * 400 + (if m <=? 2 then 1 else 0) in
  pad 4 y ++ "-" ++ pad 2 m ++ "-" ++ pad 2 d.

Definition hexValue (c : ascii) : N :=
  let n := N.of_nat (nat_of_ascii c) in
  (if n <=? 57 then n - 48 else if n <=? 70 then n - 55 else n - 87)%N.

Definition castObjectId (s : string) : option ObjectId :=
  if isHex24 s
  then Some (fold_left (fun acc c => (16 * acc + hexValue c)%N) (list_ascii_of_string s) 0%N)
  else None.

End Host.

(** ** Sample data *)

Module Sample.

Definition acceptAll {A : Type} (_ : A) : bool := true.

(** An [updateInvoiceStatus] that leaves the invoices as they are. *)
Definition invoicesUntouched (_ : string) (db : Backend.Db)
  : option (gmap ObjectId Backend.InvoiceDoc) := Some (Backend.invoices db).

Definition noteIdText : string := "0000000000000000000000a1".
Definition noteOid : ObjectId := 161%N.

(** A note from before advances had payment records, on which an Advance
    payment was later entered by hand. *)
Definition legacyNote : Backend.ThnDoc :=
  Backend.mkThnDoc 7 "2025-01-01" "Cash" 10000 (Some 500) (Some 2000)
                   8500 2000 PARTIALLY_PAID [].

Definition manualAdvance : Backend.PaymentDoc :=
  Backend.mkPaymentDoc 1 1 None (Some noteOid) None "2025-01-02" 1000 ADVANCE "Cash"
                       (Some "CASH-ADV") None None None None None.

Definition legacyDb : Backend.Db :=
  Backend.mkDb {[ noteOid := legacyNote ]} [manualAdvance] ∅ ∅ [].

Definition emptyDb : Backend.Db := Backend.mkDb ∅ [] ∅ ∅ [].

Definition noteEnv : Backend.NoteEnv :=
  Backend.mkNoteEnv 1700000000000 noteOid 1700000000001 162.

Definition noteData : Backend.NoteData :=
  Backend.mkNoteData "2025-01-01" "Cash" 8000 (Some 5000) (Some 500).

Definition paymentEnv : Backend.PaymentEnv := Backend.mkPaymentEnv 1700000000002 163.

(** Freight 8000, additional charges 500, advance 2000. *)
Definition scenarioNote : Backend.NoteData :=
  Backend.mkNoteData "2025-01-01" "Cash" 8000 (Some 2000) (Some 500).

(** A receipt of 6500 against the note. *)
Definition scenarioReceipt : Validation.RawPayment :=
  Validation.mkRawPayment
    Validation.JUndefined (Validation.JString noteIdText) Validation.JUndefined
    (Validation.JNumber 6500) (Validation.JString "2025-01-10")
    (Validation.JString "Receipt") (Validation.JString "Cash")
    Validation.JUndefined Validation.JUndefined
    Validation.JUndefined Validation.JUndefined
    Validation.JUndefined Validation.JUndefined.

(** The paid amount, balance and status of the sample note in a store. *)
Definition financials (db : Backend.Db) : option (Q * Q * THNStatus) :=
  (fun t => (Qred (Backend.paidAmount t), Qred (Backend.balanceAmount t), Backend.status t))
    <$> Backend.thns db !! noteOid.

(** A receipt of 10000 gross against the note, TDS at 10 percent. *)
Definition receiptBody : Validation.RawPayment :=
  Validation.mkRawPayment
    Validation.JUndefined (Validation.JString noteIdText) Validation.JUndefined
    (Validation.JNumber 10000) (Validation.JString "2025-01-10")
    (Validation.JString "Receipt") (Validation.JString "NEFT")
    Validation.JUndefined Validation.JUndefined
    (Validation.JBool true) (Validation.JNumber 10)
    Validation.JUndefined Validation.JUndefined.

(** A payment that names an invoice and a note at once. *)
Definition bothBody : Validation.RawPayment :=
  Validation.mkRawPayment
    (Validation.JString "0000000000000000000000b1") (Validation.JString noteIdText)
    (Validation.JString "0000000000000000000000c1")
    (Validation.JNumber 500) (Validation.JString "2025-01-10")
    (Validation.JString "Payment") (Validation.JString "Cash")
    Validation.JUndefined Validation.JUndefined
    Validation.JUndefined Validation.JUndefined
    Validation.JUndefined Validation.JUndefined.

(** A payment that names neither. *)
Definition neitherBody : Validation.RawPayment :=
  Validation.mkRawPayment
    Validation.JUndefined Validation.JUndefined
    (Validation.JString "0000000000000000000000c1")
    (Validation.JNumber 500) (Validation.JString "2025-01-10")
    (Validation.JString "Payment") (Validation.JString "Cash")
    Validation.JUndefined Validation.JUndefined
    Validation.JUndefined Validation.JUndefined
    Validation.JUndefined Validation.JUndefined.

Definition acme : Ledger.Customer.t := Ledger.Customer.mk "c1" "Acme".

Definition invoiceJan : Ledger.Invoice.t :=
  Ledger.Invoice.mk "i1" 101 "2025-01-01" (Some acme)
                    [Ledger.LorryReceipt.mk 11] 12000 "".

Definition invoiceMar : Ledger.Invoice.t :=
  Ledger.Invoice.mk "i2" 102 "2025-03-01" (Some acme)
                    [Ledger.LorryReceipt.mk 12; Ledger.LorryReceipt.mk 13] 4000 "".

Definition paymentJan : Ledger.Payment.t :=
  Ledger.Payment.mk "p00000000001" (Some (Ledger.Unresolved "i1")) None (Some "c1")
                    (Some acme) "2025-01-15" 5000 PAYMENT NEFT None None
                    None None None None.

(** The stored form of a receipt of 10000 gross with TDS at 10 percent. *)
Definition tdsReceipt : Ledger.Payment.t :=
  Ledger.Payment.mk "p00000000002" (Some (Ledger.Unresolved "i1")) None (Some "c1")
                    (Some acme) "2025-01-20" 9000 RECEIPT NEFT None None
                    (Some true) (Some 10) (Some 1000) None.

Definition hireMar : Ledger.TruckHiringNote.t :=
  Ledger.TruckHiringNote.mk "t1" 7 "2025-03-05" "Owner" "Pune" "Mumbai" 8000.

Definition january : Ledger.LedgerFilters :=
  Ledger.mkFilters (Some "2025-01-01") (Some "2025-01-31") None None None None.

Definition januaryOnwards : Ledger.LedgerFilters :=
  Ledger.mkFilters (Some "2025-01-01") None (Some "c9") (Some "INVOICE")
                   (Some 1) (Some 2).

Definition clock : Ledger.Clock := Ledger.mkClock 1738368000000 1738368000000.

End Sample.

(** ** The remaining handlers of the two controllers

    [deletePayment] (paymentController.ts) and [getTruckHiringNotes],
    [getTruckHiringNoteById], [recalculateThnStatus] and
    [deleteTruckHiringNote] (truck-hiring-note controller). The lines these
    handlers write to the console and the [populate] of the replies are
    left out. *)

Module Handlers.
Import Backend.

(** How a handler wrapped in [asyncHandler] ends when its queries resolve:
    with [res.json(body)], or with [res.status(404)] and an [Error] thrown
    for the error middleware. A query that rejects is the [Throw] of [M]. *)
Inductive Reply (A : Type) :=
| Json (a : A)
| NotFound (message : string).
Arguments Json {A} a.
Arguments NotFound {A} message.

(** [{ _id: oid }] as a query filter. *)
Definition hasId (oid : ObjectId) (p : PaymentDoc) : bool :=
  bool_decide (_id p = oid).

(** The collection without the first document of the given id. *)
Fixpoint removeById (oid : ObjectId) (ps : list PaymentDoc) : list PaymentDoc :=
  match ps with
  | [] => []
  | p :: ps' => if hasId oid p then ps' else p :: removeById oid ps'
  end.

(** [{ $pull: { payments: id } }] *)
Definition pull (payment : ObjectId) (ids : list ObjectId) : list ObjectId :=
  List.filter (fun x => negb (bool_decide (x = payment))) ids.

Definition pullThnPayment (payment : ObjectId) (t : ThnDoc) : ThnDoc :=
  mkThnDoc (thnNumber t) (thnDate t) (paymentMode t) (freightRate t)
           (additionalCharges t) (advanceAmount t) (balanceAmount t) (paidAmount t)
           (status t) (pull payment (thnPayments t)).

Definition pullInvoicePayment (payment : ObjectId) (i : InvoiceDoc) : InvoiceDoc :=
  mkInvoiceDoc (grandTotal i) (invoiceStatus i) (pull payment (invoicePayments i)).

(** [find().sort({ thnNumber: -1 })]: the notes with their ids, highest
    number first. *)
Definition numberedAfter (a b : ObjectId * ThnDoc) : Prop :=
  (thnNumber b.2 <= thnNumber a.2)%N.

#[global] Instance numberedAfter_dec (a b : ObjectId * ThnDoc) : Decision (numberedAfter a b).
Proof. unfold numberedAfter. apply _. Defined.

Definition findThnsSorted (db : Db) : list (ObjectId * ThnDoc) :=
  merge_sort numberedAfter (map_to_list (thns db)).

Section Controllers.

Variable castObjectId : string -> option ObjectId.

(** [oid.toString()] *)
Variable showObjectId : ObjectId -> string.

Variable updateInvoiceStatus : string -> Db -> option (gmap ObjectId InvoiceDoc).

(** [Payment.findByIdAndDelete(id)] *)
Definition findPaymentByIdAndDelete (id : string) : M (option PaymentDoc) :=
  oid ← castId castObjectId id;
  found ← gets (fun db => List.find (hasId oid) (payments db));
  match found with
  | Some _ => modify (setPayments (removeById oid));; mret found
  | None => mret None
  end.

Definition deletePayment (id : string) : M (Reply string) :=
  payment ← findPaymentByIdAndDelete id;
  match payment with
  | None => mret (NotFound "Payment not found")
  | Some payment =>
      match invoiceId payment, truckHiringNoteId payment with
      | Some invoice, _ =>
          let invoiceId := showObjectId invoice in
          findInvoiceByIdAndUpdate castObjectId invoiceId (pullInvoicePayment (_id payment));;
          runUpdateInvoiceStatus updateInvoiceStatus invoiceId
      | None, Some note =>
          let thnId := showObjectId note in
          findThnByIdAndUpdate castObjectId thnId (pullThnPayment (_id payment));;
          updateThnStatus castObjectId thnId
      | None, None => mret tt
      end;;
      mret (Json "Deleted Payment")
  end.

Definition getTruckHiringNotes : M (list (ObjectId * ThnDoc)) :=
  notes ← gets findThnsSorted;
  recomputeAll castObjectId (List.map (fun note => showObjectId note.1) notes);;
  updatedNotes ← gets findThnsSorted;
  mret updatedNotes.

Definition getTruckHiringNoteById (id : string) : M (Reply ThnDoc) :=
  note ← findThnById castObjectId id;
  match note with
  | Some note =>
      updateThnStatus castObjectId id;;
      updatedNote ← findThnById castObjectId id;
      mret (Json (default note updatedNote))
  | None => mret (NotFound "Truck Hiring Note not found")
  end.

Definition recalculateThnStatus (thnId : string) : M (Reply ThnDoc) :=
  updateThnStatus castObjectId thnId;;
  updatedNote ← findThnById castObjectId thnId;
  match updatedNote with
  | Some updatedNote => mret (Json updatedNote)
  | None => mret (NotFound "Truck Hiring Note not found")
  end.

(** [Payment.deleteMany({ truckHiringNoteId: id })] *)
Definition deletePaymentsOf (id : string) : M unit :=
  oid ← castId castObjectId id;
  modify (setPayments (List.filter (fun p => negb (linkedTo oid p)))).

(** [TruckHiringNote.findByIdAndDelete(id)] *)
Definition findThnByIdAndDelete (id : string) : M unit :=
  oid ← castId castObjectId id;
  modify (setThns (delete oid)).

Definition deleteTruckHiringNote (id : string) : M (Reply string) :=
  note ← findThnById castObjectId id;
  match note with
  | None => mret (NotFound "Truck Hiring Note not found")
  | Some _ =>
      deletePaymentsOf id;;
      findThnByIdAndDelete id;;
      mret (Json "Truck Hiring Note deleted successfully")
  end.

End Controllers.

End Handlers.

(** *** Vocabulary of the statements about the handlers *)

Module Recomputed.
Import Backend.

(** The paid amount the recompute arrives at for a note, given the
    payments in store. *)
Definition paidOf (oid : ObjectId) (thn : ThnDoc) (ps : list PaymentDoc) : Q :=
  let paidAmount := match aggregateTotal oid ps with total :: _ => total | [] => 0 end in
  match findAdvancePayment oid ps with
  | Some _ => paidAmount
  | None => paidAmount + orZero (advanceAmount thn)
  end.

(** The note as the recompute rewrites it. *)
Definition noteOf (oid : ObjectId) (thn : ThnDoc) (ps : list PaymentDoc) : ThnDoc :=
  let totalPaidAmount := paidOf oid thn ps in
  let balanceAmount :=
    max0 (freightRate thn + orZero (additionalCharges thn) - totalPaidAmount) in
  setFinancials totalPaidAmount balanceAmount (thnStatusOf balanceAmount totalPaidAmount) thn.

(** A note with another list of payment ids. *)
Definition withPayments (ids : list ObjectId) (t : ThnDoc) : ThnDoc :=
  mkThnDoc (thnNumber t) (thnDate t) (paymentMode t) (freightRate t)
           (additionalCharges t) (advanceAmount t) (balanceAmount t) (paidAmount t)
           (status t) ids.

(** A computation that does not reject with a [ZodError]. *)
Definition neverZod {A} (m : M A) : Prop :=
  forall db db' e, m db = (db', Throw e) -> e <> ZodError.

End Recomputed.

(** ** [updateTruckHiringNote] (truck-hiring-note controller)

    As for the other handlers, console lines and [populate] are left out.
    [Math.max(0, x)] is [NaN] when the stored note has no [advanceAmount]
    and the request brings none; mongoose does not cast [NaN] to a Number,
    so the update of the note rejects with a [CastError] then. *)

Module NoteUpdate.
Import Backend Handlers.

(** The validated request ([updateTruckHiringNoteSchema.parse]), as far as
    the controller and the modelled fields of the note go. *)
Record UpdateData := mkUpdateData {
  date : option string;
  paymentMode : option string;
  freightRate : option Q;
  advanceAmount : option Q;
  additionalCharges : option Q
}.

(** The keys the controller adds to [updateData]. *)
Record Financials := mkFinancials {
  newFreightRate : Q;
  newAdvanceAmount : option Q;
  newAdditionalCharges : Q;
  newBalanceAmount : option Q
}.

(** [Payment.findOne({ truckHiringNoteId, type: ADVANCE, referenceNo })] *)
Definition findTaggedAdvance (oid : ObjectId) (thnNumber : N) (ps : list PaymentDoc)
  : option PaymentDoc :=
  List.find (fun p => linkedTo oid p && isAdvance (type p)
                      && bool_decide (referenceNo p = Some (advanceReference thnNumber))) ps.

(** The update document [{ amount, date }]. *)
Definition setAmountDate (amount : Q) (date : string) (p : PaymentDoc) : PaymentDoc :=
  mkPaymentDoc (_id p) (paymentNumber p) (invoiceId p) (truckHiringNoteId p) (customer p)
               date amount (type p) (mode p) (referenceNo p) (notes p)
               (tdsApplicable p) (tdsRate p) (tdsAmount p) (tdsDate p).

(** [Payment.findByIdAndUpdate(id, update)] on the collection. *)
Fixpoint updateById (oid : ObjectId) (f : PaymentDoc -> PaymentDoc) (ps : list PaymentDoc)
  : list PaymentDoc :=
  match ps with
  | [] => []
  | p :: ps' => if hasId oid p then f p :: ps' else p :: updateById oid f ps'
  end.

(** The [$set] of the keys of [updateData] on the note. *)
Definition applyUpdate (updateData : UpdateData) (financials : option Financials)
    (t : ThnDoc) : ThnDoc :=
  mkThnDoc (thnNumber t)
           (default (thnDate t) (date updateData))
           (default (Backend.paymentMode t) (paymentMode updateData))
           (match financials with
            | Some f => newFreightRate f
            | None => Backend.freightRate t
            end)
           (match financials with
            | Some f => Some (newAdditionalCharges f)
            | None => Backend.additionalCharges t
            end)
           (match financials with
            | Some f => newAdvanceAmount f
            | None => Backend.advanceAmount t
            end)
           (match financials with
            | Some f => default (balanceAmount t) (newBalanceAmount f)
            | None => balanceAmount t
            end)
           (paidAmount t) (status t) (thnPayments t).

Section Controller.

Variable castObjectId : string -> option ObjectId.
Variable paymentModelAccepts : PaymentDoc -> bool.

(** The block "Handle advance amount changes". *)
Definition syncAdvance (env : PaymentEnv) (oid : ObjectId) (existingNote : ThnDoc)
    (updateData : UpdateData) (advanceAmount : Q) : M unit :=
  existingAdvancePayment ←
    gets (fun db => findTaggedAdvance oid (thnNumber existingNote) (payments db));
  if gtb0 advanceAmount
  then
    match existingAdvancePayment with
    | Some existing =>
        modify (setPayments
                  (updateById (_id existing)
                     (setAmountDate advanceAmount
                        (orStr (date updateData) (thnDate existingNote)))))
    | None =>
        tryCatch
          (paymentNumber ← nextNumber "paymentId" (dateNow env);
           savedAdvancePayment ← savePayment paymentModelAccepts
             (mkPaymentDoc (newPaymentId env) paymentNumber None (Some oid) None
                           (orStr (date updateData) (thnDate existingNote))
                           advanceAmount ADVANCE
                           (orStr (Some (orStr (paymentMode updateData)
                                               (Backend.paymentMode existingNote)))
                                  (PaymentMode_str CASH))
                           (Some (advanceReference (thnNumber existingNote)))
                           (Some ("Advance payment for THN #"
                                  ++ showN (thnNumber existingNote)))
                           None None None None);
           modify (setThns (alter (pushThnPayment (_id savedAdvancePayment)) oid)))
          (fun _ => mret tt)
    end
  else
    match existingAdvancePayment with
    | Some existing =>
        if Qeq_bool advanceAmount 0
        then modify (setPayments (removeById (_id existing)));;
             modify (setThns (alter (pullThnPayment (_id existing)) oid))
        else mret tt
    | None => mret tt
    end.

(** The block "Recalculate balance if financial fields are updated":
    [None] when no financial field came with the request. *)
Definition recalculateBalance (env : PaymentEnv) (oid : ObjectId) (existingNote : ThnDoc)
    (updateData : UpdateData) : M (option Financials) :=
  match freightRate updateData, advanceAmount updateData, additionalCharges updateData with
  | None, None, None => mret None
  | _, _, _ =>
      let newFreightRate :=
        default (Backend.freightRate existingNote) (freightRate updateData) in
      let newAdvanceAmount :=
        match advanceAmount updateData with
        | Some a => Some a
        | None => Backend.advanceAmount existingNote
        end in
      let newAdditionalCharges :=
        match additionalCharges updateData with
        | Some c => c
        | None => orZero (Backend.additionalCharges existingNote)
        end in
      let balanceAmount :=
        (fun a => max0 (newFreightRate + newAdditionalCharges - a)) <$> newAdvanceAmount in
      match advanceAmount updateData with
      | Some advanceAmount =>
          if match Backend.advanceAmount existingNote with
             | Some stored => negb (Qeq_bool advanceAmount stored)
             | None => true
             end
          then syncAdvance env oid existingNote updateData advanceAmount
          else mret tt
      | None => mret tt
      end;;
      mret (Some (mkFinancials newFreightRate newAdvanceAmount
                               newAdditionalCharges balanceAmount))
  end.

Definition updateTruckHiringNote (env : PaymentEnv) (id : string) (updateData : UpdateData)
  : M (Reply ThnDoc) :=
  existingNote ← findThnById castObjectId id;
  match existingNote with
  | None => mret (NotFound "Truck Hiring Note not found")
  | Some existingNote =>
      oid ← castId castObjectId id;
      financials ← recalculateBalance env oid existingNote updateData;
      match financials with
      | Some (mkFinancials _ _ _ None) => throw CastError
      | _ => modify (setThns (alter (applyUpdate updateData financials) oid))
      end;;
      updatedNote ← findThnById castObjectId id;
      match updatedNote with
      | None => mret (NotFound "Truck Hiring Note not found")
      | Some updatedNote =>
          updateThnStatus castObjectId id;;
          recalculatedNote ← findThnById castObjectId id;
          mret (Json (default updatedNote recalculatedNote))
      end
  end.

End Controller.

(** *** Vocabulary of the statements about the update *)

(** The financial keys the controller adds to [updateData]. *)
Definition financialsOf (existingNote : ThnDoc) (updateData : UpdateData)
  : option Financials :=
  match freightRate updateData, advanceAmount updateData, additionalCharges updateData with
  | None, None, None => None
  | _, _, _ =>
      let nf := default (Backend.freightRate existingNote) (freightRate updateData) in
      let na := match advanceAmount updateData with
                | Some a => Some a
                | None => Backend.advanceAmount existingNote
                end in
      let nac := match additionalCharges updateData with
                 | Some c => c
                 | None => orZero (Backend.additionalCharges existingNote)
                 end in
      Some (mkFinancials nf na nac ((fun a => max0 (nf + nac - a)) <$> na))
  end.

(** The advance of the request when it differs from the stored one. *)
Definition changedAdvance (existingNote : ThnDoc) (updateData : UpdateData) : option Q :=
  match advanceAmount updateData with
  | Some a =>
      if match Backend.advanceAmount existingNote with
         | Some stored => negb (Qeq_bool a stored)
         | None => true
         end
      then Some a else None
  | None => None
  end.

(** The update does not run into [NaN]: an advance is stored or comes
    with the request, or the request changes no financial field. *)
Definition balanceDefined (existingNote : ThnDoc) (updateData : UpdateData) : Prop :=
  is_Some (advanceAmount updateData) \/ is_Some (Backend.advanceAmount existingNote)
  \/ (freightRate updateData = None /\ additionalCharges updateData = None).

End NoteUpdate.

(** ** The PDF service (front end)

    [waitForLibraries], [generateFileName], [generatePdf],
    [generateMultiPagePdf], [generateDocumentPdf] and [printToPdfFile].
    Lengths are in points and rational, as amounts are; the rendering of
    the element by [html2canvas] and the page sizes of [jsPDF] are taken
    as given. The quality settings have no part in the layout and are
    left out. *)

Module Pdf.

Record Margins := mkMargins { top : Q; right : Q; bottom : Q; left : Q }.

Inductive Orientation := portrait | landscape.

Inductive Format := a4 | a3 | letter.

(** The canvas [html2canvas] returns. *)
Record Canvas := mkCanvas { width : Q; height : Q }.

(** [pdf.internal.pageSize] *)
Record PageSize := mkPageSize { getWidth : Q; getHeight : Q }.

(** The arguments [x, y, width, height] of a call of [pdf.addImage]. *)
Record Image := mkImage { x : Q; y : Q; imgWidth : Q; imgHeight : Q }.

(** A [jsPDF] document: its pages in order, each with the images drawn on
    it. A new document has one empty page; [addImage] draws on the last
    page. *)
Definition Document := list (list Image).

Definition newDocument : Document := [[]].

Definition addPage (pdf : Document) : Document := (pdf ++ [[]])%list.

Fixpoint addImage (image : Image) (pdf : Document) : Document :=
  match pdf with
  | [] => [[image]]
  | page :: pdf' =>
      match pdf' with
      | [] => [(page ++ [image])%list]
      | _ :: _ => page :: addImage image pdf'
      end
  end.

(** How a call ends: the element is not in the page (an error is logged
    and nothing happens), the promise rejects, or a file is saved. *)
Inductive Outcome :=
| NoElement
| Failed
| Saved (fileName : string) (pdf : Document).

Definition Qgt_bool (a b : Q) : bool := negb (Qle_bool a b).
Definition Qge_bool (a b : Q) : bool := Qle_bool b a.

(** *** [waitForLibraries]

    [loaded k] tells whether the [k]-th check finds both libraries on
    [window]. The result is the number of the check that resolves, [None]
    when the promise rejects. *)
Definition maxAttempts : nat := 50.

Fixpoint checkLibraries (loaded : nat -> bool) (fuel attempts : nat) : option nat :=
  match fuel with
  | O => None
  | S fuel' =>
      let attempts := S attempts in
      if loaded attempts then Some attempts
      else if (maxAttempts <=? attempts)%nat then None
      else checkLibraries loaded fuel' attempts
  end.

Definition waitForLibraries (loaded : nat -> bool) : option nat :=
  checkLibraries loaded maxAttempts 0.

(** *** [generateFileName] *)

(** A [string | number] argument; the numbers passed are document
    numbers. *)
Inductive StringOrNumber := Text (s : string) | Number (n : N).

(** [String(v)] *)
Definition toString (v : StringOrNumber) : string :=
  match v with
  | Text s => s
  | Number n => showN n
  end.

Definition truthy (v : StringOrNumber) : bool :=
  match v with
  | Text s => truthyStr (Some s)
  | Number n => negb (n =? 0)%N
  end.

Local Open Scope nat_scope.

(** A character of the class [a-zA-Z0-9_-]. *)
Definition isNameChar (b : nat) : bool :=
  (48 <=? b) && (b <=? 57) || (65 <=? b) && (b <=? 90) || (97 <=? b) && (b <=? 122)
  || (b =? 95) || (b =? 45).

(** [s.replace(/[^a-zA-Z0-9_-]/g, '_')], with strings read as UTF-8: every
    code unit outside the class becomes an underscore, so a code point of
    two or three bytes gives one underscore and one of four bytes (a
    surrogate pair) gives two. *)
Fixpoint replaceOthers (bs : list nat) : list nat :=
  match bs with
  | [] => []
  | b :: r =>
      if b <? 128 then (if isNameChar b then b else 95) :: replaceOthers r
      else if b <? 192 then replaceOthers r
      else if b <? 240 then 95 :: replaceOthers r
      else 95 :: 95 :: replaceOthers r
  end.

Local Close Scope nat_scope.

Definition cleanName (s : string) : string :=
  string_of_list_ascii
    (List.map ascii_of_nat (replaceOthers (List.map nat_of_ascii (list_ascii_of_string s)))).

Section Service.

(** [new Date().toISOString().split('T')[0]] *)
Variable today : string.

(** The page size of [new jsPDF({ orientation, unit: 'pt', format })]. *)
Variable pageSize : Orientation -> Format -> PageSize.

Definition generateFileName (baseName : StringOrNumber) (documentType : string)
    (documentNumber : option StringOrNumber) (date : option string) : string :=
  let timestamp := orStr date today in
  let cleanBaseName := cleanName (toString baseName) in
  let cleanDocNumber :=
    match documentNumber with
    | Some n => if truthy n then cleanName (toString n) else ""
    | None => ""
    end in
  documentType ++ "_"
  ++ (if truthyStr (Some cleanDocNumber) then cleanDocNumber ++ "_" else "")
  ++ timestamp ++ ".pdf".

Record PDFOptions := mkPDFOptions {
  fileName : string;
  orientation : option Orientation;
  format : option Format;
  margins : option Margins
}.

Definition defaultMargins : Margins := mkMargins 20 20 20 20.

(** *** [generatePdf] *)

Definition generatePdf (loaded : nat -> bool) (element : option Canvas)
    (options : PDFOptions) : Outcome :=
  match element with
  | None => NoElement
  | Some canvas =>
      match waitForLibraries loaded with
      | None => Failed
      | Some _ =>
          let size := pageSize (default portrait (orientation options))
                               (default a4 (format options)) in
          let pdf := newDocument in
          let pdfWidth := getWidth size in
          let pdfHeight := getHeight size in
          let canvasWidth := width canvas in
          let canvasHeight := height canvas in
          let ratio := canvasWidth / canvasHeight in
          let margins := default defaultMargins (margins options) in
          let contentWidth := pdfWidth - left margins - right margins in
          let contentHeight := pdfHeight - top margins - bottom margins in
          let imgWidth := contentWidth in
          let imgHeight := imgWidth / ratio in
          let '(imgWidth, imgHeight) :=
            if Qgt_bool imgHeight contentHeight
            then (contentHeight * ratio, contentHeight)
            else (imgWidth, imgHeight) in
          let x := left margins + (contentWidth - imgWidth) / 2 in
          let y := top margins + (contentHeight - imgHeight) / 2 in
          let pdf := addImage (mkImage x y imgWidth imgHeight) pdf in
          let fileName := generateFileName (Text (fileName options)) "Document" None None in
          Saved fileName pdf
      end
  end.

(** *** [generateMultiPagePdf] *)

(** The loop [while (heightLeft >= 0)]; [None] when the fuel runs out. *)
Fixpoint additionalPages (fuel : nat) (margins : Margins)
    (imgWidth imgHeight contentHeight heightLeft : Q) (pdf : Document)
  : option Document :=
  if Qge_bool heightLeft 0
  then match fuel with
       | O => None
       | S fuel' =>
           let position := heightLeft - imgHeight in
           let pdf := addPage pdf in
           let pdf := addImage (mkImage (left margins) (top margins + position)
                                        imgWidth imgHeight) pdf in
           additionalPages fuel' margins imgWidth imgHeight contentHeight
                           (heightLeft - contentHeight) pdf
       end
  else Some pdf.

Definition generateMultiPagePdf (fuel : nat) (loaded : nat -> bool)
    (element : option Canvas) (options : PDFOptions) : option Outcome :=
  match element with
  | None => Some NoElement
  | Some canvas =>
      match waitForLibraries loaded with
      | None => Some Failed
      | Some _ =>
          let size := pageSize (default portrait (orientation options))
                               (default a4 (format options)) in
          let pdf := newDocument in
          let pdfWidth := getWidth size in
          let pdfHeight := getHeight size in
          let canvasWidth := width canvas in
          let canvasHeight := height canvas in
          let ratio := canvasWidth / canvasHeight in
          let margins := default defaultMargins (margins options) in
          let contentWidth := pdfWidth - left margins - right margins in
          let contentHeight := pdfHeight - top margins - bottom margins in
          let imgWidth := contentWidth in
          let imgHeight := imgWidth / ratio in
          let heightLeft := imgHeight in
          let position := 0 in
          let pdf := addImage (mkImage (left margins) (top margins + position)
                                       imgWidth imgHeight) pdf in
          let heightLeft := heightLeft - contentHeight in
          pdf ← additionalPages fuel margins imgWidth imgHeight contentHeight heightLeft pdf;
          let fileName := generateFileName (Text (fileName options)) "MultiPage" None None in
          Some (Saved fileName pdf)
      end
  end.

(** *** [generateDocumentPdf] *)

Inductive DocumentType := invoice | lorry_receipt | truck_hiring_note | ledger.

Definition DocumentType_str (t : DocumentType) : string :=
  match t with
  | invoice => "invoice"
  | lorry_receipt => "lorry-receipt"
  | truck_hiring_note => "truck-hiring-note"
  | ledger => "ledger"
  end.

Definition generateDocumentPdf (loaded : nat -> bool) (element : option Canvas)
    (documentType : DocumentType) (documentNumber : StringOrNumber)
    (date : option string) : Outcome :=
  let baseFileName := documentNumber in
  let fileName := generateFileName baseFileName (DocumentType_str documentType)
                                   (Some documentNumber) date in
  let options :=
    mkPDFOptions fileName
      (Some (match documentType with invoice => landscape | _ => portrait end))
      (Some a4)
      (Some (mkMargins 20 20 20 20)) in
  generatePdf loaded element options.

(** *** [printToPdfFile] *)




End Service.

End Pdf.

(** ** The payment form ([UniversalPaymentForm], front end)

    The state of the form and the object [paymentToSave] that
    [handleSubmit] hands to [onSave], as the JSON it serialises to. The
    validation hook that runs before it is outside the sources at hand. *)

Module Form.

(** The state [payment]. *)
Record PaymentState := mkPaymentState {
  invoiceId : option string;
  truckHiringNoteId : option string;
  customer : option string;
  amount : Q;
  date : string;
  type : PaymentType;
  mode : PaymentMode;
  referenceNo : string;
  notes : string;
  tdsApplicable : bool;
  tdsRate : Q;
  tdsAmount : Q;
  tdsDate : string
}.

Definition PaymentType_str (t : PaymentType) : string :=
  match t with
  | ADVANCE => "Advance" | RECEIPT => "Receipt" | PAYMENT => "Payment"
  end.

(** An optional string as a JSON value: [JSON.stringify] leaves out a key
    whose value is [undefined]. *)
Definition jsonOfOption (s : option string) : Validation.Json :=
  match s with
  | Some s => Validation.JString s
  | None => Validation.JUndefined
  end.

Definition grossAmount (payment : PaymentState) : Q :=
  orZero (Some (amount payment)).

Definition tdsRateOf (payment : PaymentState) : Q :=
  if tdsApplicable payment then orZero (Some (tdsRate payment)) else 0.

Definition calculatedTdsAmount (payment : PaymentState) : Q :=
  if tdsApplicable payment then grossAmount payment * (tdsRateOf payment / 100) else 0.

Definition netAmount (payment : PaymentState) : Q :=
  grossAmount payment - calculatedTdsAmount payment.

Definition paymentToSave (payment : PaymentState) : Validation.RawPayment :=
  let keepTds := tdsApplicable payment && isReceipt (type payment) in
  Validation.mkRawPayment
    (jsonOfOption (invoiceId payment))
    (jsonOfOption (truckHiringNoteId payment))
    (jsonOfOption (customer payment))
    (Validation.JNumber (netAmount payment))
    (Validation.JString (date payment))
    (Validation.JString (PaymentType_str (type payment)))
    (Validation.JString (PaymentMode_str (mode payment)))
    (Validation.JString (referenceNo payment))
    (Validation.JString (notes payment))
    (if keepTds then Validation.JBool (tdsApplicable payment) else Validation.JUndefined)
    (if keepTds then Validation.JNumber (tdsRate payment) else Validation.JUndefined)
    (if keepTds then Validation.JNumber (calculatedTdsAmount payment)
     else Validation.JUndefined)
    (if keepTds then Validation.JString (orStr (Some (tdsDate payment)) (date payment))
     else Validation.JUndefined).

End Form.

(** ** More host functions and sample data *)

Module HostIds.

Definition hexDigit (d : N) : ascii :=
  ascii_of_N (if (d <? 10)%N then 48 + d else 87 + d)%N.

Fixpoint hexDigits (width : nat) (n : N) (acc : list ascii) : list ascii :=
  match width with
  | O => acc
  | S width' => hexDigits width' (n / 16)%N (hexDigit (n mod 16)%N :: acc)
  end.

(** [oid.toString()]: 24 hexadecimal digits. *)
Definition showObjectId (oid : ObjectId) : string :=
  string_of_list_ascii (hexDigits 24 oid []).

End HostIds.

Module Scenarios.
Import Sample.

(** A receipt of 3000 in cash against the sample note. *)
Definition cashReceipt : Backend.PaymentDoc :=
  Backend.mkPaymentDoc 2 2 None (Some noteOid) None "2025-01-05" 3000 RECEIPT "Cash"
                       None None None None None None.

(** The advance of 2000 of the sample note, as [createTruckHiringNote]
    records it. *)
Definition advancePaid : Backend.PaymentDoc :=
  Backend.mkPaymentDoc 3 3 None (Some noteOid) None "2025-01-01" 2000 ADVANCE "Cash"
                       (Some "THN-7-ADVANCE") (Some "Advance payment for THN #7")
                       None None None None.

(** The sample note with its advance payment and a receipt. *)
Definition settledDb : Backend.Db :=
  Backend.mkDb {[ noteOid := legacyNote ]} [advancePaid; cashReceipt] ∅ ∅ [].

(** A store whose next note number is 8. *)
Definition numberedDb : Backend.Db :=
  Backend.mkDb ∅ [] ∅ {[ "truckHiringNoteId" := 8%N ]} [].

Definition rejectAll {A : Type} (_ : A) : bool := false.

End Scenarios.

Module PdfSample.
Import Pdf.

(** Page sizes in points, as [jsPDF] has them. *)
Definition pageSize (o : Orientation) (f : Format) : PageSize :=
  let '(short, long) :=
    match f with
    | a4 => (59528 # 100, 84189 # 100)
    | a3 => (84189 # 100, 119055 # 100)
    | letter => (612, 792)
    end in
  match o with
  | portrait => mkPageSize short long
  | landscape => mkPageSize long short
  end.

Definition today : string := "2025-02-01".

(** The libraries are there from the third check on. *)
Definition loadedAtThird (k : nat) : bool := (3 <=? k)%nat.

Definition tallCanvas : Canvas := mkCanvas 1200 4000.

Definition wideCanvas : Canvas := mkCanvas 1600 900.

Definition plainOptions : PDFOptions := mkPDFOptions "Invoice 42.pdf" None None None.

(** Margins that leave no room on an A4 page. *)
Definition noRoom : PDFOptions :=
  mkPDFOptions "x.pdf" None None (Some (mkMargins 500 20 400 20)).


(** A receipt of 10000 against the sample note with TDS at 10 percent, as
    entered in the form. *)
Definition tdsEntry : Form.PaymentState :=
  Form.mkPaymentState None (Some Sample.noteIdText) None 10000 "2025-01-10"
                      RECEIPT NEFT "UTR1" "" true 10 0 "2025-01-10".

(** The same entry after the type was changed to Advance. *)
Definition advanceEntry : Form.PaymentState :=
  Form.mkPaymentState None (Some Sample.noteIdText) None 10000 "2025-01-10"
                      ADVANCE NEFT "UTR1" "" true 10 0 "2025-01-10".

End PdfSample.

Module UpdateSample.
Import NoteUpdate.

(** A new freight rate and nothing else. *)
Definition newFreight : UpdateData := mkUpdateData None None (Some 12000) None None.

Definition advanceTo (a : Q) : UpdateData := mkUpdateData None None None (Some a) None.

End UpdateSample.

(** * Properties *)

(** ** Amounts *)

Lemma orZero_eq (x : option Q) :
  orZero x == match x with Some q => q | None => 0 end.
Proof.
  destruct x as [q|]; simpl; [|reflexivity].
  destruct (Qeq_bool q 0) eqn:E; [|reflexivity].
  symmetry. now apply Qeq_bool_iff.
Qed.

Lemma leb0_true (q : Q) : leb0 q = true <-> q <= 0.
Proof. apply Qle_bool_iff. Qed.

Lemma gtb0_true (q : Q) : gtb0 q = true <-> 0 < q.
Proof.
  unfold gtb0. rewrite negb_true_iff, <- not_true_iff_false, Qle_bool_iff.
  split; intros H; [now apply Qnot_le_lt | now apply Qlt_not_le].
Qed.

Lemma max0_nonneg (x : Q) : 0 <= max0 x.
Proof. apply Q.le_max_l. Qed.

Lemma fold_left_sumOver {A} (f : A -> Q) (l : list A) (acc : Q) :
  fold_left (fun a x => a + f x) l acc == acc + sumOver f l.
Proof.
  revert acc. induction l as [|x l IH]; intros acc; cbn [fold_left sumOver fold_right].
  - ring.
  - rewrite IH. unfold sumOver. ring.
Qed.

Lemma sumOver_app {A} (f : A -> Q) (l1 l2 : list A) :
  sumOver f (l1 ++ l2) == sumOver f l1 + sumOver f l2.
Proof.
  induction l1 as [|x l1 IH]; cbn [app].
  - unfold sumOver at 2. cbn [fold_right]. ring.
  - unfold sumOver in *. cbn [fold_right]. rewrite IH. ring.
Qed.

Example parseDate_epoch : Host.parseDate "1970-01-01" = Some 0%Z.
Proof. reflexivity. Qed.
Example parseDate_2025 : Host.parseDate "2025-01-15" = Some 1736899200000%Z.
Proof. reflexivity. Qed.
Example parseDate_bad : Host.parseDate "2025-02-30" = None.
Proof. reflexivity. Qed.
Example isoDate_2025 : Host.isoDate 1736899200000 = "2025-01-15".
Proof. reflexivity. Qed.
Example isoDate_leap : Host.isoDate (1709164800000 + 5) = "2024-02-29".
Proof. reflexivity. Qed.
Example cast_ex : Host.castObjectId "0000000000000000000000ff" = Some 255%N.
Proof. reflexivity. Qed.
Example cast_bad : Host.castObjectId "xyz" = None.
Proof. reflexivity. Qed.
Example blank_ex : isBlank "  " = true /\ isBlank " a " = false /\ trimStart "  ab c" = "ab c".
Proof. repeat split; reflexivity. Qed.

(** ** The payment schema *)

Module ValidationFacts.
Import Validation.

Lemma z_string_optional_carries (j : Json) (s : option string) :
  z_string_optional j = Some s -> truthyStr s = carries j.
Proof.
  destruct j; simpl; intros [= <-]; reflexivity.
Qed.

Lemma paymentObject_references (r : RawPayment) (data : PaymentData) :
  paymentObject r = Some data ->
  z_string_optional (raw_invoiceId r) = Some (invoiceId data)
  /\ z_string_optional (raw_truckHiringNoteId r) = Some (truckHiringNoteId data).
Proof.
  unfold paymentObject. intros H.
  repeat (apply bind_Some in H as (? & ? & H)).
  injection H as <-. simpl. auto.
Qed.

(** C7, as the code has it. The schema rejects every body that carries
    neither [invoiceId] nor [truckHiringNoteId] (an empty string does not
    count), so an accepted body carries at least one; carrying both is no
    ground for rejection: an accepted body that carries [invoiceId] stays
    accepted when any string is put under [truckHiringNoteId]. *)
Theorem createPaymentSchema_reference (r : RawPayment) :
  (carries (raw_invoiceId r) = false ->
   carries (raw_truckHiringNoteId r) = false ->
   createPaymentSchema r = None)
  /\ (forall data, createPaymentSchema r = Some data ->
        carries (raw_invoiceId r) = true \/ carries (raw_truckHiringNoteId r) = true)
  /\ (forall data s, createPaymentSchema r = Some data ->
        carries (raw_invoiceId r) = true ->
        exists data',
          createPaymentSchema (withTruckHiringNoteId (JString s) r) = Some data'
          /\ invoiceId data' = invoiceId data
          /\ truckHiringNoteId data' = Some s).
Proof.
  assert (Hone : forall data, createPaymentSchema r = Some data ->
            carries (raw_invoiceId r) = true \/ carries (raw_truckHiringNoteId r) = true).
  { intros data H. unfold createPaymentSchema in H.
    apply bind_Some in H as (d & Hobj & H).
    destruct (refineReference d) eqn:Eref; [|discriminate].
    destruct (paymentObject_references r d Hobj) as [Hi Ht].
    apply z_string_optional_carries in Hi, Ht. unfold refineReference in Eref.
    rewrite Hi, Ht in Eref. now apply orb_true_iff in Eref. }
  split; [|split].
  - intros Hi Ht. destruct (createPaymentSchema r) as [data|] eqn:E; [|reflexivity].
    destruct (Hone data eq_refl); congruence.
  - exact Hone.
  - clear Hone. intros data s H Hinv. unfold createPaymentSchema in *.
    apply bind_Some in H as (d & Hobj & H).
    destruct (refineReference d && refineCustomer d && refineTdsReceipt d && refineTdsRate d)
      eqn:Eref; [|discriminate].
    injection H as <-.
    destruct (paymentObject_references r d Hobj) as [Hi _].
    pose proof (z_string_optional_carries _ _ Hi) as Hti. rewrite Hinv in Hti.
    exists (mkPaymentData (invoiceId d) (Some s) (customer d) (amount d) (date d) (type d)
              (mode d) (referenceNo d) (notes d) (tdsApplicable d) (tdsRate d)
              (tdsAmount d) (tdsDate d)).
    split; [|split; reflexivity].
    revert Hobj. unfold paymentObject. simpl.
    repeat match goal with
           | |- (?x ≫= _) = Some _ -> _ => destruct x; simpl; [|discriminate]
           end.
    intros [= <-]. simpl in *.
    unfold refineReference, refineCustomer, refineTdsReceipt, refineTdsRate in *.
    simpl in *. rewrite Hti in *. simpl in *. now rewrite Eref.
Qed.

End ValidationFacts.

(** ** The recompute of a truck hiring note *)

Module BackendFacts.
Import Backend.

Lemma max0_spec (x : Q) : (x <= 0 -> max0 x == 0) /\ (0 <= x -> max0 x == x).
Proof.
  unfold max0. split; intros H.
  - now apply Q.max_l.
  - now apply Q.max_r.
Qed.

Lemma thnStatusOf_spec (balance paid : Q) :
  (balance <= 0 -> thnStatusOf balance paid = PAID)
  /\ (0 < balance -> 0 < paid -> thnStatusOf balance paid = PARTIALLY_PAID)
  /\ (0 < balance -> paid <= 0 -> thnStatusOf balance paid = UNPAID).
Proof.
  unfold thnStatusOf. repeat split.
  - intros H. apply leb0_true in H. now rewrite H.
  - intros Hb Hp. apply gtb0_true in Hb, Hp. unfold gtb0, leb0 in *.
    apply negb_true_iff in Hb. now rewrite Hb, Hp.
  - intros Hb Hp. apply gtb0_true in Hb. apply leb0_true in Hp.
    unfold gtb0, leb0 in *. apply negb_true_iff in Hb. now rewrite Hb, Hp.
Qed.

(** What [$group] returns, read as [totalPaid.length > 0 ? total : 0], is the
    sum over the linked payments. *)
Lemma aggregateTotal_linkedSum (oid : ObjectId) (ps : list PaymentDoc) :
  match aggregateTotal oid ps with total :: _ => total | [] => 0 end
  == linkedSum oid ps.
Proof.
  unfold aggregateTotal, linkedSum, sumAmounts.
  destruct (List.filter (linkedTo oid) ps) as [|p matched] eqn:E.
  - reflexivity.
  - rewrite fold_left_sumOver. ring.
Qed.

Lemma findAdvancePayment_recorded (oid : ObjectId) (ps : list PaymentDoc) :
  bool_decide (is_Some (findAdvancePayment oid ps)) = advanceRecorded oid ps.
Proof.
  unfold findAdvancePayment, advanceRecorded.
  induction ps as [|p ps IH]; simpl; [reflexivity|].
  destruct (linkedTo oid p && isAdvance (type p)); simpl; [reflexivity | exact IH].
Qed.

Section Recompute.

Variable castObjectId : string -> option ObjectId.

Ltac run_monad :=
  unfold updateThnStatus, updateThnStatus_try, findThnById, findThnByIdAndUpdate,
    castId, tryCatch, consoleLog, modify, gets, throw,
    mbind, mret, M_bind, M_ret, bind, ret; simpl.

(** The paid amount the recompute arrives at. *)
Lemma updateThnStatus_found (thnId : string) (oid : ObjectId) (thn : ThnDoc) (db : Db) :
  castObjectId thnId = Some oid ->
  thns db !! oid = Some thn ->
  exists (logs : list LogLine) (paid : Q),
    updateThnStatus castObjectId thnId db
    = (mkDb (alter (setFinancials paid
                      (max0 (freightRate thn + orZero (additionalCharges thn) - paid))
                      (thnStatusOf
                         (max0 (freightRate thn + orZero (additionalCharges thn) - paid))
                         paid)) oid (thns db))
            (payments db) (invoices db) (numbering db) (console db ++ logs)%list, Ok tt)
    /\ paid == (if advanceRecorded oid (payments db)
                then linkedSum oid (payments db)
                else linkedSum oid (payments db) + storedAdvance thn).
Proof.
  intros Hc Hl. run_monad. rewrite Hc. simpl. rewrite Hl. simpl.
  eexists _, _. split.
  - unfold addLog, setThns; simpl. rewrite <- !app_assoc. reflexivity.
  - rewrite <- findAdvancePayment_recorded.
    destruct (findAdvancePayment oid (payments db)) as [adv|]; simpl.
    + apply aggregateTotal_linkedSum.
    + rewrite aggregateTotal_linkedSum. unfold storedAdvance.
      rewrite orZero_eq. destruct (advanceAmount thn); reflexivity.
Qed.

Lemma updateThnStatus_missing (thnId : string) (db : Db) :
  (forall oid, castObjectId thnId = Some oid -> thns db !! oid = None) ->
  exists logs : list LogLine,
    updateThnStatus castObjectId thnId db
    = (mkDb (thns db) (payments db) (invoices db) (numbering db)
            (console db ++ logs)%list, Ok tt).
Proof.
  intros Hmiss. run_monad.
  destruct (castObjectId thnId) as [oid|] eqn:Hc; simpl.
  - rewrite (Hmiss oid eq_refl). simpl. eexists.
    unfold addLog; simpl. rewrite <- !app_assoc. reflexivity.
  - eexists. unfold addLog; simpl. rewrite <- !app_assoc. reflexivity.
Qed.

Lemma reconciled_setFinancials (thn : ThnDoc) (paid : Q) :
  Reconciled
    (setFinancials paid
       (max0 (freightRate thn + orZero (additionalCharges thn) - paid))
       (thnStatusOf (max0 (freightRate thn + orZero (additionalCharges thn) - paid)) paid)
       thn).
Proof.
  unfold Reconciled; simpl.
  assert (E : orZero (additionalCharges thn) == default 0 (additionalCharges thn)).
  { rewrite orZero_eq. destruct (additionalCharges thn); reflexivity. }
  set (x := freightRate thn + orZero (additionalCharges thn) - paid).
  set (y := freightRate thn + default 0 (additionalCharges thn) - paid).
  assert (Exy : x == y) by (unfold x, y; rewrite E; reflexivity).
  split; [|split; [apply max0_nonneg | apply thnStatusOf_spec]].
  unfold max0. destruct (Qlt_le_dec x 0) as [Hx|Hx].
  - rewrite (Q.max_l 0 x), (Q.max_l 0 y); [reflexivity | lra | lra].
  - rewrite (Q.max_r 0 x), (Q.max_r 0 y); [exact Exy | lra | lra].
Qed.

(** One recompute, seen from outside: it resolves, touches nothing but the
    note it is about and the console, and leaves that note reconciled. *)
Lemma updateThnStatus_step (thnId : string) (db : Db) :
  exists db' : Db,
    updateThnStatus castObjectId thnId db = (db', Ok tt)
    /\ payments db' = payments db
    /\ invoices db' = invoices db
    /\ numbering db' = numbering db
    /\ (exists logs, console db' = (console db ++ logs)%list)
    /\ (forall o, castObjectId thnId <> Some o -> thns db' !! o = thns db !! o)
    /\ (forall o, thns db !! o = None -> thns db' !! o = None)
    /\ (forall oid thn, castObjectId thnId = Some oid -> thns db !! oid = Some thn ->
        exists thn', thns db' !! oid = Some thn' /\ Reconciled thn').
Proof.
  destruct (castObjectId thnId) as [oid|] eqn:Hc.
  - destruct (thns db !! oid) as [thn|] eqn:Hl.
    + destruct (updateThnStatus_found thnId oid thn db Hc Hl) as (logs & paid & -> & _).
      eexists; split; [reflexivity|]; simpl.
      repeat split; eauto.
      * intros o Ho. apply lookup_alter_ne. congruence.
      * intros o Ho. destruct (decide (oid = o)) as [->|Hne].
        -- congruence.
        -- rewrite lookup_alter_ne by done. exact Ho.
      * intros oid' thn0 [= <-] _. rewrite lookup_alter_eq, Hl. simpl.
        eexists; split; [reflexivity | apply reconciled_setFinancials].
    + destruct (updateThnStatus_missing thnId db) as (logs & ->).
      { intros o Ho. congruence. }
      eexists; split; [reflexivity|]; simpl. repeat split; eauto.
      intros oid' thn0 [= <-]. congruence.
  - destruct (updateThnStatus_missing thnId db) as (logs & ->).
    { intros o Ho. congruence. }
    eexists; split; [reflexivity|]; simpl. repeat split; eauto.
    intros oid' thn0 ?. congruence.
Qed.

(** An update of one note keeps the other reconciled notes reconciled. *)
Lemma updateThnStatus_keeps (thnId : string) (db : Db) (o : ObjectId) :
  (exists thn, thns db !! o = Some thn /\ Reconciled thn) ->
  exists thn', thns (updateThnStatus castObjectId thnId db).1 !! o = Some thn'
               /\ Reconciled thn'.
Proof.
  intros (thn & Hl & Hr).
  destruct (updateThnStatus_step thnId db)
    as (db' & -> & _ & _ & _ & _ & Hother & _ & Hown); simpl.
  destruct (decide (castObjectId thnId = Some o)) as [Hc|Hc].
  - exact (Hown o thn Hc Hl).
  - rewrite (Hother o Hc). eauto.
Qed.

Lemma recomputeAll_step (ids : list string) (db : Db) :
  exists db' : Db,
    recomputeAll castObjectId ids db = (db', Ok tt)
    /\ payments db' = payments db
    /\ (forall o, thns db !! o = None -> thns db' !! o = None)
    /\ (forall o, (exists thn, thns db !! o = Some thn /\ Reconciled thn) ->
                  exists thn', thns db' !! o = Some thn' /\ Reconciled thn')
    /\ (forall id oid, In id ids -> castObjectId id = Some oid ->
                       is_Some (thns db !! oid) ->
                       exists thn', thns db' !! oid = Some thn' /\ Reconciled thn').
Proof.
  revert db. induction ids as [|id ids IH]; intros db.
  - exists db. repeat split; auto. intros ? ? [].
  - unfold recomputeAll in *. simpl.
    destruct (updateThnStatus_step id db)
      as (db1 & E1 & Hp1 & _ & _ & _ & Hother1 & Hnone1 & Hown1).
    destruct (IH db1) as (db2 & E2 & Hp2 & Hnone2 & Hkeep2 & Hall2).
    exists db2. unfold mbind, M_bind, bind. rewrite E1, E2.
    split; [reflexivity|]. split; [congruence|]. split; [auto|]. split.
    + intros o Ho. apply Hkeep2.
      pose proof (updateThnStatus_keeps id db o Ho) as K. now rewrite E1 in K.
    + intros id' oid [<-|Hin] Hc [thn Hl].
      * apply Hkeep2. exact (Hown1 oid thn Hc Hl).
      * apply (Hall2 id' oid Hin Hc).
        destruct (decide (castObjectId id = Some oid)) as [Hc'|Hc'].
        -- destruct (Hown1 oid thn Hc' Hl) as (thn' & -> & _). eauto.
        -- rewrite (Hother1 oid Hc'), Hl. eauto.
Qed.

(** C1. For every note the recompute finds, the values it persists satisfy:
    the balance is [max(0, freightRate + additionalCharges - paidAmount)]
    with a missing [additionalCharges] counting as 0, so it is never
    negative; the status is Paid when the balance is at most 0, else
    Partially Paid when the paid amount is positive, else Unpaid. *)
Theorem updateThnStatus_persisted
    (thnId : string) (oid : ObjectId) (thn : ThnDoc) (db : Db) :
  castObjectId thnId = Some oid ->
  thns db !! oid = Some thn ->
  exists (db' : Db) (thn' : ThnDoc),
    updateThnStatus castObjectId thnId db = (db', Ok tt)
    /\ thns db' !! oid = Some thn'
    /\ freightRate thn' = freightRate thn
    /\ additionalCharges thn' = additionalCharges thn
    /\ let totalAmount := freightRate thn + default 0 (additionalCharges thn) in
       balanceAmount thn' == Qmax 0 (totalAmount - paidAmount thn')
       /\ 0 <= balanceAmount thn'
       /\ (balanceAmount thn' <= 0 -> status thn' = PAID)
       /\ (0 < balanceAmount thn' -> 0 < paidAmount thn' -> status thn' = PARTIALLY_PAID)
       /\ (0 < balanceAmount thn' -> paidAmount thn' <= 0 -> status thn' = UNPAID).
Proof.
  intros Hc Hl.
  destruct (updateThnStatus_found thnId oid thn db Hc Hl) as (logs & paid & E & _).
  eexists _, _. split; [exact E|]. simpl.
  rewrite lookup_alter_eq, Hl. simpl. split; [reflexivity|].
  split; [reflexivity|]. split; [reflexivity|].
  exact (reconciled_setFinancials thn paid).
Qed.

(** C2, as the code has it. The recompute takes an advance payment to exist
    as soon as some payment linked to the note has type Advance, whatever
    its reference: then the persisted [paidAmount] is the sum of the linked
    payments alone; when no linked payment has type Advance it is that sum
    plus the note's stored [advanceAmount]. *)
Theorem updateThnStatus_paidAmount
    (thnId : string) (oid : ObjectId) (thn : ThnDoc) (db : Db) :
  castObjectId thnId = Some oid ->
  thns db !! oid = Some thn ->
  exists (db' : Db) (thn' : ThnDoc),
    updateThnStatus castObjectId thnId db = (db', Ok tt)
    /\ thns db' !! oid = Some thn'
    /\ (forall p, In p (payments db) -> truckHiringNoteId p = Some oid ->
                  type p = ADVANCE ->
                  paidAmount thn' == linkedSum oid (payments db))
    /\ ((forall p, In p (payments db) -> truckHiringNoteId p = Some oid ->
                   type p <> ADVANCE) ->
        paidAmount thn' == linkedSum oid (payments db) + storedAdvance thn).
Proof.
  intros Hc Hl.
  destruct (updateThnStatus_found thnId oid thn db Hc Hl) as (logs & paid & E & Hpaid).
  eexists _, _. split; [exact E|]. simpl.
  rewrite lookup_alter_eq, Hl. simpl. split; [reflexivity|]. split.
  - intros p Hin Hlink Hty.
    assert (R : advanceRecorded oid (payments db) = true).
    { apply existsb_exists. exists p. split; [exact Hin|].
      unfold linkedTo, isAdvance.
      rewrite !bool_decide_eq_true_2 by assumption. reflexivity. }
    now rewrite R in Hpaid.
  - intros Hnone.
    assert (R : advanceRecorded oid (payments db) = false).
    { apply not_true_iff_false. intros R. apply existsb_exists in R.
      destruct R as (p & Hin & Hp). apply andb_true_iff in Hp as [Hp1 Hp2].
      apply bool_decide_eq_true in Hp1, Hp2. exact (Hnone p Hin Hp1 Hp2). }
    now rewrite R in Hpaid.
Qed.

(** C8. The recompute never rejects, whatever the id; when no note exists
    for the id no record changes and only the console grows; and a batch
    over any list of ids resolves, every note of the list that exists
    ending up reconciled, missing ones notwithstanding. *)
Theorem updateThnStatus_never_throws (thnId : string) (db : Db) :
  (exists db', updateThnStatus castObjectId thnId db = (db', Ok tt))
  /\ ((forall oid, castObjectId thnId = Some oid -> thns db !! oid = None) ->
      exists db' logs,
        updateThnStatus castObjectId thnId db = (db', Ok tt)
        /\ sameRecords db' db
        /\ console db' = (console db ++ logs)%list)
  /\ (forall ids : list string,
        exists db',
          recomputeAll castObjectId ids db = (db', Ok tt)
          /\ forall id oid, In id ids -> castObjectId id = Some oid ->
                            is_Some (thns db !! oid) ->
                            exists thn', thns db' !! oid = Some thn' /\ Reconciled thn').
Proof.
  split; [|split].
  - destruct (updateThnStatus_step thnId db) as (db' & E & _). eauto.
  - intros Hmiss. destruct (updateThnStatus_missing thnId db Hmiss) as (logs & E).
    eexists _, logs. split; [exact E|]. unfold sameRecords; simpl. auto.
  - intros ids. destruct (recomputeAll_step ids db) as (db' & E & _ & _ & _ & Hall).
    eauto.
Qed.

End Recompute.
End BackendFacts.

(** ** Creating notes and payments *)

Module CreationFacts.
Import Backend.

Lemma linkedSum_app (oid : ObjectId) (ps qs : list PaymentDoc) :
  linkedSum oid (ps ++ qs) == linkedSum oid ps + linkedSum oid qs.
Proof.
  unfold linkedSum. rewrite List.filter_app. apply sumOver_app.
Qed.

Lemma filter_unlinked (oid : ObjectId) (ps : list PaymentDoc) :
  Forall (fun p => truckHiringNoteId p <> Some oid) ps ->
  List.filter (linkedTo oid) ps = [].
Proof.
  induction 1 as [|p ps Hp _ IH]; simpl; [reflexivity|].
  unfold linkedTo at 1. now rewrite bool_decide_eq_false_2.
Qed.

Lemma advanceRecorded_app (oid : ObjectId) (ps qs : list PaymentDoc) :
  advanceRecorded oid (ps ++ qs) = advanceRecorded oid ps || advanceRecorded oid qs.
Proof. apply existsb_app. Qed.

(** With an advance payment as the only payment of a note, the amount the
    recompute arrives at is the amount of that payment. *)
Lemma paid_with_sole_advance
    (oid : ObjectId) (ps : list PaymentDoc) (adv : PaymentDoc) (stored : Q) :
  Forall (fun p => truckHiringNoteId p <> Some oid) ps ->
  truckHiringNoteId adv = Some oid ->
  type adv = ADVANCE ->
  (if advanceRecorded oid (ps ++ [adv])
   then linkedSum oid (ps ++ [adv])
   else linkedSum oid (ps ++ [adv]) + stored) == amount adv.
Proof.
  intros Hfresh Hlink Hty.
  assert (L : linkedTo oid adv = true).
  { unfold linkedTo. now apply bool_decide_eq_true_2. }
  rewrite advanceRecorded_app. unfold advanceRecorded at 2. simpl.
  rewrite L, Hty. simpl. rewrite orb_true_r.
  rewrite linkedSum_app. unfold linkedSum.
  rewrite (filter_unlinked _ _ Hfresh). simpl. rewrite L. simpl. ring.
Qed.

Section Creation.

Variable castObjectId : string -> option ObjectId.
Variable paymentModelAccepts : PaymentDoc -> bool.
Variable thnModelAccepts : ThnDoc -> bool.
Variable updateInvoiceStatus : string -> Db -> option (gmap ObjectId InvoiceDoc).

(** C3. Creating a note with an advance of 5000 on models that accept the
    documents stores exactly one payment for the note, of type Advance, of
    amount 5000 and with reference [THN-{number}-ADVANCE]; the recompute
    that follows persists a paid amount of 5000: the stored advance is not
    counted a second time. *)
Theorem createTruckHiringNote_advance
    (env : NoteEnv) (noteData : NoteData) (db : Db) (advance : Q) :
  nd_advanceAmount noteData = Some advance ->
  advance == 5000 ->
  (forall note, thnModelAccepts note = true) ->
  (forall payment, paymentModelAccepts payment = true) ->
  Forall (fun p => truckHiringNoteId p <> Some (newNoteId env)) (payments db) ->
  exists (db1 : Db) (response : Response) (note : ThnDoc) (adv : PaymentDoc),
    createTruckHiringNote paymentModelAccepts thnModelAccepts env noteData db
    = (db1, Ok response)
    /\ statusCode response = 201%N
    /\ thns db1 !! newNoteId env = Some note
    /\ payments db1 = (payments db ++ [adv])%list
    /\ List.filter (linkedTo (newNoteId env)) (payments db1) = [adv]
    /\ type adv = ADVANCE
    /\ amount adv == 5000
    /\ referenceNo adv = Some ("THN-" ++ showN (thnNumber note) ++ "-ADVANCE")
    /\ forall thnId, castObjectId thnId = Some (newNoteId env) ->
         exists (db2 : Db) (note' : ThnDoc),
           updateThnStatus castObjectId thnId db1 = (db2, Ok tt)
           /\ thns db2 !! newNoteId env = Some note'
           /\ paidAmount note' == 5000
           /\ ~ paidAmount note' == 10000.
Proof.
  intros Ha Ha5 Ht Hp Hfresh.
  assert (Hnz : Qeq_bool advance 0 = false).
  { apply not_true_iff_false. intros E. apply Qeq_bool_iff in E. lra. }
  assert (Hpos : gtb0 advance = true) by (apply gtb0_true; lra).
  unfold createTruckHiringNote, nextNumber, saveThn, savePayment,
    tryCatch, consoleLog, modify, gets, throw,
    mbind, mret, M_bind, M_ret, bind, ret.
  rewrite Ha. simpl. rewrite Hnz, Hpos.
  destruct (numbering db !! "truckHiringNoteId") as [n|] eqn:En; simpl;
    rewrite Ht; simpl;
    destruct (_ !! "paymentId") as [m|] eqn:Em; simpl; rewrite Hp; simpl; rewrite lookup_alter_eq, lookup_insert_eq; simpl.
  all: eexists _, _, _, _; split; [reflexivity|]; simpl.
  all: split; [reflexivity|].
  all: rewrite lookup_alter_eq, lookup_insert_eq; simpl.
  all: split; [reflexivity|]; split; [reflexivity|].
  all: rewrite List.filter_app, (filter_unlinked _ _ Hfresh); simpl.
  all: unfold linkedTo at 1; simpl; rewrite bool_decide_eq_true_2 by reflexivity.
  all: split; [reflexivity|]; split; [reflexivity|]; split; [exact Ha5|].
  all: split; [reflexivity|].
  all: intros thnId Hc.
  all: match goal with
       | |- context [updateThnStatus _ _ ?d] =>
           pose proof (fun thn => BackendFacts.updateThnStatus_found castObjectId thnId
                                    (newNoteId env) thn d Hc) as F;
           edestruct F as (logs & paid & E & Hpaid);
           [simpl; rewrite lookup_alter_eq, lookup_insert_eq; reflexivity|]; clear F
       end.
  all: simpl in Hpaid;
    rewrite paid_with_sole_advance in Hpaid by (assumption || reflexivity);
    simpl in Hpaid.
  all: eexists _, _; split; [exact E|]; simpl.
  all: rewrite lookup_alter_eq, lookup_alter_eq, lookup_insert_eq; simpl.
  all: split; [reflexivity|]; unfold setFinancials, paidAmount; split; lra.
Qed.

Lemma bind_inv {A B} (m : M A) (k : A -> M B) (db db' : Db) (b : B) :
  (m ≫= k) db = (db', Ok b) ->
  exists a db1, m db = (db1, Ok a) /\ k a db1 = (db', Ok b).
Proof.
  unfold mbind, M_bind, bind.
  destruct (m db) as [db1 [a|e]]; [eauto | discriminate].
Qed.

Lemma nextNumber_payments (type : string) (fallback : N) (db db' : Db) (r : result N) :
  nextNumber type fallback db = (db', r) -> payments db' = payments db.
Proof.
  unfold nextNumber, gets, modify, mbind, mret, M_bind, M_ret, bind, ret.
  destruct (numbering db !! type); intros [= <- <-]; reflexivity.
Qed.

Lemma castRef_db (s : option string) (db db' : Db) (r : result (option ObjectId)) :
  castRef castObjectId s db = (db', r) -> db' = db.
Proof.
  unfold castRef, castId, throw, mbind, mret, M_bind, M_ret, bind, ret.
  destruct s as [id|]; [destruct (castObjectId id)|]; intros [= <- <-]; reflexivity.
Qed.

Lemma savePayment_inv (p q : PaymentDoc) (db db' : Db) :
  savePayment paymentModelAccepts p db = (db', Ok q) ->
  q = p /\ payments db' = (payments db ++ [p])%list.
Proof.
  unfold savePayment, modify, throw, mbind, mret, M_bind, M_ret, bind, ret.
  destruct (paymentModelAccepts p); intros [= <- <-]; auto.
Qed.

Lemma findInvoiceByIdAndUpdate_payments
    (id : string) (f : InvoiceDoc -> InvoiceDoc) (db db' : Db) (r : result unit) :
  findInvoiceByIdAndUpdate castObjectId id f db = (db', r) -> payments db' = payments db.
Proof.
  unfold findInvoiceByIdAndUpdate, castId, modify, throw,
    mbind, mret, M_bind, M_ret, bind, ret.
  destruct (castObjectId id); intros [= <- <-]; reflexivity.
Qed.

Lemma findThnByIdAndUpdate_payments
    (id : string) (f : ThnDoc -> ThnDoc) (db db' : Db) (r : result unit) :
  findThnByIdAndUpdate castObjectId id f db = (db', r) -> payments db' = payments db.
Proof.
  unfold findThnByIdAndUpdate, castId, modify, throw,
    mbind, mret, M_bind, M_ret, bind, ret.
  destruct (castObjectId id); intros [= <- <-]; reflexivity.
Qed.

Lemma runUpdateInvoiceStatus_payments (id : string) (db db' : Db) (r : result unit) :
  runUpdateInvoiceStatus updateInvoiceStatus id db = (db', r) ->
  payments db' = payments db.
Proof.
  unfold runUpdateInvoiceStatus.
  destruct (updateInvoiceStatus id db); intros [= <- <-]; reflexivity.
Qed.

Lemma updateThnStatus_payments (id : string) (db db' : Db) (r : result unit) :
  updateThnStatus castObjectId id db = (db', r) -> payments db' = payments db.
Proof.
  destruct (BackendFacts.updateThnStatus_step castObjectId id db) as (db1 & E & Hp & _).
  rewrite E. now intros [= <- <-].
Qed.

Lemma handleTds_rejects (data : Validation.PaymentData) (r : Response) :
  handleTds data = inl r -> statusCode r = 400%N.
Proof.
  unfold handleTds. intros H. repeat case_match; simplify_eq. reflexivity.
Qed.

(** The stored document of a request answered with 201 carries the
    outcome of the TDS block. *)
Lemma createPayment_stored
    (env : PaymentEnv) (reqBody : Validation.RawPayment) (db db' : Db)
    (response : Response) :
  createPayment castObjectId paymentModelAccepts updateInvoiceStatus env reqBody db
  = (db', Ok response) ->
  statusCode response = 201%N ->
  exists data finalAmount tdsA tdsR tdsD doc,
    Validation.createPaymentSchema reqBody = Some data
    /\ handleTds data = inr (finalAmount, tdsA, tdsR, tdsD)
    /\ payments db' = (payments db ++ [doc])%list
    /\ amount doc = finalAmount /\ tdsAmount doc = tdsA
    /\ tdsRate doc = tdsR /\ tdsDate doc = tdsD.
Proof.
  unfold createPayment, tryCatch. intros Hrun H201.
  destruct (Validation.createPaymentSchema reqBody) as [data|];
    [|cbn in Hrun; injection Hrun as <- <-; discriminate].
  match type of Hrun with
  | context [if ?c then _ else _] => destruct c
  end; [cbn in Hrun; injection Hrun as <- <-; discriminate|].
  destruct (handleTds data) as [r|[[[fin tA] tR] tD]] eqn:Eh.
  { apply handleTds_rejects in Eh. cbn in Hrun. injection Hrun as <- <-.
    rewrite Eh in H201. discriminate. }
  match type of Hrun with
  | context [match ?body db with _ => _ end] =>
      destruct (body db) as [db1 [resp|e]] eqn:Ebody
  end; [|destruct e; cbn in Hrun; injection Hrun as <- <-; discriminate].
  injection Hrun as -> ->.
  apply bind_inv in Ebody as (n & d1 & En & Ebody).
  apply bind_inv in Ebody as (iref & d2 & Ei & Ebody).
  apply bind_inv in Ebody as (tref & d3 & Et & Ebody).
  apply bind_inv in Ebody as (cref & d4 & Ec & Ebody).
  apply bind_inv in Ebody as (saved & d5 & Es & Ebody).
  apply bind_inv in Ebody as ([] & d6 & El & Ebody).
  apply bind_inv in Ebody as (pop & d7 & Eg & Ebody).
  apply nextNumber_payments in En.
  apply castRef_db in Ei, Et, Ec. subst d2 d3 d4.
  apply savePayment_inv in Es as [-> Es].
  injection Eg as <- _. injection Ebody as <- _.
  assert (Hl : payments d6 = payments d5).
  { destruct (Validation.invoiceId data) as [[|c i]|];
      destruct (Validation.truckHiringNoteId data) as [[|c' t]|];
      try (injection El as <-; reflexivity).
    all: apply bind_inv in El as ([] & d & E1 & E2).
    all: first [ apply findInvoiceByIdAndUpdate_payments in E1;
                 apply runUpdateInvoiceStatus_payments in E2
               | apply findThnByIdAndUpdate_payments in E1;
                 apply updateThnStatus_payments in E2 ]; congruence. }
  exists data, fin, tA, tR, tD. eexists. split; [reflexivity|]. split; [exact Eh|].
  split; [rewrite Hl, Es, En; reflexivity|]. simpl. auto.
Qed.

Lemma handleTds_receipt (data : Validation.PaymentData)
    (finalAmount : Q) (tdsA tdsR : option Q) (tdsD : option string) :
  handleTds data = inr (finalAmount, tdsA, tdsR, tdsD) ->
  Validation.tdsApplicable data = Some true ->
  Validation.type data = RECEIPT ->
  exists rate,
    Validation.tdsRate data = Some rate /\ tdsR = Some rate
    /\ match Validation.tdsAmount data with
       | None => tdsA = Some (Validation.amount data * (rate / 100))
                 /\ finalAmount = Validation.amount data
                                  - Validation.amount data * (rate / 100)
       | Some supplied => tdsA = Some supplied /\ finalAmount = Validation.amount data
       end.
Proof.
  unfold handleTds. intros H Ha Hr. rewrite Ha, Hr in H. simpl in H.
  destruct (Validation.tdsRate data) as [rate|]; [|discriminate].
  exists rate. destruct (Validation.tdsAmount data); simplify_eq; auto.
Qed.

Lemma handleTds_other (data : Validation.PaymentData)
    (finalAmount : Q) (tdsA tdsR : option Q) (tdsD : option string) :
  handleTds data = inr (finalAmount, tdsA, tdsR, tdsD) ->
  Validation.tdsApplicable data <> Some true \/ Validation.type data <> RECEIPT ->
  finalAmount = Validation.amount data /\ tdsA = None /\ tdsR = None /\ tdsD = None.
Proof.
  unfold handleTds. intros H Hn.
  destruct (bool_decide (Validation.tdsApplicable data = Some true)) eqn:Ea;
    [destruct (isReceipt (Validation.type data)) eqn:Er|]; simpl in H.
  - apply bool_decide_eq_true in Ea. unfold isReceipt in Er.
    apply bool_decide_eq_true in Er. tauto.
  - simplify_eq. auto.
  - simplify_eq. auto.
Qed.

(** C5. A payment stored by a request answered with 201 follows the TDS
    rule. With [tdsApplicable] set on a Receipt: when no [tdsAmount] came
    with the request the stored [tdsAmount] is [amount * tdsRate / 100] and
    the stored amount is the request's amount less that; when one came, the
    request's amount is stored as it is. Otherwise [tdsAmount], [tdsRate]
    and [tdsDate] are absent and the amount is stored as it is. *)
Theorem createPayment_tds
    (env : PaymentEnv) (reqBody : Validation.RawPayment) (db db' : Db)
    (response : Response) :
  createPayment castObjectId paymentModelAccepts updateInvoiceStatus env reqBody db
  = (db', Ok response) ->
  statusCode response = 201%N ->
  exists (data : Validation.PaymentData) (doc : PaymentDoc),
    Validation.createPaymentSchema reqBody = Some data
    /\ payments db' = (payments db ++ [doc])%list
    /\ (Validation.tdsApplicable data = Some true -> Validation.type data = RECEIPT ->
        (Validation.tdsAmount data = None ->
         exists rate tds,
           Validation.tdsRate data = Some rate
           /\ tdsAmount doc = Some tds
           /\ tds == Validation.amount data * rate / 100
           /\ amount doc == Validation.amount data - tds)
        /\ (forall supplied, Validation.tdsAmount data = Some supplied ->
            tdsAmount doc = Some supplied /\ amount doc = Validation.amount data))
    /\ (Validation.tdsApplicable data <> Some true \/ Validation.type data <> RECEIPT ->
        tdsAmount doc = None /\ tdsRate doc = None /\ tdsDate doc = None
        /\ amount doc = Validation.amount data).
Proof.
  intros Hrun H201.
  destruct (createPayment_stored env reqBody db db' response Hrun H201)
    as (data & fin & tA & tR & tD & doc & Hs & Ht & Hp & <- & <- & <- & <-).
  exists data, doc. split; [exact Hs|]. split; [exact Hp|]. split.
  - intros Ha Hr.
    destruct (handleTds_receipt data _ _ _ _ Ht Ha Hr) as (rate & Hrate & _ & Hcase).
    split.
    + intros Hnone. rewrite Hnone in Hcase. destruct Hcase as [HA HF].
      exists rate, (Validation.amount data * (rate / 100)).
      split; [exact Hrate|]. split; [exact HA|]. rewrite HF.
      split; [field | reflexivity].
    + intros supplied Hsome. rewrite Hsome in Hcase. exact Hcase.
  - intros Hn. destruct (handleTds_other data _ _ _ _ Ht Hn) as (-> & -> & -> & ->).
    auto.
Qed.

End Creation.
End CreationFacts.

(** ** The ledgers *)

Module LedgerFacts.
Import Ledger.

#[global] Instance ClientLineLaws : LedgerLineLaws ClientLedgerEntry.
Proof. split; reflexivity. Qed.

#[global] Instance CompanyLineLaws : LedgerLineLaws CompanyLedgerEntry.
Proof. split; reflexivity. Qed.

Section Pipeline.

Variable parseDate : string -> option Z.
Context {E : Type} `{LedgerLineLaws E}.


Lemma timeOf_withBalance (b : Q) (t : BalanceType) (e : E) :
  (timeOf parseDate) (withBalance b t e) = (timeOf parseDate) e.
Proof. unfold Ledger.timeOf. now rewrite date_withBalance. Qed.

Lemma comesAfter_spec (a b : E) :
  (comesAfter parseDate) a b = true <->
  exists ta tb, (timeOf parseDate) a = Some ta /\ (timeOf parseDate) b = Some tb /\ (tb < ta)%Z.
Proof.
  unfold Ledger.comesAfter, compareDates, Ledger.timeOf.
  destruct (parseDate (lineDate a)) as [ta|], (parseDate (lineDate b)) as [tb|];
    split; try discriminate; try (intros (? & ? & ? & ? & ?); discriminate).
  - intros Hlt. apply Z.ltb_lt in Hlt. exists ta, tb. repeat split; lia.
  - intros (? & ? & [= <-] & [= <-] & Hlt). apply Z.ltb_lt. lia.
Qed.

(** *** The sort is a permutation *)

Lemma insertByDate_perm (x : E) (l : list E) :
  Permutation ((insertByDate parseDate) x l) (x :: l).
Proof.
  induction l as [|y l IH]; simpl; [reflexivity|].
  destruct ((comesAfter parseDate) x y); [|reflexivity].
  rewrite IH. apply perm_swap.
Qed.

Lemma sortByDate_perm (l : list E) : Permutation ((sortByDate parseDate) l) l.
Proof.
  induction l as [|x l IH]; simpl; [reflexivity|].
  rewrite insertByDate_perm. now constructor.
Qed.

(** *** The sort orders entries whose dates parse *)

Lemma notAfter_trans (a b c : E) : (notAfter parseDate) a b -> (notAfter parseDate) b c -> (notAfter parseDate) a c.
Proof.
  intros (ta & tb & Ha & Hb & Hab) (tb' & tc & Hb' & Hc & Hbc).
  exists ta, tc. repeat split; try assumption. rewrite Hb in Hb'. simplify_eq. lia.
Qed.

Lemma insertByDate_sorted (x : E) (l : list E) :
  is_Some ((timeOf parseDate) x) -> AllDated parseDate l ->
  StronglySorted (notAfter parseDate) l -> StronglySorted (notAfter parseDate) ((insertByDate parseDate) x l).
Proof.
  intros [tx Hx] Hd Hs. induction Hs as [|y l Hs IH Hy]; simpl.
  - repeat constructor.
  - apply Forall_cons in Hd as [[ty Hty] Hd].
    destruct ((comesAfter parseDate) x y) eqn:Ec.
    + apply comesAfter_spec in Ec as (tx' & ty' & Hx' & Hy' & Hlt).
      constructor; [now apply IH|].
      rewrite insertByDate_perm.
      constructor; [|exact Hy]. exists ty', tx'. repeat split; auto; lia.
    + assert (Hxy : (notAfter parseDate) x y).
      { exists tx, ty. repeat split; auto.
        destruct (Z.le_gt_cases tx ty) as [Hle|Hgt]; [exact Hle|].
        assert ((comesAfter parseDate) x y = true) by (apply comesAfter_spec; eauto 6).
        congruence. }
      constructor; [now constructor|].
      constructor; [exact Hxy|].
      eapply Forall_impl; [exact Hy|]. intros z Hz. now apply (notAfter_trans x y z).
Qed.

Lemma sortByDate_sorted (l : list E) :
  AllDated parseDate l -> StronglySorted (notAfter parseDate) ((sortByDate parseDate) l).
Proof.
  induction 1 as [|x l Hx Hl IH]; simpl; [constructor|].
  apply insertByDate_sorted; auto.
  unfold AllDated. rewrite sortByDate_perm. exact Hl.
Qed.

(** *** The sort is stable *)

Lemma insertByDate_filter (t : Z) (x : E) (l : list E) :
  List.filter ((datedAt parseDate) t) ((insertByDate parseDate) x l)
  = if (datedAt parseDate) t x then x :: List.filter ((datedAt parseDate) t) l else List.filter ((datedAt parseDate) t) l.
Proof.
  induction l as [|y l IH]; simpl; [reflexivity|].
  destruct ((comesAfter parseDate) x y) eqn:Ec; simpl; [|reflexivity].
  rewrite IH. apply comesAfter_spec in Ec as (tx & ty & Hx & Hy & Hlt).
  unfold Ledger.datedAt. rewrite Hx, Hy.
  destruct (bool_decide (Some tx = Some t)) eqn:Ex; [|reflexivity].
  apply bool_decide_eq_true in Ex. injection Ex as ->.
  rewrite bool_decide_eq_false_2; [reflexivity|]. intros [= ->]. lia.
Qed.

Lemma sortByDate_filter (t : Z) (l : list E) :
  List.filter ((datedAt parseDate) t) ((sortByDate parseDate) l) = List.filter ((datedAt parseDate) t) l.
Proof.
  induction l as [|x l IH]; simpl; [reflexivity|].
  rewrite insertByDate_filter, IH. reflexivity.
Qed.

(** *** The running balance *)

Lemma unbalanced_runningBalances (rb : Q) (l : list E) :
  List.map unbalanced (runningBalances rb l) = List.map unbalanced l.
Proof.
  revert rb. induction l as [|e l IH]; intros rb; simpl; [reflexivity|].
  rewrite IH. unfold unbalanced at 1 3. now rewrite withBalance_twice.
Qed.

Lemma Forall_runningBalances (P : E -> Prop) (rb : Q) (l : list E) :
  (forall b t e, P e -> P (withBalance b t e)) ->
  Forall P l -> Forall P (runningBalances rb l).
Proof.
  intros HP Hl. revert rb. induction Hl as [|e l He Hl IH]; intros rb; simpl;
    constructor; auto.
Qed.

Lemma runningBalances_sorted (rb : Q) (l : list E) :
  StronglySorted (notAfter parseDate) l -> StronglySorted (notAfter parseDate) (runningBalances rb l).
Proof.
  intros Hs. revert rb. induction Hs as [|e l Hs IH He]; intros rb; simpl;
    constructor; [apply IH|].
  apply Forall_runningBalances.
  - intros b t x (ta & tb & Ha & Hb & Hab). exists ta, tb.
    rewrite !timeOf_withBalance in *. auto.
  - eapply Forall_impl; [exact He|]. intros x (ta & tb & Ha & Hb & Hab).
    exists ta, tb. rewrite !timeOf_withBalance in *. auto.
Qed.

Lemma sorted_lookup (l : list E) (i j : nat) (a b : E) :
  StronglySorted (notAfter parseDate) l -> (i < j)%nat ->
  l !! i = Some a -> l !! j = Some b -> (notAfter parseDate) a b.
Proof.
  intros Hs. revert i j. induction Hs as [|x l Hs IH Hx]; intros i j Hij Hi Hj.
  - discriminate.
  - destruct j as [|j]; [lia|]. destruct i as [|i]; simpl in *.
    + injection Hi as <-. rewrite Forall_forall in Hx. apply Hx.
      eapply list_elem_of_lookup_2. exact Hj.
    + apply (IH i j); [lia | assumption | assumption].
Qed.

Lemma runningBalances_at (rb : Q) (l : list E) (i : nat) (e : E) :
  runningBalances rb l !! i = Some e ->
  let s := rb + netSum (take (S i) (runningBalances rb l)) in
  lineBalance e == Qabs s
  /\ (0 <= s -> lineBalanceType e = DR)
  /\ (s < 0 -> lineBalanceType e = CR).
Proof.
  revert rb i e. induction l as [|x l IH]; intros rb i e Hi; [discriminate|].
  cbn [runningBalances] in Hi |- *.
  set (rb' := rb + (lineDebit x - lineCredit x)) in *.
  set (side := if Qle_bool 0 rb' then DR else CR) in *.
  destruct i as [|i].
  - injection Hi as <-. cbn [take netSum fold_right]. cbv zeta.
    rewrite balance_withBalance, balanceType_withBalance,
      debit_withBalance, credit_withBalance.
    assert (Es : rb + (lineDebit x - lineCredit x + 0) == rb') by (unfold rb'; ring).
    split; [now rewrite Es|]. unfold side. split; intros Hs.
    + rewrite Es in Hs. apply Qle_bool_iff in Hs. now rewrite Hs.
    + rewrite Es in Hs. destruct (Qle_bool 0 rb') eqn:El; [|reflexivity].
      apply Qle_bool_iff in El. lra.
  - change (runningBalances rb' l !! i = Some e) in Hi.
    destruct (IH rb' i e Hi) as (Hb & Hdr & Hcr).
    cbn [take netSum fold_right]. cbv zeta.
    rewrite debit_withBalance, credit_withBalance.
    fold (netSum (take (S i) (runningBalances rb' l))).
    set (tail := netSum (take (S i) (runningBalances rb' l))) in *.
    assert (Es : rb + (lineDebit x - lineCredit x + tail) == rb' + tail)
      by (unfold rb'; ring).
    split; [now rewrite Es|]. split; intros Hs; rewrite Es in Hs; auto.
Qed.

Lemma datedAt_unbalanced (t : Z) (e : E) : (datedAt parseDate) t (unbalanced e) = (datedAt parseDate) t e.
Proof. unfold Ledger.datedAt, unbalanced. now rewrite timeOf_withBalance. Qed.

Lemma filter_unbalanced (t : Z) (l : list E) :
  List.filter ((datedAt parseDate) t) (List.map unbalanced l)
  = List.map unbalanced (List.filter ((datedAt parseDate) t) l).
Proof.
  induction l as [|x l IH]; [reflexivity|].
  cbn [List.map List.filter]. rewrite datedAt_unbalanced.
  destruct ((datedAt parseDate) t x); cbn [List.map]; now rewrite IH.
Qed.

(** Balancing any list of entries gives the running balance. *)
Lemma balance_law (l : list E) : BalanceLaw (runningBalances 0 l).
Proof.
  split.
  - intros i e Hi. destruct (runningBalances_at 0 _ i e Hi) as (Hb & _).
    cbv zeta in Hb. rewrite Hb. apply Qabs_wd. ring.
  - intros i e Hi. destruct (runningBalances_at 0 _ i e Hi) as (_ & Hdr & Hcr).
    cbv zeta in Hdr, Hcr. split; intros Hs; [apply Hdr | apply Hcr]; lra.
Qed.

(** Sorting entries whose dates parse, then balancing, keeps them in order. *)
Lemma date_order (entries : list E) :
  AllDated parseDate entries ->
  DateOrder parseDate entries (runningBalances 0 ((sortByDate parseDate) entries)).
Proof.
  intros Hd. split.
  - intros i j a b. apply sorted_lookup, runningBalances_sorted, sortByDate_sorted, Hd.
  - intros t. rewrite unbalanced_runningBalances.
    now rewrite !filter_unbalanced, sortByDate_filter.
Qed.

Lemma same_lines (entries : list E) :
  Permutation (List.map unbalanced (runningBalances 0 ((sortByDate parseDate) entries)))
              (List.map unbalanced entries).
Proof. rewrite unbalanced_runningBalances. apply Permutation_map, sortByDate_perm. Qed.

End Pipeline.

Section Ledgers.

Variable parseDate : string -> option Z.
Variable isoDate : Z -> string.

(** Whatever the dates, the lines returned are the lines built. *)
Lemma transactions_of_entries {E : Type} `{LedgerLineLaws E} (entries : list E) :
  forall e, In e (runningBalances 0 (sortByDate parseDate entries)) ->
            exists e0, In e0 entries /\ unbalanced e = unbalanced e0.
Proof.
  intros e He. apply (in_map unbalanced) in He.
  rewrite unbalanced_runningBalances in He.
  apply in_map_iff in He as (e1 & He1 & Hin).
  exists e1. split; [|auto].
  apply list_elem_of_In. rewrite <- (sortByDate_perm parseDate entries).
  now apply list_elem_of_In.
Qed.

Lemma entries_in_transactions {E : Type} `{LedgerLineLaws E} (entries : list E) :
  forall e0, In e0 entries ->
             In (unbalanced e0)
                (List.map unbalanced (runningBalances 0 (sortByDate parseDate entries))).
Proof.
  intros e0 Hin. rewrite unbalanced_runningBalances. apply in_map.
  apply list_elem_of_In. rewrite (sortByDate_perm parseDate entries).
  now apply list_elem_of_In.
Qed.

Lemma length_transactions {E : Type} `{LedgerLineLaws E} (entries : list E) :
  length (runningBalances 0 (sortByDate parseDate entries)) = length entries.
Proof.
  rewrite <- (length_map unbalanced), unbalanced_runningBalances, length_map.
  apply Permutation_length, sortByDate_perm.
Qed.

Lemma unbalanced_fields {E : Type} `{LedgerLineLaws E} (a b : E) :
  unbalanced a = unbalanced b ->
  lineDate a = lineDate b /\ lineDebit a = lineDebit b /\ lineCredit a = lineCredit b.
Proof.
  intros Hab. unfold unbalanced in Hab.
  rewrite <- (date_withBalance 0 DR a), <- (debit_withBalance 0 DR a),
    <- (credit_withBalance 0 DR a), Hab.
  now rewrite date_withBalance, debit_withBalance, credit_withBalance.
Qed.

Lemma dateGe_dated (d s : string) :
  dateGe parseDate d s = true -> is_Some (parseDate d).
Proof. unfold dateGe. destruct (parseDate d); [eauto | discriminate]. Qed.

Lemma inPeriod_dated (startDate endDate d : string) :
  inPeriod parseDate startDate endDate d = true -> is_Some (parseDate d).
Proof.
  unfold inPeriod. intros H. apply andb_true_iff in H as [H _].
  exact (dateGe_dated _ _ H).
Qed.

(** The entries of the client ledger carry the dates of the customer's
    invoices and payments. *)
Lemma clientEntries_dated customerId customer invoices payments thns filters :
  (forall invoice, In invoice invoices -> is_Some (parseDate (Invoice.date invoice))) ->
  (forall payment, In payment payments -> is_Some (parseDate (Payment.date payment))) ->
  AllDated parseDate (clientEntries parseDate customerId customer invoices payments
                                    thns filters).
Proof.
  intros Hi Hp. apply List.Forall_forall. intros e He. unfold clientEntries in He.
  apply in_app_or in He as [He|He]; apply in_map_iff in He as (x & <- & Hx);
    apply filter_In in Hx as [Hx _]; apply filter_In in Hx as [Hx _].
  - exact (Hi x Hx).
  - exact (Hp x Hx).
Qed.

(** The period test lets no unparsable record date through: only the
    [tdsDate] of a receipt can bring one into the company ledger. *)
Lemma companyEntries_dated startDate endDate invoices payments thns :
  (forall payment d, In payment payments -> Payment.tdsDate payment = Some d ->
                     d <> "" -> is_Some (parseDate d)) ->
  AllDated parseDate (companyEntries parseDate startDate endDate invoices payments thns).
Proof.
  intros Htds. apply List.Forall_forall. intros e He. unfold timeOf.
  cbn [lineDate CompanyLine].
  unfold companyEntries in He.
  apply in_app_or in He as [He|He]; [|apply in_app_or in He as [He|He]];
    apply in_flat_map in He as (x & Hx & He).
  - destruct (inPeriod _ _ _ (Invoice.date x)) eqn:Hp; [|destruct He].
    apply inPeriod_dated in Hp. destruct He as [<-|[<-|[]]]; exact Hp.
  - destruct (inPeriod _ _ _ (Payment.date x)) eqn:Hp; [|destruct He].
    apply inPeriod_dated in Hp. unfold companyPaymentEntries in He.
    destruct (isAdvance (Payment.type x)).
    + destruct He as [<-|[<-|[]]]; exact Hp.
    + destruct (hasTDS x); cbn [app] in He.
      * destruct He as [<-|[<-|[<-|[]]]]; [exact Hp | | exact Hp].
        cbn [date]. destruct (Payment.tdsDate x) as [[|c d]|] eqn:Ed; cbn [orStr];
          [exact Hp | | exact Hp].
        apply (Htds x (String c d) Hx Ed). discriminate.
      * destruct He as [<-|[<-|[]]]; exact Hp.
  - destruct (inPeriod _ _ _ (TruckHiringNote.date x)) eqn:Hp; [|destruct He].
    apply inPeriod_dated in Hp. destruct He as [<-|[<-|[]]]; exact Hp.
Qed.

(** C4. In both ledgers the transactions are the entries built, each with
    its running balance: at every index the balance is the absolute value
    of the sum of [debit - credit] up to that index, the side being DR when
    that sum is not negative and CR otherwise. They are in ascending order
    of date, entries of one date keeping the order in which they were
    built, as soon as the dates compared are dates: in the client ledger
    when the dates of the invoices and payments parse, in the company
    ledger (where the period test already requires it of the records) when
    the [tdsDate]s of the payments parse. *)
Theorem ledger_balance_law :
  (forall customerId customer invoices payments truckHiringNotes filters,
      let entries := clientEntries parseDate customerId customer invoices payments
                                   truckHiringNotes filters in
      let transactions :=
        cl_transactions (generateClientLedger parseDate customerId customer invoices
                           payments truckHiringNotes filters) in
      Permutation (List.map unbalanced transactions) (List.map unbalanced entries)
      /\ BalanceLaw transactions
      /\ ((forall invoice, In invoice invoices ->
                           is_Some (parseDate (Invoice.date invoice))) ->
          (forall payment, In payment payments ->
                           is_Some (parseDate (Payment.date payment))) ->
          DateOrder parseDate entries transactions))
  /\ (forall clock customers invoices payments truckHiringNotes filters,
        let entries := companyEntries parseDate (periodStart isoDate clock filters)
                         (periodEnd isoDate clock filters)
                         invoices payments truckHiringNotes in
        let transactions :=
          Ledger.transactions
            (generateCompanyLedger parseDate isoDate clock customers invoices
               payments truckHiringNotes filters) in
        Permutation (List.map unbalanced transactions) (List.map unbalanced entries)
        /\ BalanceLaw transactions
        /\ ((forall payment d, In payment payments ->
                               Payment.tdsDate payment = Some d -> d <> "" ->
                               is_Some (parseDate d)) ->
            DateOrder parseDate entries transactions)).
Proof.
  split; intros until filters; cbv zeta;
    (split; [apply same_lines | split; [apply balance_law |]]); try exact _.
  - intros Hi Hp. apply date_order; [exact _|]. now apply clientEntries_dated.
  - intros Htds. apply date_order; [exact _|]. now apply companyEntries_dated.
Qed.

Lemma flat_map_filter {A B} (p : A -> bool) (f : A -> list B) (l : list A) :
  flat_map (fun x => if p x then f x else []) l
  = flat_map (fun x => if p x then f x else []) (List.filter p l).
Proof.
  induction l as [|x l IH]; [reflexivity|].
  cbn [flat_map List.filter]. destruct (p x) eqn:Ep; cbn [flat_map app].
  - now rewrite Ep, IH.
  - exact IH.
Qed.

Lemma flat_map_skip {A B} (p : A -> bool) (f : A -> list B) (pre post : list A) (x : A) :
  p x = false ->
  flat_map (fun x => if p x then f x else []) (pre ++ x :: post)%list
  = flat_map (fun x => if p x then f x else []) (pre ++ post)%list.
Proof.
  intros Hx. rewrite !flat_map_app. cbn [flat_map]. now rewrite Hx.
Qed.

Lemma hasTDS_intro (payment : Payment.t) (tds : Q) :
  Payment.type payment = RECEIPT ->
  Payment.tdsApplicable payment = Some true ->
  Payment.tdsAmount payment = Some tds ->
  0 < tds ->
  hasTDS payment = true /\ tdsOf payment = tds.
Proof.
  intros Hty Happ Hamt Hpos. unfold hasTDS, tdsOf. rewrite Hty, Happ, Hamt.
  split; [|reflexivity].
  assert (Hg : gtb0 tds = true) by now apply gtb0_true.
  assert (Hz : Qeq_bool tds 0 = false).
  { apply not_true_iff_false. intros E. apply Qeq_bool_iff in E. lra. }
  rewrite Hg, Hz. reflexivity.
Qed.

(** C6, as the code has it. An in-range Receipt with TDS adds exactly three
    lines to the company ledger: a debit of the stored (net) amount for the
    money received, a credit of [tdsAmount] for the TDS deducted, dated by
    [tdsDate] when present and else by the payment date, and a credit of
    the net amount plus [tdsAmount] against the receivable. The amount
    debited and the TDS credited add up to the receivable credited; all
    three taken together, the credits exceed the debits by twice
    [tdsAmount]. *)
Theorem company_tds_receipt
    (clock : Clock) (customers : list Customer.t) (invoices : list Invoice.t)
    (pre post : list Payment.t) (truckHiringNotes : list TruckHiringNote.t)
    (filters : option LedgerFilters) (payment : Payment.t) (tds : Q) :
  inPeriod parseDate (periodStart isoDate clock filters) (periodEnd isoDate clock filters)
           (Payment.date payment) = true ->
  Payment.type payment = RECEIPT ->
  Payment.tdsApplicable payment = Some true ->
  Payment.tdsAmount payment = Some tds ->
  0 < tds ->
  exists cash tdsLine receivable : CompanyLedgerEntry,
    companyPaymentEntries payment = [cash; tdsLine; receivable]
    /\ (date cash = Payment.date payment
        /\ debit cash = Payment.amount payment /\ credit cash = 0
        /\ particulars cash
           = [Str ("Payment received from "
                   ++ customerNameOrUnknown (Payment.customer payment)
                   ++ " (Net after TDS: "); Rupees tds; Str ")"])
    /\ (date tdsLine = orStr (Payment.tdsDate payment) (Payment.date payment)
        /\ debit tdsLine = 0 /\ credit tdsLine = tds
        /\ particulars tdsLine
           = [Str ("TDS deducted from payment received from "
                   ++ customerNameOrUnknown (Payment.customer payment) ++ " @ ");
              Num (Payment.tdsRate payment); Str "%"])
    /\ (date receivable = Payment.date payment
        /\ debit receivable = 0 /\ credit receivable = Payment.amount payment + tds)
    /\ (let ledger ps :=
          transactions (generateCompanyLedger parseDate isoDate clock customers invoices
                          ps truckHiringNotes filters) in
        length (ledger (pre ++ payment :: post)%list)
        = (3 + length (ledger (pre ++ post)%list))%nat
        /\ forall e, In e [cash; tdsLine; receivable] ->
             In (unbalanced e) (List.map unbalanced (ledger (pre ++ payment :: post)%list)))
    /\ debit cash + credit tdsLine == credit receivable
    /\ sumOver credit [cash; tdsLine; receivable]
       - sumOver debit [cash; tdsLine; receivable] == 2 * tds.
Proof.
  intros Hin Hty Happ Hamt Hpos.
  destruct (hasTDS_intro payment tds Hty Happ Hamt Hpos) as [Htds Hof].
  unfold companyPaymentEntries. rewrite Htds, Hof, Hty.
  change (isAdvance RECEIPT) with false. cbn [app].
  eexists _, _, _. split; [reflexivity|]. cbn [date debit credit particulars].
  split; [auto|]. split; [auto|]. split; [auto|]. split.
  - cbv zeta. unfold generateCompanyLedger. cbn [transactions].
    rewrite !length_transactions by exact _. split.
    + unfold companyEntries. rewrite !length_app, !flat_map_app, !length_app.
      cbn [flat_map]. rewrite Hin. unfold companyPaymentEntries.
      rewrite Htds, Hty. change (isAdvance RECEIPT) with false.
      cbn [app length]. lia.
    + intros e He. apply entries_in_transactions.
      unfold companyEntries. apply in_or_app. right. apply in_or_app. left.
      apply in_flat_map. exists payment. split; [apply in_elt|].
      rewrite Hin. unfold companyPaymentEntries.
      rewrite Htds, Hof, Hty. change (isAdvance RECEIPT) with false.
      exact He.
  - split; [ring|]. unfold sumOver. cbn [fold_right debit credit]. ring.
Qed.

(** C10. The summary of the company ledger does not look at the period:
    the revenue is the sum of [grandTotal] over all invoices given, the
    expenses the sum of [freightRate] over all notes given, the profit
    their difference, whatever the filters; an invoice or a note dated
    outside the period adds no transaction and still adds to the total. *)
Theorem company_summary_unfiltered
    (clock : Clock) (customers : list Customer.t) (invoices : list Invoice.t)
    (payments : list Payment.t) (truckHiringNotes : list TruckHiringNote.t)
    (filters : option LedgerFilters) :
  let ledger invs thns :=
    generateCompanyLedger parseDate isoDate clock customers invs payments thns filters in
  let inside := inPeriod parseDate (periodStart isoDate clock filters)
                         (periodEnd isoDate clock filters) in
  totalRevenue (summary (ledger invoices truckHiringNotes))
    == sumOver Invoice.grandTotal invoices
  /\ totalExpenses (summary (ledger invoices truckHiringNotes))
     == sumOver TruckHiringNote.freightRate truckHiringNotes
  /\ netProfit (summary (ledger invoices truckHiringNotes))
     == sumOver Invoice.grandTotal invoices
        - sumOver TruckHiringNote.freightRate truckHiringNotes
  /\ (forall clock' filters',
        summary (generateCompanyLedger parseDate isoDate clock' customers invoices
                   payments truckHiringNotes filters')
        = summary (ledger invoices truckHiringNotes))
  /\ (forall pre invoice post,
        invoices = (pre ++ invoice :: post)%list ->
        inside (Invoice.date invoice) = false ->
        transactions (ledger invoices truckHiringNotes)
        = transactions (ledger (pre ++ post)%list truckHiringNotes)
        /\ totalRevenue (summary (ledger invoices truckHiringNotes))
           == totalRevenue (summary (ledger (pre ++ post)%list truckHiringNotes))
              + Invoice.grandTotal invoice)
  /\ (forall pre thn post,
        truckHiringNotes = (pre ++ thn :: post)%list ->
        inside (TruckHiringNote.date thn) = false ->
        transactions (ledger invoices truckHiringNotes)
        = transactions (ledger invoices (pre ++ post)%list)
        /\ totalExpenses (summary (ledger invoices truckHiringNotes))
           == totalExpenses (summary (ledger invoices (pre ++ post)%list))
              + TruckHiringNote.freightRate thn).
Proof.
  cbv zeta. unfold generateCompanyLedger. cbn [summary transactions totalRevenue
    totalExpenses netProfit].
  repeat split.
  - rewrite fold_left_sumOver. ring.
  - rewrite fold_left_sumOver. ring.
  - rewrite !fold_left_sumOver. ring.
  - subst invoices. unfold companyEntries. now rewrite (flat_map_skip _ _ pre post invoice).
  - subst invoices. rewrite !fold_left_sumOver, !sumOver_app.
    unfold sumOver at 2. cbn [fold_right]. fold (sumOver Invoice.grandTotal post). ring.
  - subst truckHiringNotes. unfold companyEntries.
    now rewrite (flat_map_skip _ _ pre post thn).
  - subst truckHiringNotes. rewrite !fold_left_sumOver, !sumOver_app.
    unfold sumOver at 2. cbn [fold_right].
    fold (sumOver TruckHiringNote.freightRate post). ring.
Qed.

Lemma dateGe_spec (d s : string) :
  dateGe parseDate d s = true <->
  exists td ts, parseDate d = Some td /\ parseDate s = Some ts /\ (ts <= td)%Z.
Proof.
  unfold dateGe. destruct (parseDate d) as [td|], (parseDate s) as [ts|];
    split; try discriminate; try (intros (? & ? & ? & ? & ?); discriminate).
  - intros Hle. apply Z.leb_le in Hle. eauto.
  - intros (? & ? & [= <-] & [= <-] & Hle). now apply Z.leb_le.
Qed.

Lemma dateLe_spec (d s : string) :
  dateLe parseDate d s = true <->
  exists td ts, parseDate d = Some td /\ parseDate s = Some ts /\ (td <= ts)%Z.
Proof.
  unfold dateLe. destruct (parseDate d) as [td|], (parseDate s) as [ts|];
    split; try discriminate; try (intros (? & ? & ? & ? & ?); discriminate).
  - intros Hle. apply Z.leb_le in Hle. eauto.
  - intros (? & ? & [= <-] & [= <-] & Hle). now apply Z.leb_le.
Qed.

Lemma clientEntries_fromStart customerId customer invoices payments thns filters :
  forall e, In e (clientEntries parseDate customerId customer invoices payments thns filters) ->
            fromStart parseDate filters (c_date e) = true.
Proof.
  intros e He. unfold clientEntries in He. apply in_app_or in He as [He|He];
    apply in_map_iff in He as (x & <- & Hx); apply filter_In in Hx as [_ Hx]; exact Hx.
Qed.

Lemma companyEntries_dates startDate endDate invoices payments thns :
  forall e, In e (companyEntries parseDate startDate endDate invoices payments thns) ->
    inPeriod parseDate startDate endDate (date e) = true
    \/ exists p, In p payments /\ hasTDS p = true
                 /\ inPeriod parseDate startDate endDate (Payment.date p) = true
                 /\ date e = orStr (Payment.tdsDate p) (Payment.date p).
Proof.
  intros e He. unfold companyEntries in He.
  apply in_app_or in He as [He|He]; [|apply in_app_or in He as [He|He]];
    apply in_flat_map in He as (x & Hx & He).
  - destruct (inPeriod _ _ _ (Invoice.date x)) eqn:Hp; [|destruct He].
    left. destruct He as [<-|[<-|[]]]; exact Hp.
  - destruct (inPeriod _ _ _ (Payment.date x)) eqn:Hp; [|destruct He].
    unfold companyPaymentEntries in He.
    destruct (isAdvance (Payment.type x)).
    + left. destruct He as [<-|[<-|[]]]; exact Hp.
    + destruct (hasTDS x) eqn:Ht; cbn [app] in He.
      * destruct He as [<-|[<-|[<-|[]]]]; [now left | | now left].
        right. exists x. auto.
      * left. destruct He as [<-|[<-|[]]]; exact Hp.
  - destruct (inPeriod _ _ _ (TruckHiringNote.date x)) eqn:Hp; [|destruct He].
    left. destruct He as [<-|[<-|[]]]; exact Hp.
Qed.

(** C9, as the code has it. The client ledger honours [startDate] alone:
    no transaction is dated before it, every invoice and payment of the
    customer dated on or after it has its transaction, and two filters
    with the same [startDate] give the same ledger, whatever their
    [endDate], [customerId], [voucherType], [minAmount] and [maxAmount].
    The company ledger takes the invoices, payments and notes dated from
    [startDate] to [endDate], both included, and no others; each line
    carries the date of its record, the TDS line of a receipt carrying the
    receipt's [tdsDate] when there is one; two filters with the same
    [startDate] and [endDate] give the same ledger. *)
Theorem ledger_filters :
  (forall customerId customer invoices payments truckHiringNotes filters,
      let ledger := generateClientLedger parseDate customerId customer invoices payments
                                         truckHiringNotes in
      (forall e, In e (cl_transactions (ledger filters)) ->
                 fromStart parseDate filters (c_date e) = true)
      /\ (forall invoice, In invoice invoices ->
            isCustomerInvoice customerId invoice = true ->
            fromStart parseDate filters (Invoice.date invoice) = true ->
            exists e, In e (cl_transactions (ledger filters))
                      /\ c_date e = Invoice.date invoice
                      /\ c_debit e = Invoice.grandTotal invoice /\ c_credit e = 0)
      /\ (forall payment, In payment payments ->
            isCustomerPayment customerId payment = true ->
            fromStart parseDate filters (Payment.date payment) = true ->
            exists e, In e (cl_transactions (ledger filters))
                      /\ c_date e = Payment.date payment
                      /\ c_debit e = 0 /\ c_credit e = Payment.amount payment)
      /\ (forall f1 f2, startDate f1 = startDate f2 -> ledger (Some f1) = ledger (Some f2)))
  /\ (forall clock customers invoices payments truckHiringNotes filters,
        let ledger invs pays thns fs :=
          generateCompanyLedger parseDate isoDate clock customers invs pays thns fs in
        let inside := inPeriod parseDate (periodStart isoDate clock filters)
                               (periodEnd isoDate clock filters) in
        (forall e, In e (transactions (ledger invoices payments truckHiringNotes filters)) ->
           inside (date e) = true
           \/ exists p, In p payments /\ hasTDS p = true
                        /\ inside (Payment.date p) = true
                        /\ date e = orStr (Payment.tdsDate p) (Payment.date p))
        /\ transactions (ledger invoices payments truckHiringNotes filters)
           = transactions
               (ledger (List.filter (fun i => inside (Invoice.date i)) invoices)
                       (List.filter (fun p => inside (Payment.date p)) payments)
                       (List.filter (fun t => inside (TruckHiringNote.date t)) truckHiringNotes)
                       filters)
        /\ (forall e0,
              (exists i, In i invoices /\ inside (Invoice.date i) = true
                         /\ In e0 (companyInvoiceEntries i))
              \/ (exists p, In p payments /\ inside (Payment.date p) = true
                            /\ In e0 (companyPaymentEntries p))
              \/ (exists t, In t truckHiringNotes /\ inside (TruckHiringNote.date t) = true
                            /\ In e0 (companyThnEntries t)) ->
              In (unbalanced e0)
                 (List.map unbalanced
                    (transactions (ledger invoices payments truckHiringNotes filters))))
        /\ (forall f1 f2, startDate f1 = startDate f2 -> endDate f1 = endDate f2 ->
              ledger invoices payments truckHiringNotes (Some f1)
              = ledger invoices payments truckHiringNotes (Some f2)))
  /\ (forall d s,
        (dateGe parseDate d s = true <->
         exists td ts, parseDate d = Some td /\ parseDate s = Some ts /\ (ts <= td)%Z)
        /\ (dateLe parseDate d s = true <->
            exists td ts, parseDate d = Some td /\ parseDate s = Some ts /\ (td <= ts)%Z)).
Proof.
  split; [|split].
  - intros customerId customer invoices payments thns filters. cbv zeta.
    unfold generateClientLedger. cbn [cl_transactions]. split; [|split; [|split]].
    + intros e He. apply transactions_of_entries in He as (e0 & He0 & Heq).
      apply unbalanced_fields in Heq as (Hd & _). cbn [lineDate ClientLine] in Hd.
      rewrite Hd. eapply clientEntries_fromStart. exact He0.
    + intros invoice Hin Hcust Hfrom.
      assert (He0 : In (clientInvoiceEntry invoice)
                       (clientEntries parseDate customerId customer invoices payments
                                      thns filters)).
      { unfold clientEntries. apply in_or_app. left. apply in_map.
        apply filter_In. split; [|exact Hfrom]. apply filter_In. auto. }
      apply entries_in_transactions in He0.
      apply in_map_iff in He0 as (e & Heq & He).
      apply unbalanced_fields in Heq as (Hd & Hdb & Hcr).
      exists e. split; [exact He|]. cbn [lineDate lineDebit lineCredit ClientLine] in *.
      rewrite Hd, Hdb, Hcr. auto.
    + intros payment Hin Hcust Hfrom.
      set (ci := List.filter (isCustomerInvoice customerId) invoices).
      set (ct := List.filter (fun thn => String.eqb (TruckHiringNote.truckOwnerName thn)
                                                    (Customer.name customer)) thns).
      assert (He0 : In (clientPaymentEntry ci ct payment)
                       (clientEntries parseDate customerId customer invoices payments
                                      thns filters)).
      { unfold clientEntries. apply in_or_app. right. apply in_map.
        apply filter_In. split; [|exact Hfrom]. apply filter_In. auto. }
      apply entries_in_transactions in He0.
      apply in_map_iff in He0 as (e & Heq & He).
      apply unbalanced_fields in Heq as (Hd & Hdb & Hcr).
      exists e. split; [exact He|]. cbn [lineDate lineDebit lineCredit ClientLine] in *.
      rewrite Hd, Hdb, Hcr. auto.
    + intros f1 f2 Hs. unfold clientEntries, fromStart. now rewrite Hs.
  - intros clock customers invoices payments thns filters. cbv zeta.
    unfold generateCompanyLedger. cbn [transactions]. split; [|split; [|split]].
    + intros e He. apply transactions_of_entries in He as (e0 & He0 & Heq).
      apply unbalanced_fields in Heq as (Hd & _). cbn [lineDate CompanyLine] in Hd.
      rewrite Hd. now apply companyEntries_dates in He0.
    + unfold companyEntries.
      now rewrite <- !(flat_map_filter (fun x => inPeriod _ _ _ _)).
    + intros e0 Hsrc. apply entries_in_transactions. unfold companyEntries.
      destruct Hsrc as [(i & Hi & Hp & He)|[(p & Hi & Hp & He)|(t & Hi & Hp & He)]].
      * apply in_or_app. left. apply in_flat_map. exists i. now rewrite Hp.
      * apply in_or_app. right. apply in_or_app. left.
        apply in_flat_map. exists p. now rewrite Hp.
      * apply in_or_app. right. apply in_or_app. right.
        apply in_flat_map. exists t. now rewrite Hp.
    + intros f1 f2 Hs He. unfold periodStart, periodEnd. cbn [mbind option_bind].
      now rewrite Hs, He.
  - intros d s. split; [apply dateGe_spec | apply dateLe_spec].
Qed.

End Ledgers.
End LedgerFacts.

(** ** The statements at the sample data *)

Module Instances.
Import Sample.

(** The recompute of the legacy note: 1000 paid, 9500 due. *)
Lemma updateThnStatus_persisted_witness :
  Host.castObjectId noteIdText = Some noteOid
  /\ Backend.thns legacyDb !! noteOid = Some legacyNote
  /\ exists db' thn',
       Backend.updateThnStatus Host.castObjectId noteIdText legacyDb = (db', Backend.Ok tt)
       /\ Backend.thns db' !! noteOid = Some thn'
       /\ 0 <= Backend.balanceAmount thn'.
Proof.
  split; [reflexivity|]. split; [reflexivity|].
  destruct (BackendFacts.updateThnStatus_persisted Host.castObjectId
              noteIdText noteOid legacyNote legacyDb eq_refl eq_refl)
    as (db' & thn' & E & Hl & _ & _ & _ & Hnn & _).
  exists db', thn'. auto.
Defined.

Lemma updateThnStatus_paidAmount_witness :
  Host.castObjectId noteIdText = Some noteOid
  /\ Backend.thns legacyDb !! noteOid = Some legacyNote
  /\ exists db' thn',
       Backend.updateThnStatus Host.castObjectId noteIdText legacyDb = (db', Backend.Ok tt)
       /\ Backend.thns db' !! noteOid = Some thn'
       /\ Backend.paidAmount thn' == Backend.linkedSum noteOid (Backend.payments legacyDb).
Proof.
  split; [reflexivity|]. split; [reflexivity|].
  destruct (BackendFacts.updateThnStatus_paidAmount Host.castObjectId
              noteIdText noteOid legacyNote legacyDb eq_refl eq_refl)
    as (db' & thn' & E & Hl & Hadv & _).
  exists db', thn'. split; [exact E|]. split; [exact Hl|].
  apply (Hadv manualAdvance); [left|..]; reflexivity.
Defined.

(** C2 as stated fails: on the legacy note the hand-entered Advance payment
    carries no tag, yet
    the recompute leaves the stored advance of 2000 out: 1000 is persisted
    where detection by tag would give 3000. *)
Lemma taggedDetection_fails :
  ~ Backend.taggedDetection Host.castObjectId noteIdText legacyDb.
Proof.
  intros H. destruct (H noteOid legacyNote eq_refl eq_refl) as (thn' & Hl & _ & Hsum).
  vm_compute in Hl. injection Hl as <-.
  specialize (Hsum eq_refl). vm_compute in Hsum. discriminate.
Qed.

Lemma createTruckHiringNote_advance_witness :
  Backend.nd_advanceAmount noteData = Some 5000
  /\ exists db1 response,
       Backend.createTruckHiringNote acceptAll acceptAll noteEnv noteData emptyDb
       = (db1, Backend.Ok response)
       /\ length (Backend.payments db1) = 1%nat
       /\ forall thnId, Host.castObjectId thnId = Some noteOid ->
            exists db2 note',
              Backend.updateThnStatus Host.castObjectId thnId db1 = (db2, Backend.Ok tt)
              /\ Backend.thns db2 !! noteOid = Some note'
              /\ Backend.paidAmount note' == 5000.
Proof.
  split; [reflexivity|].
  destruct (CreationFacts.createTruckHiringNote_advance Host.castObjectId
              acceptAll acceptAll noteEnv noteData emptyDb 5000
              eq_refl (Qeq_refl 5000) (fun _ => eq_refl) (fun _ => eq_refl)
              (List.Forall_nil _))
    as (db1 & response & note & adv & E & _ & _ & Hp & _ & _ & _ & _ & Hre).
  exists db1, response. split; [exact E|]. split; [rewrite Hp; reflexivity|].
  intros thnId Hc. destruct (Hre thnId Hc) as (db2 & note' & E2 & Hl & H5 & _).
  eauto.
Defined.

Lemma createPayment_tds_witness :
  exists db' response doc,
    Backend.createPayment Host.castObjectId acceptAll invoicesUntouched
                          paymentEnv receiptBody legacyDb
    = (db', Backend.Ok response)
    /\ Backend.statusCode response = 201%N
    /\ Backend.payments db' = (Backend.payments legacyDb ++ [doc])%list
    /\ Backend.amount doc == 9000
    /\ exists tds, Backend.tdsAmount doc = Some tds /\ tds == 1000.
Proof.
  destruct (Backend.createPayment Host.castObjectId acceptAll invoicesUntouched
              paymentEnv receiptBody legacyDb) as [db' [response|e]] eqn:E;
    [|vm_compute in E; discriminate].
  assert (H201 : Backend.statusCode response = 201%N).
  { vm_compute in E. injection E as _ <-. reflexivity. }
  destruct (CreationFacts.createPayment_tds Host.castObjectId acceptAll invoicesUntouched
              paymentEnv receiptBody legacyDb db' response E H201)
    as (data & doc & Hs & Hp & Hrule & _).
  vm_compute in Hs. injection Hs as <-.
  destruct Hrule as [Hnone _]; [reflexivity | reflexivity |].
  destruct (Hnone eq_refl) as (rate & tds & Hrate & Htds & Hval & Hamt).
  injection Hrate as <-.
  exists db', response, doc. split; [reflexivity|]. split; [exact H201|].
  split; [exact Hp|]. cbn [Validation.amount] in Hval, Hamt.
  assert (Hk : tds == 1000) by (rewrite Hval; reflexivity).
  split; [rewrite Hamt, Hk; reflexivity|]. eauto.
Defined.

Lemma createPaymentSchema_reference_witness :
  Validation.carries (Validation.raw_invoiceId neitherBody) = false
  /\ Validation.carries (Validation.raw_truckHiringNoteId neitherBody) = false
  /\ Validation.createPaymentSchema neitherBody = None.
Proof.
  split; [reflexivity|]. split; [reflexivity|].
  exact (proj1 (ValidationFacts.createPaymentSchema_reference neitherBody)
               eq_refl eq_refl).
Defined.

(** C7 as stated fails: a body naming both an invoice and a note passes the
    schema. *)
Lemma exactlyOneReference_fails : ~ Validation.exactlyOneReference bothBody.
Proof.
  intros H. specialize (H eq_refl). vm_compute in H. discriminate.
Qed.

Lemma updateThnStatus_never_throws_witness :
  (forall oid, Host.castObjectId "no-such-note" = Some oid ->
               Backend.thns legacyDb !! oid = None)
  /\ exists db' logs,
       Backend.updateThnStatus Host.castObjectId "no-such-note" legacyDb
       = (db', Backend.Ok tt)
       /\ Backend.sameRecords db' legacyDb
       /\ Backend.console db' = (Backend.console legacyDb ++ logs)%list.
Proof.
  assert (Hmiss : forall oid, Host.castObjectId "no-such-note" = Some oid ->
                              Backend.thns legacyDb !! oid = None)
    by (intros oid Hc; vm_compute in Hc; discriminate).
  split; [exact Hmiss|].
  exact (proj1 (proj2 (BackendFacts.updateThnStatus_never_throws Host.castObjectId
                         "no-such-note" legacyDb)) Hmiss).
Defined.

Lemma ledger_balance_law_witness :
  let entries := Ledger.clientEntries Host.parseDate "c1" acme [invoiceMar; invoiceJan]
                                      [paymentJan] [] None in
  let transactions :=
    Ledger.cl_transactions
      (Ledger.generateClientLedger Host.parseDate "c1" acme [invoiceMar; invoiceJan]
                                   [paymentJan] [] None) in
  List.map Ledger.c_date transactions = ["2025-01-01"; "2025-01-15"; "2025-03-01"]
  /\ Ledger.BalanceLaw transactions
  /\ Ledger.DateOrder Host.parseDate entries transactions.
Proof.
  cbv zeta. split; [reflexivity|].
  destruct (proj1 (LedgerFacts.ledger_balance_law Host.parseDate Host.isoDate)
              "c1" acme [invoiceMar; invoiceJan] [paymentJan] [] None)
    as (_ & Hb & Ho).
  split; [exact Hb|]. apply Ho.
  - intros invoice [<-|[<-|[]]]; eexists; reflexivity.
  - intros payment [<-|[]]; eexists; reflexivity.
Defined.

Lemma company_tds_receipt_witness :
  Ledger.inPeriod Host.parseDate "2025-01-01" "2025-01-31"
                  (Ledger.Payment.date tdsReceipt) = true
  /\ exists cash tdsLine receivable,
       Ledger.companyPaymentEntries tdsReceipt = [cash; tdsLine; receivable]
       /\ Ledger.debit cash = 9000
       /\ Ledger.credit tdsLine = 1000
       /\ Ledger.credit receivable = 9000 + 1000.
Proof.
  split; [reflexivity|].
  destruct (LedgerFacts.company_tds_receipt Host.parseDate Host.isoDate clock []
              [invoiceJan] [paymentJan] [] [] (Some january) tdsReceipt 1000
              eq_refl eq_refl eq_refl eq_refl eq_refl)
    as (cash & tdsLine & receivable & E & (_ & Hc & _) & (_ & _ & Ht & _)
        & (_ & _ & Hr) & _).
  exists cash, tdsLine, receivable. auto.
Defined.

(** C6 as stated fails: the receipt of 10000 gross at 10 percent gives a
    debit of 9000 and credits of 1000 and 10000. *)
Lemma balancedBooks_fails :
  ~ Ledger.balancedBooks
      (Ledger.transactions
         (Ledger.generateCompanyLedger Host.parseDate Host.isoDate clock []
                                       [] [tdsReceipt] [] (Some january))).
Proof.
  unfold Ledger.balancedBooks. vm_compute. discriminate.
Qed.

Lemma ledger_filters_witness :
  Ledger.startDate january = Ledger.startDate januaryOnwards
  /\ Ledger.generateClientLedger Host.parseDate "c1" acme [invoiceJan; invoiceMar]
                                 [paymentJan] [] (Some january)
     = Ledger.generateClientLedger Host.parseDate "c1" acme [invoiceJan; invoiceMar]
                                   [paymentJan] [] (Some januaryOnwards).
Proof.
  split; [reflexivity|].
  destruct (proj1 (LedgerFacts.ledger_filters Host.parseDate Host.isoDate)
              "c1" acme [invoiceJan; invoiceMar] [paymentJan] [] (Some january))
    as (_ & _ & _ & Hsame).
  exact (Hsame january januaryOnwards eq_refl).
Defined.

(** C9 as stated fails: the client ledger asked for January still lists the
    invoice of March. *)
Lemma withinFilters_fails :
  ~ Ledger.withinFilters Host.parseDate january
      (Ledger.cl_transactions
         (Ledger.generateClientLedger Host.parseDate "c1" acme [invoiceJan; invoiceMar]
                                      [paymentJan] [] (Some january))).
Proof.
  intros H.
  set (tx := Ledger.cl_transactions _) in H.
  assert (Hin : exists e, In e tx /\ Ledger.c_date e = "2025-03-01").
  { vm_compute. eexists. split; [right; right; left; reflexivity | reflexivity]. }
  destruct Hin as (e & Hin & Hd).
  destruct (H e Hin) as [_ Hend]. specialize (Hend "2025-01-31" eq_refl eq_refl).
  cbn [Ledger.lineDate Ledger.ClientLine] in Hend. rewrite Hd in Hend.
  vm_compute in Hend. discriminate.
Qed.

Lemma company_summary_unfiltered_witness :
  Ledger.inPeriod Host.parseDate "2025-01-01" "2025-01-31"
                  (Ledger.Invoice.date invoiceMar) = false
  /\ Ledger.transactions
       (Ledger.generateCompanyLedger Host.parseDate Host.isoDate clock []
          [invoiceJan; invoiceMar] [paymentJan] [hireMar] (Some january))
     = Ledger.transactions
         (Ledger.generateCompanyLedger Host.parseDate Host.isoDate clock []
            [invoiceJan] [paymentJan] [hireMar] (Some january))
  /\ Ledger.totalRevenue
       (Ledger.summary
          (Ledger.generateCompanyLedger Host.parseDate Host.isoDate clock []
             [invoiceJan; invoiceMar] [paymentJan] [hireMar] (Some january)))
     == Ledger.totalRevenue
          (Ledger.summary
             (Ledger.generateCompanyLedger Host.parseDate Host.isoDate clock []
                [invoiceJan] [paymentJan] [hireMar] (Some january)))
        + 4000.
Proof.
  split; [reflexivity|].
  destruct (LedgerFacts.company_summary_unfiltered Host.parseDate Host.isoDate clock []
              [invoiceJan; invoiceMar] [paymentJan] [hireMar] (Some january))
    as (_ & _ & _ & _ & Hinv & _).
  exact (Hinv [invoiceJan] invoiceMar [] eq_refl eq_refl).
Defined.

(** The scenarios of the specification, run on the model. *)

Example thn_scenario :
  let db1 := (Backend.createTruckHiringNote acceptAll acceptAll noteEnv scenarioNote
                emptyDb).1 in
  let db2 := (Backend.createPayment Host.castObjectId acceptAll invoicesUntouched
                paymentEnv scenarioReceipt db1).1 in
  financials db1 = Some (2000, 6500, PARTIALLY_PAID)
  /\ financials db2 = Some (8500, 0, PAID).
Proof. split; vm_compute; reflexivity. Qed.

Example client_ledger_scenario :
  let ledger := Ledger.generateClientLedger Host.parseDate "c1" acme [invoiceJan]
                                            [paymentJan] [] None in
  List.map (fun e => (Qred (Ledger.c_balance e), Ledger.c_balanceType e))
           (Ledger.cl_transactions ledger)
  = [(12000, Ledger.DR); (7000, Ledger.DR)]
  /\ Qred (Ledger.totalDebits (Ledger.cl_summary ledger)) = 12000
  /\ Qred (Ledger.totalCredits (Ledger.cl_summary ledger)) = 5000
  /\ Qred (Ledger.closingBalance (Ledger.cl_summary ledger)) = 7000
  /\ Ledger.closingBalanceType (Ledger.cl_summary ledger) = Ledger.DR.
Proof. repeat split; vm_compute; reflexivity. Qed.

End Instances.

(** ** The recompute as a function of the records *)

Module RecomputeFacts.
Import Backend Recomputed.

Lemma paidOf_spec (oid : ObjectId) (thn : ThnDoc) (ps : list PaymentDoc) :
  paidOf oid thn ps == (if advanceRecorded oid ps
                        then linkedSum oid ps
                        else linkedSum oid ps + storedAdvance thn).
Proof.
  unfold paidOf. rewrite <- BackendFacts.findAdvancePayment_recorded.
  destruct (findAdvancePayment oid ps) as [adv|]; simpl.
  - apply BackendFacts.aggregateTotal_linkedSum.
  - rewrite BackendFacts.aggregateTotal_linkedSum. unfold storedAdvance.
    rewrite orZero_eq. destruct (advanceAmount thn); reflexivity.
Qed.

Section Recompute.

Variable castObjectId : string -> option ObjectId.

(** The store a recompute of an existing note leaves. *)
Lemma updateThnStatus_exact (thnId : string) (oid : ObjectId) (thn : ThnDoc) (db : Db) :
  castObjectId thnId = Some oid ->
  thns db !! oid = Some thn ->
  exists logs : list LogLine,
    updateThnStatus castObjectId thnId db
    = (mkDb (<[oid := noteOf oid thn (payments db)]> (thns db))
            (payments db) (invoices db) (numbering db) (console db ++ logs)%list, Ok tt).
Proof.
  intros Hc Hl.
  unfold updateThnStatus, updateThnStatus_try, findThnById, findThnByIdAndUpdate,
    castId, tryCatch, consoleLog, modify, gets, throw,
    mbind, mret, M_bind, M_ret, bind, ret; simpl.
  rewrite Hc. simpl. rewrite Hl. simpl.
  eexists. unfold addLog, setThns; simpl. rewrite <- !app_assoc.
  f_equal. f_equal.
  apply map_eq. intros o. destruct (decide (o = oid)) as [->|Hne].
  - rewrite lookup_alter_eq, lookup_insert_eq, Hl. reflexivity.
  - rewrite lookup_alter_ne, lookup_insert_ne by done. reflexivity.
Qed.

Lemma noteOf_noteOf (oid : ObjectId) (thn : ThnDoc) (ps qs : list PaymentDoc) :
  noteOf oid (noteOf oid thn qs) ps = noteOf oid thn ps.
Proof. reflexivity. Qed.

(** X1. A second recompute of a note changes no record. *)
Theorem updateThnStatus_idempotent (thnId : string) (db : Db) :
  let db1 := (updateThnStatus castObjectId thnId db).1 in
  sameRecords (updateThnStatus castObjectId thnId db1).1 db1.
Proof.
  cbv zeta.
  destruct (castObjectId thnId) as [oid|] eqn:Hc;
    [destruct (thns db !! oid) as [thn|] eqn:Hl|].
  - destruct (updateThnStatus_exact thnId oid thn db Hc Hl) as (logs & ->). simpl.
    edestruct (updateThnStatus_exact thnId oid) as (logs' & ->); [exact Hc | |].
    { simpl. apply lookup_insert_eq. }
    unfold sameRecords; simpl. rewrite noteOf_noteOf, insert_insert_eq. auto.
  - destruct (BackendFacts.updateThnStatus_missing castObjectId thnId db) as (logs & ->).
    { intros o Ho. congruence. }
    simpl.
    edestruct (BackendFacts.updateThnStatus_missing castObjectId thnId) as (logs' & ->).
    { intros o Ho. simpl. congruence. }
    unfold sameRecords; simpl. auto.
  - destruct (BackendFacts.updateThnStatus_missing castObjectId thnId db) as (logs & ->).
    { intros o Ho. congruence. }
    simpl.
    edestruct (BackendFacts.updateThnStatus_missing castObjectId thnId) as (logs' & ->).
    { intros o Ho. simpl. congruence. }
    unfold sameRecords; simpl. auto.
Qed.

End Recompute.
End RecomputeFacts.

(** ** What a payment request leaves behind *)

Module PaymentFacts.
Import Backend Recomputed RecomputeFacts.

(** What the schema guarantees to the code behind it. *)
Lemma createPaymentSchema_sound (r : Validation.RawPayment) (data : Validation.PaymentData) :
  Validation.createPaymentSchema r = Some data ->
  0 < Validation.amount data
  /\ (forall rate, Validation.tdsRate data = Some rate -> 0 <= rate /\ rate <= 100)
  /\ (forall tds, Validation.tdsAmount data = Some tds -> 0 <= tds)
  /\ (Validation.tdsApplicable data = Some true ->
      Validation.type data = RECEIPT /\ is_Some (Validation.tdsRate data))
  /\ (truthyStr (Validation.invoiceId data) = true ->
      exists c, Validation.customer data = Some c /\ isBlank c = false).
Proof.
  unfold Validation.createPaymentSchema. intros H.
  apply bind_Some in H as (d & Hobj & H).
  destruct (Validation.refineReference d && Validation.refineCustomer d
            && Validation.refineTdsReceipt d && Validation.refineTdsRate d) eqn:Eref;
    [|discriminate].
  injection H as <-.
  apply andb_true_iff in Eref as [Eref Erate].
  apply andb_true_iff in Eref as [Eref Ereceipt].
  apply andb_true_iff in Eref as [_ Ecust].
  unfold Validation.paymentObject in Hobj.
  repeat (apply bind_Some in Hobj as (? & ? & Hobj)).
  injection Hobj as <-. simpl in *.
  repeat split.
  - match goal with
    | H : Validation.z_number_positive _ = Some _ |- _ =>
        unfold Validation.z_number_positive in H;
        destruct (Validation.raw_amount r); try discriminate;
        destruct (gtb0 q) eqn:E; [|discriminate]; injection H as <-;
        now apply gtb0_true
    end.
  - match goal with
    | H : Validation.z_number_0_100_optional _ = Some _ |- _ =>
        unfold Validation.z_number_0_100_optional in H;
        destruct (Validation.raw_tdsRate r); try discriminate; simplify_eq;
        destruct (Qle_bool 0 q && Qle_bool q 100) eqn:E; [|discriminate];
        apply andb_true_iff in E as [E _]; simplify_eq; now apply Qle_bool_iff
    end.
  - match goal with
    | H : Validation.z_number_0_100_optional _ = Some _ |- _ =>
        unfold Validation.z_number_0_100_optional in H;
        destruct (Validation.raw_tdsRate r); try discriminate; simplify_eq;
        destruct (Qle_bool 0 q && Qle_bool q 100) eqn:E; [|discriminate];
        apply andb_true_iff in E as [_ E]; simplify_eq; now apply Qle_bool_iff
    end.
  - intros tds ->.
    match goal with
    | H : Validation.z_number_nonnegative_optional _ = Some _ |- _ =>
        unfold Validation.z_number_nonnegative_optional in H;
        destruct (Validation.raw_tdsAmount r); try discriminate;
        destruct (Qle_bool 0 q) eqn:E; [|discriminate]; simplify_eq;
        now apply Qle_bool_iff
    end.
  - unfold Validation.refineTdsReceipt in Ereceipt; simpl in Ereceipt.
    subst. unfold isReceipt in Ereceipt. now apply bool_decide_eq_true in Ereceipt.
  - unfold Validation.refineTdsRate in Erate; simpl in Erate. subst.
    match goal with |- is_Some ?x => destruct x; [eauto | discriminate] end.
  - intros Hinv. unfold Validation.refineCustomer in Ecust; simpl in Ecust.
    rewrite Hinv in Ecust.
    match type of Ecust with
    | match ?x with _ => _ end = true => destruct x as [c|]; [|discriminate]
    end.
    exists c. split; [reflexivity|].
    apply andb_true_iff in Ecust as [_ Ecust]. now apply negb_true_iff in Ecust.
Qed.


(** X2. A body the schema accepts always gets through the TDS block of
    [createPayment]: its answer 400 for a missing rate is never given. The
    amount to store is the request's amount when a [tdsAmount] came with
    it, and otherwise lies between 0 and the request's amount. *)
Theorem handleTds_after_schema (r : Validation.RawPayment) (data : Validation.PaymentData) :
  Validation.createPaymentSchema r = Some data ->
  exists finalAmount tdsAmount tdsRate tdsDate,
    handleTds data = inr (finalAmount, tdsAmount, tdsRate, tdsDate)
    /\ (Validation.tdsAmount data = None ->
        0 <= finalAmount /\ finalAmount <= Validation.amount data)
    /\ (is_Some (Validation.tdsAmount data) -> finalAmount = Validation.amount data).
Proof.
  intros Hs.
  destruct (createPaymentSchema_sound r data Hs) as (Hpos & Hrate & _ & Happ & _).
  unfold handleTds.
  destruct (bool_decide (Validation.tdsApplicable data = Some true)) eqn:Ea; simpl.
  - apply bool_decide_eq_true in Ea. destruct (Happ Ea) as [Hty [rate Hr]].
    rewrite Hty. simpl. rewrite Hr.
    destruct (Hrate rate Hr) as [H0 H100].
    eexists _, _, _, _. split; [reflexivity|]. split.
    + intros ->. split.
      * assert (Validation.amount data * (rate / 100) <= Validation.amount data * 1).
        { apply Qmult_le_l; [exact Hpos|]. apply Qle_shift_div_r; lra. }
        lra.
      * assert (0 <= Validation.amount data * (rate / 100)).
        { apply Qmult_le_0_compat; [lra|]. apply Qle_shift_div_l; lra. }
        lra.
    + intros [t ->]. reflexivity.
  - eexists _, _, _, _. split; [reflexivity|]. split.
    + intros _. lra.
    + intros _. reflexivity.
Qed.

Section Requests.

Variable castObjectId : string -> option ObjectId.
Variable paymentModelAccepts : PaymentDoc -> bool.
Variable updateInvoiceStatus : string -> Db -> option (gmap ObjectId InvoiceDoc).

Lemma neverZod_bind {A B} (m : M A) (k : A -> M B) :
  neverZod m -> (forall a, neverZod (k a)) -> neverZod (m ≫= k).
Proof.
  intros Hm Hk db db' e. unfold mbind, M_bind, bind.
  destruct (m db) as [db1 [a|e1]] eqn:E.
  - apply Hk.
  - intros [= <- <-]. exact (Hm _ _ _ E).
Qed.

Lemma neverZod_ret {A} (a : A) : neverZod (mret a).
Proof. intros db db' e. discriminate. Qed.

Lemma neverZod_gets {A} (f : Db -> A) : neverZod (gets f).
Proof. intros db db' e. discriminate. Qed.

Lemma neverZod_modify (f : Db -> Db) : neverZod (modify f).
Proof. intros db db' e. discriminate. Qed.

Lemma neverZod_castId (s : string) : neverZod (castId castObjectId s).
Proof.
  intros db db' e. unfold castId. destruct (castObjectId s); [discriminate|].
  intros [= <- <-]. discriminate.
Qed.

Lemma neverZod_castRef (s : option string) : neverZod (castRef castObjectId s).
Proof.
  destruct s as [id|]; simpl; [|apply neverZod_ret].
  apply neverZod_bind; [apply neverZod_castId | intros; apply neverZod_ret].
Qed.

Lemma neverZod_nextNumber (type : string) (fallback : N) : neverZod (nextNumber type fallback).
Proof.
  apply neverZod_bind; [apply neverZod_gets|]. intros [n|]; [|apply neverZod_ret].
  apply neverZod_bind; [apply neverZod_modify | intros; apply neverZod_ret].
Qed.

Lemma neverZod_savePayment (p : PaymentDoc) : neverZod (savePayment paymentModelAccepts p).
Proof.
  unfold savePayment. destruct (paymentModelAccepts p).
  - apply neverZod_bind; [apply neverZod_modify | intros; apply neverZod_ret].
  - intros db db' e [= <- <-]. discriminate.
Qed.

Lemma neverZod_updateThnStatus (id : string) : neverZod (updateThnStatus castObjectId id).
Proof.
  intros db db' e.
  destruct (BackendFacts.updateThnStatus_step castObjectId id db) as (db1 & -> & _).
  discriminate.
Qed.

Lemma neverZod_link (data : Validation.PaymentData) (newPayment : PaymentDoc) :
  neverZod
    (match Validation.invoiceId data, Validation.truckHiringNoteId data with
     | Some (String c i), _ =>
         findInvoiceByIdAndUpdate castObjectId (String c i)
           (pushInvoicePayment (_id newPayment));;
         runUpdateInvoiceStatus updateInvoiceStatus (String c i)
     | _, Some (String c t) =>
         findThnByIdAndUpdate castObjectId (String c t) (pushThnPayment (_id newPayment));;
         updateThnStatus castObjectId (String c t)
     | _, _ => mret tt
     end).
Proof.
  assert (Hinv : forall id,
            neverZod (findInvoiceByIdAndUpdate castObjectId id
                        (pushInvoicePayment (_id newPayment));;
                      runUpdateInvoiceStatus updateInvoiceStatus id)).
  { intros id. apply neverZod_bind.
    - apply neverZod_bind; [apply neverZod_castId | intros; apply neverZod_modify].
    - intros _ db db' e. unfold runUpdateInvoiceStatus.
      destruct (updateInvoiceStatus id db); [discriminate|]. intros [= <- <-]. discriminate. }
  assert (Hthn : forall id,
            neverZod (findThnByIdAndUpdate castObjectId id (pushThnPayment (_id newPayment));;
                      updateThnStatus castObjectId id)).
  { intros id. apply neverZod_bind.
    - apply neverZod_bind; [apply neverZod_castId | intros; apply neverZod_modify].
    - intros _. apply neverZod_updateThnStatus. }
  destruct (Validation.invoiceId data) as [[|c i]|];
    destruct (Validation.truckHiringNoteId data) as [[|c' t]|];
    first [apply Hinv | apply Hthn | apply neverZod_ret].
Qed.

(** X3. A payment request answered with 400 has left every record as it
    was: no number drawn, no document written. *)
Theorem createPayment_rejected (env : PaymentEnv) (reqBody : Validation.RawPayment)
    (db db' : Db) (response : Response) :
  createPayment castObjectId paymentModelAccepts updateInvoiceStatus env reqBody db
  = (db', Ok response) ->
  statusCode response = 400%N ->
  sameRecords db' db.
Proof.
  unfold createPayment, tryCatch. intros Hrun H400.
  cut (db' = db); [intros ->; repeat split|].
  destruct (Validation.createPaymentSchema reqBody) as [data|];
    [|cbn in Hrun; injection Hrun as <- <-; reflexivity].
  match type of Hrun with
  | context [if ?c then _ else _] => destruct c
  end; [cbn in Hrun; injection Hrun as <- <-; reflexivity|].
  destruct (handleTds data) as [r|[[[fin tA] tR] tD]] eqn:Eh;
    [cbn in Hrun; injection Hrun as <- <-; reflexivity|].
  match type of Hrun with
  | context [match ?body db with _ => _ end] =>
      destruct (body db) as [db1 [resp|e]] eqn:Ebody
  end.
  - injection Hrun as -> ->. exfalso.
    repeat (apply CreationFacts.bind_inv in Ebody as (? & ? & _ & Ebody)).
    injection Ebody as _ <-. discriminate.
  - assert (He : e <> ZodError).
    { revert Ebody. generalize db1 e. generalize db.
      repeat (apply neverZod_bind;
              [first [ apply neverZod_nextNumber | apply neverZod_castRef
                     | apply neverZod_savePayment | apply neverZod_link
                     | apply neverZod_gets ]
              | intros ? ]).
      apply neverZod_ret. }
    destruct e; cbn in Hrun; injection Hrun as <- <-; try discriminate.
    congruence.
Qed.
Lemma nextNumber_frame (type : string) (fallback : N) (db db' : Db) (r : result N) :
  nextNumber type fallback db = (db', r) ->
  thns db' = thns db /\ payments db' = payments db /\ invoices db' = invoices db.
Proof.
  unfold nextNumber, gets, modify, mbind, mret, M_bind, M_ret, bind, ret.
  destruct (numbering db !! type); intros [= <- <-]; auto.
Qed.

Lemma castRef_inv (s : option string) (db db' : Db) (o : option ObjectId) :
  castRef castObjectId s db = (db', Ok o) ->
  db' = db /\ o = s ≫= castObjectId /\ (is_Some s -> is_Some o).
Proof.
  unfold castRef, castId, throw, mbind, mret, M_bind, M_ret, bind, ret.
  destruct s as [id|]; simpl; [destruct (castObjectId id)|]; intros [= <- <-];
    repeat split; eauto.
  intros [? [=]].
Qed.

(** What a request answered with 201 has done up to the linking step. *)
Lemma createPayment_created
    (env : PaymentEnv) (reqBody : Validation.RawPayment) (db db' : Db)
    (response : Response) :
  createPayment castObjectId paymentModelAccepts updateInvoiceStatus env reqBody db
  = (db', Ok response) ->
  statusCode response = 201%N ->
  exists data doc db1,
    Validation.createPaymentSchema reqBody = Some data
    /\ thns db1 = thns db /\ invoices db1 = invoices db
    /\ payments db1 = (payments db ++ [doc])%list
    /\ _id doc = newPaymentId env
    /\ invoiceId doc = Validation.invoiceId data ≫= castObjectId
    /\ truckHiringNoteId doc = Validation.truckHiringNoteId data ≫= castObjectId
    /\ (is_Some (Validation.truckHiringNoteId data) -> is_Some (truckHiringNoteId doc))
    /\ (is_Some (Validation.invoiceId data) -> is_Some (invoiceId doc))
    /\ match Validation.invoiceId data, Validation.truckHiringNoteId data with
       | Some (String c i), _ =>
           findInvoiceByIdAndUpdate castObjectId (String c i)
             (pushInvoicePayment (_id doc));;
           runUpdateInvoiceStatus updateInvoiceStatus (String c i)
       | _, Some (String c t) =>
           findThnByIdAndUpdate castObjectId (String c t) (pushThnPayment (_id doc));;
           updateThnStatus castObjectId (String c t)
       | _, _ => mret tt
       end db1 = (db', Ok tt).
Proof.
  unfold createPayment, tryCatch. intros Hrun H201.
  destruct (Validation.createPaymentSchema reqBody) as [data|];
    [|cbn in Hrun; injection Hrun as <- <-; discriminate].
  match type of Hrun with
  | context [if ?c then _ else _] => destruct c
  end; [cbn in Hrun; injection Hrun as <- <-; discriminate|].
  destruct (handleTds data) as [r|[[[fin tA] tR] tD]] eqn:Eh.
  { apply CreationFacts.handleTds_rejects in Eh. cbn in Hrun. injection Hrun as <- <-.
    rewrite Eh in H201. discriminate. }
  match type of Hrun with
  | context [match ?body db with _ => _ end] =>
      destruct (body db) as [db1 [resp|e]] eqn:Ebody
  end; [|destruct e; cbn in Hrun; injection Hrun as <- <-; discriminate].
  injection Hrun as -> ->.
  apply CreationFacts.bind_inv in Ebody as (n & d1 & En & Ebody).
  apply CreationFacts.bind_inv in Ebody as (iref & d2 & Ei & Ebody).
  apply CreationFacts.bind_inv in Ebody as (tref & d3 & Et & Ebody).
  apply CreationFacts.bind_inv in Ebody as (cref & d4 & Ec & Ebody).
  apply CreationFacts.bind_inv in Ebody as (saved & d5 & Es & Ebody).
  apply CreationFacts.bind_inv in Ebody as ([] & d6 & El & Ebody).
  apply CreationFacts.bind_inv in Ebody as (pop & d7 & Eg & Ebody).
  apply nextNumber_frame in En as (Ht1 & Hp1 & Hi1).
  apply castRef_inv in Ei as (-> & -> & HiS), Et as (-> & -> & HtS), Ec as (-> & _ & _).
  injection Eg as <- _. injection Ebody as <- _.
  unfold savePayment, modify, throw, mbind, mret, M_bind, M_ret, bind, ret in Es.
  destruct (paymentModelAccepts _); [|discriminate].
  injection Es as <- <-.
  match type of El with ?f ?d = _ => exists data; eexists; exists d end.
  split; [reflexivity|].
  split; [simpl; exact Ht1|]. split; [simpl; exact Hi1|].
  split; [simpl; rewrite Hp1; reflexivity|].
  split; [reflexivity|]. split; [reflexivity|]. split; [reflexivity|].
  split; [exact HtS|]. split; [exact HiS|]. exact El.
Qed.

(** X4. A request that names an invoice, with or without a note beside
    it, never touches a note: the payment is stored with its link to the
    note, the note keeps the paid amount, balance and status it had. *)
Theorem createPayment_invoice_first
    (env : PaymentEnv) (reqBody : Validation.RawPayment) (data : Validation.PaymentData)
    (db db' : Db) (response : Response) :
  createPayment castObjectId paymentModelAccepts updateInvoiceStatus env reqBody db
  = (db', Ok response) ->
  statusCode response = 201%N ->
  Validation.createPaymentSchema reqBody = Some data ->
  truthyStr (Validation.invoiceId data) = true ->
  thns db' = thns db
  /\ exists doc,
       payments db' = (payments db ++ [doc])%list
       /\ truckHiringNoteId doc = Validation.truckHiringNoteId data ≫= castObjectId
       /\ (is_Some (Validation.truckHiringNoteId data) -> is_Some (truckHiringNoteId doc)).
Proof.
  intros Hrun H201 Hs Hinv.
  destruct (createPayment_created env reqBody db db' response Hrun H201)
    as (data' & doc & db1 & Hs' & Ht & Hi & Hp & Hid & Hdi & Hdt & HtS & HiS & El).
  rewrite Hs in Hs'. injection Hs' as <-.
  destruct (Validation.invoiceId data) as [[|c i]|]; try discriminate.
  apply CreationFacts.bind_inv in El as ([] & d & E1 & E2).
  assert (thns d = thns db1 /\ payments d = payments db1) as [Ht1 Hp1].
  { revert E1. unfold findInvoiceByIdAndUpdate, castId, modify, throw,
      mbind, mret, M_bind, M_ret, bind, ret.
    destruct (castObjectId (String c i)); intros [= <-]; auto. }
  assert (thns db' = thns d /\ payments db' = payments d) as [Ht2 Hp2].
  { revert E2. unfold runUpdateInvoiceStatus.
    destruct (updateInvoiceStatus (String c i) d); intros [= <-]; auto. }
  split; [congruence|]. exists doc. split; [congruence|]. auto.
Qed.

(** The store after a request that names a note and no invoice. *)
Lemma createPayment_note_store
    (env : PaymentEnv) (reqBody : Validation.RawPayment) (data : Validation.PaymentData)
    (db db' : Db) (response : Response) (thnId : string) (oid : ObjectId) (thn : ThnDoc) :
  createPayment castObjectId paymentModelAccepts updateInvoiceStatus env reqBody db
  = (db', Ok response) ->
  statusCode response = 201%N ->
  Validation.createPaymentSchema reqBody = Some data ->
  truthyStr (Validation.invoiceId data) = false ->
  Validation.truckHiringNoteId data = Some thnId ->
  thnId <> "" ->
  castObjectId thnId = Some oid ->
  thns db !! oid = Some thn ->
  exists doc,
    payments db' = (payments db ++ [doc])%list
    /\ _id doc = newPaymentId env
    /\ truckHiringNoteId doc = Some oid
    /\ invoiceId doc = Validation.invoiceId data ≫= castObjectId
    /\ invoices db' = invoices db
    /\ thns db'
       = <[oid := noteOf oid (pushThnPayment (newPaymentId env) thn) (payments db')]>
           (thns db).
Proof.
  intros Hrun H201 Hs Hinv Hthn Hne Hc Hl.
  destruct (createPayment_created env reqBody db db' response Hrun H201)
    as (data' & doc & db1 & Hs' & Ht & Hi & Hp & Hid & Hdi & Hdt & HtS & HiS & El).
  rewrite Hs in Hs'. injection Hs' as <-.
  rewrite Hthn in El, Hdt. simpl in Hdt. rewrite Hc in Hdt.
  assert (El' : (findThnByIdAndUpdate castObjectId thnId (pushThnPayment (_id doc));;
                 updateThnStatus castObjectId thnId) db1 = (db', Ok tt)).
  { destruct thnId as [|c t]; [congruence|].
    destruct (Validation.invoiceId data) as [[|c' i]|]; try discriminate; exact El. }
  clear El. apply CreationFacts.bind_inv in El' as ([] & d & E1 & E2).
  unfold findThnByIdAndUpdate, castId, modify, mbind, mret, M_bind, M_ret, bind, ret in E1.
  rewrite Hc in E1. injection E1 as <-.
  edestruct (RecomputeFacts.updateThnStatus_exact castObjectId thnId oid) as (logs & E);
    [exact Hc | | rewrite E in E2].
  { simpl. rewrite lookup_alter_eq, Ht, Hl. reflexivity. }
  injection E2 as <-. simpl.
  exists doc. split; [exact Hp|]. split; [exact Hid|]. split; [exact Hdt|].
  split; [exact Hdi|]. split; [exact Hi|].
  rewrite Ht, Hid. apply map_eq. intros o. destruct (decide (o = oid)) as [->|Hno].
  - rewrite !lookup_insert_eq. reflexivity.
  - rewrite !lookup_insert_ne, lookup_alter_ne by done. reflexivity.
Qed.

(** X5. A request that names a note and no invoice, answered with 201,
    has appended one payment linked to the note, put its id on the note's
    list and left the note reconciled over the payments now in store; the
    other notes are as they were. *)
Theorem createPayment_note_recomputed
    (env : PaymentEnv) (reqBody : Validation.RawPayment) (data : Validation.PaymentData)
    (db db' : Db) (response : Response) (thnId : string) (oid : ObjectId) (thn : ThnDoc) :
  createPayment castObjectId paymentModelAccepts updateInvoiceStatus env reqBody db
  = (db', Ok response) ->
  statusCode response = 201%N ->
  Validation.createPaymentSchema reqBody = Some data ->
  truthyStr (Validation.invoiceId data) = false ->
  Validation.truckHiringNoteId data = Some thnId ->
  thnId <> "" ->
  castObjectId thnId = Some oid ->
  thns db !! oid = Some thn ->
  exists doc thn',
    payments db' = (payments db ++ [doc])%list
    /\ _id doc = newPaymentId env
    /\ truckHiringNoteId doc = Some oid
    /\ thns db' = <[oid := thn']> (thns db)
    /\ thnPayments thn' = (thnPayments thn ++ [newPaymentId env])%list
    /\ Reconciled thn'
    /\ paidAmount thn' == (if advanceRecorded oid (payments db')
                           then linkedSum oid (payments db')
                           else linkedSum oid (payments db') + storedAdvance thn).
Proof.
  intros Hrun H201 Hs Hinv Hthn Hne Hc Hl.
  destruct (createPayment_note_store env reqBody data db db' response thnId oid thn
              Hrun H201 Hs Hinv Hthn Hne Hc Hl)
    as (doc & Hp & Hid & Hdt & _ & _ & Ht).
  eexists doc, _. split; [exact Hp|]. split; [exact Hid|]. split; [exact Hdt|].
  split; [exact Ht|]. split; [reflexivity|].
  split; [apply BackendFacts.reconciled_setFinancials|].
  apply (paidOf_spec oid (pushThnPayment (newPaymentId env) thn)).
Qed.
End Requests.

End PaymentFacts.

(** ** A new note and the recompute *)

Module NoteFacts.
Import Backend Recomputed RecomputeFacts.

Lemma thnStatusOf_compat (b b' p p' : Q) :
  b == b' -> p == p' -> thnStatusOf b p = thnStatusOf b' p'.
Proof.
  intros Hb Hp. unfold thnStatusOf, leb0, gtb0. now rewrite Hb, Hp.
Qed.

Lemma max0_compat (x y : Q) : x == y -> max0 x == max0 y.
Proof. intros H. unfold max0. now rewrite H. Qed.

Lemma advanceRecorded_unlinked (oid : ObjectId) (ps : list PaymentDoc) :
  Forall (fun p => truckHiringNoteId p <> Some oid) ps ->
  advanceRecorded oid ps = false.
Proof.
  induction 1 as [|p ps Hp _ IH]; simpl; [reflexivity|].
  unfold linkedTo at 1. rewrite bool_decide_eq_false_2 by assumption. exact IH.
Qed.

Lemma linkedSum_unlinked (oid : ObjectId) (ps : list PaymentDoc) :
  Forall (fun p => truckHiringNoteId p <> Some oid) ps ->
  linkedSum oid ps = 0.
Proof.
  intros H. unfold linkedSum. now rewrite (CreationFacts.filter_unlinked _ _ H).
Qed.

Lemma reconciled_new (n : N) (d m : string) (f c paid : Q) (a : option Q)
    (l : list ObjectId) :
  Reconciled (mkThnDoc n d m f (Some c) a (max0 (f + c - paid)) paid
                       (thnStatusOf (max0 (f + c - paid)) paid) l).
Proof.
  unfold Reconciled; simpl.
  split; [reflexivity|]. split; [apply max0_nonneg | apply BackendFacts.thnStatusOf_spec].
Qed.

Section Creation.

Variable castObjectId : string -> option ObjectId.
Variable paymentModelAccepts : PaymentDoc -> bool.
Variable thnModelAccepts : ThnDoc -> bool.

(** X6. Whatever the advance, and whether or not its payment record could
    be written, a note the model accepts is stored reconciled with the
    advance as its paid amount, and the recompute that follows arrives at
    the same paid amount, balance and status. The payments in store grow
    by at most the advance payment. *)
Theorem createTruckHiringNote_settled (env : NoteEnv) (noteData : NoteData) (db : Db) :
  (forall note, thnModelAccepts note = true) ->
  Forall (fun p => truckHiringNoteId p <> Some (newNoteId env)) (payments db) ->
  exists (db1 : Db) (response : Response) (note : ThnDoc),
    createTruckHiringNote paymentModelAccepts thnModelAccepts env noteData db
    = (db1, Ok response)
    /\ statusCode response = 201%N
    /\ thns db1 !! newNoteId env = Some note
    /\ Reconciled note
    /\ paidAmount note == orZero (nd_advanceAmount noteData)
    /\ (payments db1 = payments db
        \/ exists adv, payments db1 = (payments db ++ [adv])%list
                       /\ truckHiringNoteId adv = Some (newNoteId env)
                       /\ type adv = ADVANCE
                       /\ amount adv = orZero (nd_advanceAmount noteData)
                       /\ 0 < amount adv)
    /\ forall thnId, castObjectId thnId = Some (newNoteId env) ->
         exists (db2 : Db) (note' : ThnDoc),
           updateThnStatus castObjectId thnId db1 = (db2, Ok tt)
           /\ thns db2 !! newNoteId env = Some note'
           /\ paidAmount note' == paidAmount note
           /\ balanceAmount note' == balanceAmount note
           /\ status note' = status note.
Proof.
  intros Ht Hfresh.
  set (advance := orZero (nd_advanceAmount noteData)).
  set (charges := orZero (nd_additionalCharges noteData)).
  assert (Hch : orZero (Some charges) == charges).
  { rewrite orZero_eq. reflexivity. }
  assert (Hadv : orZero (Some advance) == advance).
  { rewrite orZero_eq. reflexivity. }
  (* the recompute on a store that holds the new note *)
  assert (Hre : forall (db1 : Db) (note : ThnDoc) (paid : Q),
    thns db1 !! newNoteId env = Some note ->
    freightRate note = nd_freightRate noteData ->
    additionalCharges note = Some charges ->
    paidAmount note = advance ->
    balanceAmount note = max0 (nd_freightRate noteData + charges - advance) ->
    status note = thnStatusOf (max0 (nd_freightRate noteData + charges - advance)) advance ->
    paidOf (newNoteId env) note (payments db1) == advance ->
    forall thnId, castObjectId thnId = Some (newNoteId env) ->
      exists (db2 : Db) (note' : ThnDoc),
        updateThnStatus castObjectId thnId db1 = (db2, Ok tt)
        /\ thns db2 !! newNoteId env = Some note'
        /\ paidAmount note' == paidAmount note
        /\ balanceAmount note' == balanceAmount note
        /\ status note' = status note).
  { intros db1 note paid Hl Hf Ha Hp Hb Hs Hpaid thnId Hc.
    destruct (updateThnStatus_exact castObjectId thnId _ note db1 Hc Hl) as (logs & E).
    eexists _, _. split; [exact E|]. simpl. rewrite lookup_insert_eq.
    split; [reflexivity|]. simpl. rewrite Hp, Hb, Hs, Hf, Ha.
    assert (Hbal : max0 (nd_freightRate noteData + orZero (Some charges)
                         - paidOf (newNoteId env) note (payments db1))
                   == max0 (nd_freightRate noteData + charges - advance)).
    { apply max0_compat. rewrite Hch, Hpaid. reflexivity. }
    split; [exact Hpaid|]. split; [exact Hbal|].
    apply thnStatusOf_compat; assumption. }
  unfold createTruckHiringNote, nextNumber, saveThn, savePayment,
    tryCatch, consoleLog, modify, gets, throw,
    mbind, mret, M_bind, M_ret, bind, ret.
  fold advance charges.
  destruct (numbering db !! "truckHiringNoteId") as [n|] eqn:En; simpl;
    rewrite Ht; simpl.
  all: destruct (gtb0 advance) eqn:Hpos; simpl.
  all: try (destruct (_ !! "paymentId") as [m|] eqn:Em; simpl).
  all: try match goal with
           | |- context [paymentModelAccepts ?p] =>
               destruct (paymentModelAccepts p) eqn:Hp; simpl
           end.
  all: rewrite ?lookup_alter_eq, ?lookup_insert_eq; simpl.
  all: eexists _, _, _; split; [reflexivity|]; simpl.
  all: split; [reflexivity|].
  all: rewrite ?lookup_alter_eq, ?lookup_insert_eq; simpl.
  all: split; [reflexivity|].
  all: split; [apply reconciled_new|].
  all: split; [reflexivity|].
  all: split;
    [ first [ left; reflexivity
            | right; eexists; split; [reflexivity|]; simpl;
              split; [reflexivity|]; split; [reflexivity|]; split; [reflexivity|];
              now apply gtb0_true ] |].
  all: eapply (Hre _ _ advance);
    [ simpl; rewrite ?lookup_alter_eq, ?lookup_insert_eq; reflexivity
    | reflexivity | reflexivity | reflexivity | reflexivity | reflexivity | ].
  all: rewrite paidOf_spec; simpl.
  all: first
    [ rewrite CreationFacts.paid_with_sole_advance by (assumption || reflexivity);
      reflexivity
    | rewrite (advanceRecorded_unlinked _ _ Hfresh), (linkedSum_unlinked _ _ Hfresh);
      unfold storedAdvance; simpl; ring ].
Qed.


(** The store after the creation of a note with an advance, on models
    that accept the documents. *)
Lemma createTruckHiringNote_store (env : NoteEnv) (noteData : NoteData) (db : Db) :
  0 < orZero (nd_advanceAmount noteData) ->
  (forall note, thnModelAccepts note = true) ->
  (forall payment, paymentModelAccepts payment = true) ->
  exists (db1 : Db) (response : Response) (note : ThnDoc) (adv : PaymentDoc),
    createTruckHiringNote paymentModelAccepts thnModelAccepts env noteData db
    = (db1, Ok response)
    /\ thns db1 !! newNoteId env = Some note
    /\ (forall o, o <> newNoteId env -> thns db1 !! o = thns db !! o)
    /\ payments db1 = (payments db ++ [adv])%list
    /\ Backend.advanceAmount note = Some (orZero (nd_advanceAmount noteData))
    /\ thnDate note = nd_date noteData
    /\ thnPayments note = [newAdvancePaymentId env]
    /\ _id adv = newAdvancePaymentId env
    /\ truckHiringNoteId adv = Some (newNoteId env)
    /\ type adv = ADVANCE
    /\ amount adv = orZero (nd_advanceAmount noteData)
    /\ referenceNo adv = Some (advanceReference (thnNumber note)).
Proof.
  intros Hpos Ht Hp. apply gtb0_true in Hpos.
  unfold createTruckHiringNote, nextNumber, saveThn, savePayment,
    tryCatch, consoleLog, modify, gets, throw,
    mbind, mret, M_bind, M_ret, bind, ret.
  destruct (numbering db !! "truckHiringNoteId") as [n|] eqn:En; simpl;
    rewrite Ht; simpl; rewrite Hpos; simpl.
  all: destruct (_ !! "paymentId") as [m|] eqn:Em; simpl; rewrite Hp; simpl.
  all: rewrite ?lookup_alter_eq, ?lookup_insert_eq; simpl.
  all: eexists _, _, _, _; split; [reflexivity|]; simpl.
  all: rewrite ?lookup_alter_eq, ?lookup_insert_eq; simpl.
  all: split; [reflexivity|].
  all: split; [intros o Ho; rewrite lookup_alter_ne, lookup_insert_ne by done;
               reflexivity|].
  all: repeat split; reflexivity.
Qed.

(** X7. A note the model refuses is answered with 400: no note and no
    payment is stored, but the note number drawn for it is used up. *)
Theorem createTruckHiringNote_rejected
    (env : NoteEnv) (noteData : NoteData) (db db' : Db) (response : Response) :
  createTruckHiringNote paymentModelAccepts thnModelAccepts env noteData db
  = (db', Ok response) ->
  statusCode response <> 201%N ->
  response = mkResponse 400 (BodyMessage "Validation failed")
  /\ thns db' = thns db
  /\ payments db' = payments db
  /\ invoices db' = invoices db
  /\ forall n, numbering db !! "truckHiringNoteId" = Some n ->
               numbering db' = <["truckHiringNoteId" := (n + 1)%N]> (numbering db).
Proof.
  unfold createTruckHiringNote, nextNumber, saveThn, savePayment,
    tryCatch, consoleLog, modify, gets, throw,
    mbind, mret, M_bind, M_ret, bind, ret.
  intros Hrun Hno.
  destruct (numbering db !! "truckHiringNoteId") as [n|] eqn:En; simpl in Hrun.
  all: match type of Hrun with
       | context [thnModelAccepts ?note] => destruct (thnModelAccepts note); simpl in Hrun
       end.
  all: try (destruct (gtb0 _); simpl in Hrun).
  all: try (destruct (_ !! "paymentId") as [m|]; simpl in Hrun).
  all: try match type of Hrun with
           | context [paymentModelAccepts ?p] =>
               destruct (paymentModelAccepts p); simpl in Hrun
           end.
  all: injection Hrun as <- <-; simpl in *; try congruence.
  - repeat split; try reflexivity. intros ? [= <-]. reflexivity.
  - repeat split; try reflexivity. discriminate.
Qed.

End Creation.
End NoteFacts.

(** ** Deleting and reading *)

Module HandlerFacts.
Import Backend Recomputed RecomputeFacts Handlers.

Lemma find_hasId (pid : ObjectId) (ps : list PaymentDoc) (p : PaymentDoc) :
  List.find (hasId pid) ps = Some p -> In p ps /\ _id p = pid.
Proof.
  intros H. apply List.find_some in H as [Hin Hid]. split; [exact Hin|].
  unfold hasId in Hid. now apply bool_decide_eq_true in Hid.
Qed.

Lemma removeById_In (pid : ObjectId) (ps : list PaymentDoc) (q : PaymentDoc) :
  In q (removeById pid ps) -> In q ps.
Proof.
  induction ps as [|p ps IH]; simpl; [tauto|].
  destruct (hasId pid p); simpl; tauto.
Qed.

Lemma removeById_unique (pid : ObjectId) (ps : list PaymentDoc) :
  List.NoDup (List.map _id ps) ->
  Forall (fun q => _id q <> pid) (removeById pid ps).
Proof.
  induction ps as [|p ps IH]; simpl; intros Hnd; [constructor|].
  apply List.NoDup_cons_iff in Hnd as [Hnotin Hnd].
  unfold hasId at 1. destruct (bool_decide (_id p = pid)) eqn:E.
  - apply bool_decide_eq_true in E. subst pid.
    apply List.Forall_forall. intros q Hq Heq. apply Hnotin.
    rewrite <- Heq. now apply List.in_map.
  - apply bool_decide_eq_false in E. constructor; [exact E | exact (IH Hnd)].
Qed.

Lemma linkedSum_removeById (oid pid : ObjectId) (ps : list PaymentDoc) (p : PaymentDoc) :
  List.find (hasId pid) ps = Some p ->
  linkedSum oid ps
  == linkedSum oid (removeById pid ps) + (if linkedTo oid p then amount p else 0).
Proof.
  unfold linkedSum.
  induction ps as [|a ps IH]; simpl; [discriminate|].
  destruct (hasId pid a) eqn:E.
  - intros [= <-]. destruct (linkedTo oid a); unfold sumOver; simpl; ring.
  - intros H. specialize (IH H). simpl.
    destruct (linkedTo oid a); unfold sumOver in *; simpl; rewrite ?IH; ring.
Qed.

Lemma removeById_app_fresh (pid : ObjectId) (ps : list PaymentDoc) (d : PaymentDoc) :
  Forall (fun q => _id q <> pid) ps ->
  _id d = pid ->
  removeById pid (ps ++ [d]) = ps /\ List.find (hasId pid) (ps ++ [d]) = Some d.
Proof.
  intros Hfresh Hd. induction Hfresh as [|p ps Hp _ [IH1 IH2]]; simpl.
  - unfold hasId. rewrite bool_decide_eq_true_2 by exact Hd. auto.
  - assert (E : hasId pid p = false).
    { unfold hasId. now apply bool_decide_eq_false_2. }
    rewrite E, IH1. auto.
Qed.

Lemma pull_app_fresh (pid : ObjectId) (l : list ObjectId) :
  ~ In pid l -> pull pid (l ++ [pid]) = l.
Proof.
  unfold pull. intros Hn. rewrite List.filter_app. simpl.
  rewrite bool_decide_eq_true_2 by reflexivity. simpl. rewrite app_nil_r.
  induction l as [|x l IH]; simpl; [reflexivity|].
  rewrite bool_decide_eq_false_2 by (intros ->; apply Hn; now left). simpl.
  f_equal. apply IH. intros Hin. apply Hn. now right.
Qed.

Lemma filter_linked_other (oid other : ObjectId) (ps : list PaymentDoc) :
  other <> oid ->
  List.filter (linkedTo other) (List.filter (fun p => negb (linkedTo oid p)) ps)
  = List.filter (linkedTo other) ps.
Proof.
  intros Hne. induction ps as [|p ps IH]; simpl; [reflexivity|].
  destruct (linkedTo oid p) eqn:E1; destruct (linkedTo other p) eqn:E2; simpl;
    rewrite ?E2, ?IH; try reflexivity.
  unfold linkedTo in E1, E2. apply bool_decide_eq_true in E1, E2. congruence.
Qed.

#[global] Instance numberedAfter_total : Total numberedAfter.
Proof. intros a b. unfold numberedAfter. lia. Qed.

#[global] Instance numberedAfter_trans : Transitive numberedAfter.
Proof. intros a b c. unfold numberedAfter. lia. Qed.

Section Handlers.

Variable castObjectId : string -> option ObjectId.
Variable showObjectId : ObjectId -> string.
Variable updateInvoiceStatus : string -> Db -> option (gmap ObjectId InvoiceDoc).

(** The store after the deletion of a payment of a note. *)
Lemma deletePayment_note_store
    (id : string) (pid oid : ObjectId) (p : PaymentDoc) (thn : ThnDoc) (db : Db) :
  castObjectId id = Some pid ->
  List.find (hasId pid) (payments db) = Some p ->
  invoiceId p = None ->
  truckHiringNoteId p = Some oid ->
  castObjectId (showObjectId oid) = Some oid ->
  thns db !! oid = Some thn ->
  exists logs : list LogLine,
    deletePayment castObjectId showObjectId updateInvoiceStatus id db
    = (mkDb (<[oid := noteOf oid (pullThnPayment pid thn) (removeById pid (payments db))]>
               (thns db))
            (removeById pid (payments db)) (invoices db) (numbering db)
            (console db ++ logs)%list,
       Ok (Json "Deleted Payment")).
Proof.
  intros Hc Hfind Hinv Hthn Hshow Hl.
  destruct (find_hasId _ _ _ Hfind) as [_ Hid].
  unfold deletePayment, findPaymentByIdAndDelete, findThnByIdAndUpdate, castId,
    gets, modify, mbind, mret, M_bind, M_ret, bind, ret.
  rewrite Hc. simpl. rewrite Hfind. simpl. rewrite Hinv, Hthn, Hshow. simpl.
  edestruct (updateThnStatus_exact castObjectId (showObjectId oid) oid) as (logs & E);
    [exact Hshow | | rewrite E].
  { simpl. rewrite lookup_alter_eq, Hl. reflexivity. }
  simpl. exists logs. rewrite Hid. f_equal. f_equal.
  apply map_eq. intros o. destruct (decide (o = oid)) as [->|Hno].
  - rewrite !lookup_insert_eq. reflexivity.
  - rewrite !lookup_insert_ne, lookup_alter_ne by done. reflexivity.
Qed.

(** X8. Deleting a payment of a note takes the payment out of the store
    and off the note's list and leaves the note reconciled over the
    payments that remain: the sum of the note's payments has gone down by
    the amount of the deleted one. Invoices and numbering are untouched. *)
Theorem deletePayment_note
    (id : string) (pid oid : ObjectId) (p : PaymentDoc) (thn : ThnDoc) (db : Db) :
  castObjectId id = Some pid ->
  List.find (hasId pid) (payments db) = Some p ->
  invoiceId p = None ->
  truckHiringNoteId p = Some oid ->
  castObjectId (showObjectId oid) = Some oid ->
  thns db !! oid = Some thn ->
  exists (db' : Db) (thn' : ThnDoc),
    deletePayment castObjectId showObjectId updateInvoiceStatus id db
    = (db', Ok (Json "Deleted Payment"))
    /\ payments db' = removeById pid (payments db)
    /\ invoices db' = invoices db
    /\ numbering db' = numbering db
    /\ thns db' = <[oid := thn']> (thns db)
    /\ thnPayments thn' = pull pid (thnPayments thn)
    /\ Reconciled thn'
    /\ paidAmount thn' == (if advanceRecorded oid (payments db')
                           then linkedSum oid (payments db')
                           else linkedSum oid (payments db') + storedAdvance thn)
    /\ linkedSum oid (payments db') == linkedSum oid (payments db) - amount p.
Proof.
  intros Hc Hfind Hinv Hthn Hshow Hl.
  destruct (deletePayment_note_store id pid oid p thn db Hc Hfind Hinv Hthn Hshow Hl)
    as (logs & E).
  eexists _, _. split; [exact E|]. simpl.
  repeat (split; [reflexivity|]).
  split; [apply BackendFacts.reconciled_setFinancials|]. split.
  - apply (paidOf_spec oid (pullThnPayment pid thn)).
  - rewrite (linkedSum_removeById oid pid (payments db) p Hfind).
    unfold linkedTo. rewrite bool_decide_eq_true_2 by exact Hthn. ring.
Qed.

(** X9. Deleting the advance payment of a note does not lower what the
    note counts as paid: with no payment of type Advance left, the
    recompute falls back on the advance stored on the note. *)
Theorem deletePayment_advance_stays
    (id : string) (pid oid : ObjectId) (p : PaymentDoc) (thn : ThnDoc) (db : Db) :
  castObjectId id = Some pid ->
  List.find (hasId pid) (payments db) = Some p ->
  invoiceId p = None ->
  truckHiringNoteId p = Some oid ->
  castObjectId (showObjectId oid) = Some oid ->
  thns db !! oid = Some thn ->
  List.NoDup (List.map _id (payments db)) ->
  type p = ADVANCE ->
  amount p == storedAdvance thn ->
  (forall q, In q (payments db) -> truckHiringNoteId q = Some oid -> type q = ADVANCE ->
             q = p) ->
  exists (db' : Db) (thn' : ThnDoc),
    deletePayment castObjectId showObjectId updateInvoiceStatus id db
    = (db', Ok (Json "Deleted Payment"))
    /\ thns db' !! oid = Some thn'
    /\ Forall (fun q => _id q <> pid) (payments db')
    /\ paidAmount thn' == paidOf oid thn (payments db)
    /\ paidAmount thn' == linkedSum oid (payments db).
Proof.
  intros Hc Hfind Hinv Hthn Hshow Hl Hnd Hty Hamt Honly.
  destruct (deletePayment_note_store id pid oid p thn db Hc Hfind Hinv Hthn Hshow Hl)
    as (logs & E).
  pose proof (removeById_unique pid (payments db) Hnd) as Hgone.
  destruct (find_hasId _ _ _ Hfind) as [Hin Hid].
  assert (Hbefore : advanceRecorded oid (payments db) = true).
  { apply existsb_exists. exists p. split; [exact Hin|].
    unfold linkedTo, isAdvance. rewrite !bool_decide_eq_true_2 by assumption. reflexivity. }
  assert (Hafter : advanceRecorded oid (removeById pid (payments db)) = false).
  { apply not_true_iff_false. intros R. apply existsb_exists in R as (q & Hq & Hlq).
    apply andb_true_iff in Hlq as [H1 H2]. apply bool_decide_eq_true in H1, H2.
    pose proof (Honly q (removeById_In _ _ _ Hq) H1 H2) as ->.
    rewrite List.Forall_forall in Hgone. exact (Hgone p Hq Hid). }
  assert (Hpaid : paidOf oid (pullThnPayment pid thn) (removeById pid (payments db))
                  == linkedSum oid (payments db)).
  { rewrite paidOf_spec, Hafter.
    rewrite (linkedSum_removeById oid pid (payments db) p Hfind).
    unfold linkedTo. rewrite bool_decide_eq_true_2 by exact Hthn.
    rewrite Hamt. unfold storedAdvance. simpl. reflexivity. }
  eexists _, _. split; [exact E|]. simpl. rewrite lookup_insert_eq.
  split; [reflexivity|]. split; [exact Hgone|]. simpl. split.
  - rewrite Hpaid, paidOf_spec, Hbefore. reflexivity.
  - exact Hpaid.
Qed.

(** X10. Every note in store comes back from [getTruckHiringNotes]
    reconciled, highest number first: the reply is the note collection as
    the recomputes have left it, with the same ids as before, and no
    payment has changed. *)
Theorem getTruckHiringNotes_reconciled (db : Db) :
  (forall oid, is_Some (thns db !! oid) -> castObjectId (showObjectId oid) = Some oid) ->
  exists (db' : Db) (notes : list (ObjectId * ThnDoc)),
    getTruckHiringNotes castObjectId showObjectId db = (db', Ok notes)
    /\ payments db' = payments db
    /\ notes ≡ₚ map_to_list (thns db')
    /\ (forall oid, is_Some (thns db' !! oid) <-> is_Some (thns db !! oid))
    /\ StronglySorted numberedAfter notes
    /\ Forall (fun note => Reconciled note.2) notes.
Proof.
  intros Hshow.
  unfold getTruckHiringNotes, gets, mbind, mret, M_bind, M_ret, bind, ret.
  destruct (BackendFacts.recomputeAll_step castObjectId
              (List.map (fun note => showObjectId note.1) (findThnsSorted db)) db)
    as (db' & E & Hp & Hnone & Hkeep & Hall).
  rewrite E. exists db', (findThnsSorted db'). split; [reflexivity|].
  assert (Hrec : forall oid, is_Some (thns db !! oid) ->
            exists thn', thns db' !! oid = Some thn' /\ Reconciled thn').
  { intros oid [thn Hl]. apply (Hall (showObjectId oid) oid).
    - apply List.in_map_iff. exists (oid, thn). split; [reflexivity|].
      apply list_elem_of_In. unfold findThnsSorted.
      rewrite merge_sort_Permutation. now apply elem_of_map_to_list.
    - apply Hshow. eauto.
    - eauto. }
  split; [exact Hp|]. split; [apply merge_sort_Permutation|]. split; [|split].
  - intros oid. split.
    + intros [thn' Hl']. destruct (thns db !! oid) as [thn|] eqn:Hl; [eauto|].
      rewrite (Hnone oid Hl) in Hl'. discriminate.
    + intros Hs. destruct (Hrec oid Hs) as (thn' & -> & _). eauto.
  - apply StronglySorted_merge_sort; apply _.
  - apply List.Forall_forall. intros [oid thn'] Hin.
    apply list_elem_of_In in Hin. unfold findThnsSorted in Hin.
    rewrite merge_sort_Permutation in Hin. apply elem_of_map_to_list in Hin.
    destruct (thns db !! oid) as [thn|] eqn:Hl.
    + destruct (Hrec oid (ex_intro _ thn Hl)) as (thn'' & Hl'' & Hr).
      rewrite Hin in Hl''. injection Hl'' as <-. exact Hr.
    + rewrite (Hnone oid Hl) in Hin. discriminate.
Qed.

(** X11. The two single-note reads agree: [getTruckHiringNoteById] and
    [recalculateThnStatus] end the same way and leave the same records,
    for every id. For a note in store the reply is the note as stored
    after the recompute, reconciled; for a missing one it is 404. *)
Theorem single_note_reads_agree (id : string) (db : Db) :
  let byId := getTruckHiringNoteById castObjectId id db in
  let recalculated := recalculateThnStatus castObjectId id db in
  byId.2 = recalculated.2
  /\ sameRecords byId.1 recalculated.1
  /\ (forall oid thn, castObjectId id = Some oid -> thns db !! oid = Some thn ->
      exists thn', byId.2 = Ok (Json thn')
                   /\ thns byId.1 !! oid = Some thn'
                   /\ Reconciled thn')
  /\ (forall oid, castObjectId id = Some oid -> thns db !! oid = None ->
      byId.2 = Ok (NotFound "Truck Hiring Note not found") /\ byId.1 = db)
  /\ (castObjectId id = None -> byId = (db, Throw CastError)).
Proof.
  cbv zeta.
  unfold getTruckHiringNoteById, recalculateThnStatus, findThnById, castId, throw,
    gets, mbind, mret, M_bind, M_ret, bind, ret.
  destruct (castObjectId id) as [oid|] eqn:Hc; simpl.
  - destruct (thns db !! oid) as [thn|] eqn:Hl; simpl.
    + destruct (updateThnStatus_exact castObjectId id oid thn db Hc Hl) as (logs & ->).
      simpl. rewrite lookup_insert_eq. simpl.
      split; [reflexivity|]. split; [repeat split|]. split; [|split].
      * intros oid' thn0 [= <-] Hl'. eexists. split; [reflexivity|].
        rewrite lookup_insert_eq. split; [reflexivity|].
        apply BackendFacts.reconciled_setFinancials.
      * intros oid' [= <-] Hl'. congruence.
      * discriminate.
    + destruct (BackendFacts.updateThnStatus_missing castObjectId id db) as (logs & ->).
      { intros o Ho. congruence. }
      simpl. rewrite Hl. simpl.
      split; [reflexivity|]. split; [repeat split|]. split; [|split].
      * intros oid' thn0 [= <-] Hl'. congruence.
      * auto.
      * discriminate.
  - destruct (BackendFacts.updateThnStatus_missing castObjectId id db) as (logs & ->).
    { intros o Ho. congruence. }
    simpl. split; [reflexivity|]. split; [repeat split|]. split; [|split].
    + discriminate.
    + discriminate.
    + reflexivity.
Qed.

(** X12. Deleting a note takes the note and every payment linked to it out
    of the store and nothing else: the other notes, the payments of other
    notes and their sums, the invoices and the numbering are as before.
    For an id that is not in store the answer is 404 and the store is
    unchanged. *)
Theorem deleteTruckHiringNote_cascade (id : string) (oid : ObjectId) (db : Db) :
  castObjectId id = Some oid ->
  (is_Some (thns db !! oid) ->
   exists db',
     deleteTruckHiringNote castObjectId id db
     = (db', Ok (Json "Truck Hiring Note deleted successfully"))
     /\ thns db' = delete oid (thns db)
     /\ (forall p, In p (payments db')
                   <-> In p (payments db) /\ truckHiringNoteId p <> Some oid)
     /\ (forall other, other <> oid ->
           List.filter (linkedTo other) (payments db')
           = List.filter (linkedTo other) (payments db))
     /\ invoices db' = invoices db
     /\ numbering db' = numbering db)
  /\ (thns db !! oid = None ->
      deleteTruckHiringNote castObjectId id db
      = (db, Ok (NotFound "Truck Hiring Note not found"))).
Proof.
  intros Hc.
  unfold deleteTruckHiringNote, deletePaymentsOf, findThnByIdAndDelete, findThnById,
    castId, throw, gets, modify, mbind, mret, M_bind, M_ret, bind, ret.
  rewrite Hc. simpl. split.
  - intros [thn Hl]. rewrite Hl. simpl.
    eexists. split; [reflexivity|]. simpl. split; [reflexivity|].
    split; [|split; [|split; reflexivity]].
    + intros p. rewrite List.filter_In. unfold linkedTo.
      rewrite negb_true_iff, bool_decide_eq_false. reflexivity.
    + intros other Hne. now apply filter_linked_other.
  - intros ->. reflexivity.
Qed.

End Handlers.

Section RoundTrip.

Variable castObjectId : string -> option ObjectId.
Variable showObjectId : ObjectId -> string.
Variable paymentModelAccepts : PaymentDoc -> bool.
Variable updateInvoiceStatus : string -> Db -> option (gmap ObjectId InvoiceDoc).

(** X13. Recording a payment against a note and deleting it again gives
    back the payments and invoices as they were, and the notes as one
    recompute of the note would have made them: only the payment number
    is used up. *)
Theorem createPayment_deletePayment
    (env : PaymentEnv) (reqBody : Validation.RawPayment) (data : Validation.PaymentData)
    (db db1 : Db) (response : Response) (thnId id : string) (oid : ObjectId)
    (thn : ThnDoc) :
  createPayment castObjectId paymentModelAccepts updateInvoiceStatus env reqBody db
  = (db1, Ok response) ->
  statusCode response = 201%N ->
  Validation.createPaymentSchema reqBody = Some data ->
  Validation.invoiceId data = None ->
  Validation.truckHiringNoteId data = Some thnId ->
  thnId <> "" ->
  castObjectId thnId = Some oid ->
  castObjectId (showObjectId oid) = Some oid ->
  castObjectId id = Some (newPaymentId env) ->
  thns db !! oid = Some thn ->
  Forall (fun q => _id q <> newPaymentId env) (payments db) ->
  ~ In (newPaymentId env) (thnPayments thn) ->
  exists db2,
    deletePayment castObjectId showObjectId updateInvoiceStatus id db1
    = (db2, Ok (Json "Deleted Payment"))
    /\ payments db2 = payments db
    /\ invoices db2 = invoices db
    /\ thns db2 = thns (updateThnStatus castObjectId thnId db).1.
Proof.
  intros Hrun H201 Hs Hinv Hthn Hne Hc Hshow Hid Hl Hfresh Hnew.
  destruct (PaymentFacts.createPayment_note_store castObjectId paymentModelAccepts
              updateInvoiceStatus env reqBody data db db1 response thnId oid thn
              Hrun H201 Hs) as (doc & Hp & Hdid & Hdt & Hdi & Hi & Ht);
    [now rewrite Hinv | assumption..|].
  rewrite Hinv in Hdi. simpl in Hdi.
  destruct (removeById_app_fresh (newPaymentId env) (payments db) doc Hfresh Hdid)
    as [Hrem Hfind].
  rewrite <- Hp in Hrem, Hfind.
  edestruct (deletePayment_note_store castObjectId showObjectId updateInvoiceStatus
               id (newPaymentId env) oid doc) as (logs & E);
    [exact Hid | exact Hfind | exact Hdi | exact Hdt | exact Hshow | |].
  { rewrite Ht. apply lookup_insert_eq. }
  eexists. split; [exact E|]. simpl.
  split; [exact Hrem|]. split; [exact Hi|].
  destruct (updateThnStatus_exact castObjectId thnId oid thn db Hc Hl) as (logs' & ->).
  simpl. rewrite Ht, insert_insert_eq, Hrem. f_equal.
  unfold noteOf, paidOf, setFinancials, pullThnPayment, pushThnPayment; simpl.
  rewrite (pull_app_fresh _ _ Hnew). reflexivity.
Qed.

End RoundTrip.
End HandlerFacts.

(** ** Updating a note *)

Module NoteUpdateFacts.
Import Backend Recomputed RecomputeFacts Handlers NoteUpdate.

Lemma find_hasId_unique (p : PaymentDoc) (ps : list PaymentDoc) :
  List.NoDup (List.map _id ps) -> In p ps -> List.find (hasId (_id p)) ps = Some p.
Proof.
  induction ps as [|q ps IH]; simpl; intros Hnd Hin; [destruct Hin|].
  apply List.NoDup_cons_iff in Hnd as [Hq Hnd].
  unfold hasId at 1. destruct (bool_decide (_id q = _id p)) eqn:E.
  - apply bool_decide_eq_true in E. destruct Hin as [->|Hin]; [reflexivity|].
    exfalso. apply Hq. rewrite E. now apply List.in_map.
  - apply bool_decide_eq_false in E. destruct Hin as [->|Hin]; [congruence|].
    now apply IH.
Qed.

Lemma findTaggedAdvance_Some (oid : ObjectId) (n : N) (ps : list PaymentDoc)
    (p : PaymentDoc) :
  findTaggedAdvance oid n ps = Some p ->
  In p ps /\ truckHiringNoteId p = Some oid /\ type p = ADVANCE
  /\ referenceNo p = Some (advanceReference n).
Proof.
  unfold findTaggedAdvance. intros H. apply List.find_some in H as [Hin H].
  apply andb_true_iff in H as [H Hr]. apply andb_true_iff in H as [Hl Ht].
  unfold linkedTo in Hl. unfold isAdvance in Ht.
  apply bool_decide_eq_true in Hl, Ht, Hr. auto.
Qed.

Lemma linkedSum_updateById (oid pid : ObjectId) (f : PaymentDoc -> PaymentDoc)
    (ps : list PaymentDoc) (p : PaymentDoc) :
  List.find (hasId pid) ps = Some p ->
  linkedSum oid (updateById pid f ps) + (if linkedTo oid p then amount p else 0)
  == linkedSum oid ps + (if linkedTo oid (f p) then amount (f p) else 0).
Proof.
  unfold linkedSum.
  induction ps as [|a ps IH]; simpl; [discriminate|].
  destruct (hasId pid a) eqn:E.
  - intros [= <-]. simpl.
    destruct (linkedTo oid a), (linkedTo oid (f a)); unfold sumOver; simpl; ring.
  - intros H. specialize (IH H). simpl.
    destruct (linkedTo oid a); unfold sumOver in *; simpl; lra.
Qed.

Lemma In_updateById (pid : ObjectId) (f : PaymentDoc -> PaymentDoc)
    (ps : list PaymentDoc) (p : PaymentDoc) :
  List.find (hasId pid) ps = Some p -> In (f p) (updateById pid f ps).
Proof.
  induction ps as [|a ps IH]; simpl; [discriminate|].
  destruct (hasId pid a); [intros [= <-]; now left | intros H; right; now apply IH].
Qed.

Lemma advanceRecorded_In (oid : ObjectId) (ps : list PaymentDoc) (p : PaymentDoc) :
  In p ps -> truckHiringNoteId p = Some oid -> type p = ADVANCE ->
  advanceRecorded oid ps = true.
Proof.
  intros Hin Hl Ht. apply existsb_exists. exists p. split; [exact Hin|].
  unfold linkedTo, isAdvance. rewrite !bool_decide_eq_true_2 by assumption. reflexivity.
Qed.

Section Controller.

Variable castObjectId : string -> option ObjectId.
Variable paymentModelAccepts : PaymentDoc -> bool.

Ltac run :=
  unfold syncAdvance, nextNumber, savePayment, tryCatch, modify, gets, throw,
    mbind, mret, M_bind, M_ret, bind, ret.

Lemma withPayments_self (t : ThnDoc) : withPayments (thnPayments t) t = t.
Proof. now destruct t. Qed.

(** The advance block resolves, and touches the note only in its list of
    payment ids. *)
Lemma syncAdvance_frame (env : PaymentEnv) (oid : ObjectId) (existingNote : ThnDoc)
    (updateData : UpdateData) (advance : Q) (db : Db) :
  exists db1,
    syncAdvance paymentModelAccepts env oid existingNote updateData advance db
    = (db1, Ok tt)
    /\ invoices db1 = invoices db
    /\ (forall o, o <> oid -> thns db1 !! o = thns db !! o)
    /\ (forall t, thns db !! oid = Some t ->
          exists ids, thns db1 !! oid = Some (withPayments ids t)).
Proof.
  run.
  assert (Hself : forall t, thns db !! oid = Some t ->
            exists ids, thns db !! oid = Some (withPayments ids t)).
  { intros t Ht. exists (thnPayments t). now rewrite withPayments_self. }
  assert (Halter : forall (f : ThnDoc -> ThnDoc) t,
            (forall t, exists ids, f t = withPayments ids t) ->
            thns db !! oid = Some t ->
            exists ids, alter f oid (thns db) !! oid = Some (withPayments ids t)).
  { intros f t Hf Ht. rewrite lookup_alter_eq, Ht. simpl.
    destruct (Hf t) as [ids ->]. eauto. }
  assert (Hother : forall (f : ThnDoc -> ThnDoc) o, o <> oid ->
            alter f oid (thns db) !! o = thns db !! o).
  { intros f o Ho. now apply lookup_alter_ne. }
  destruct (findTaggedAdvance oid (thnNumber existingNote) (payments db))
    as [existing|] eqn:Ef; destruct (gtb0 advance) eqn:Hpos; simpl.
  - eexists. split; [reflexivity|]. simpl. auto.
  - destruct (Qeq_bool advance 0); simpl.
    + eexists. split; [reflexivity|]. simpl. split; [reflexivity|].
      split; [auto|]. intros t Ht. apply Halter; [|exact Ht].
      intros t'. eexists. reflexivity.
    + eexists. split; [reflexivity|]. auto.
  - destruct (numbering db !! "paymentId") as [m|]; simpl;
      match goal with
      | |- context [paymentModelAccepts ?p] => destruct (paymentModelAccepts p)
      end; simpl.
    all: eexists; (split; [reflexivity|]); simpl; split; [reflexivity|].
    all: split; [auto|]; auto.
    all: intros t Ht; apply Halter; [|exact Ht].
    all: intros t'; eexists; reflexivity.
  - eexists. split; [reflexivity|]. auto.
Qed.

Lemma recalculateBalance_run (env : PaymentEnv) (oid : ObjectId) (existingNote : ThnDoc)
    (updateData : UpdateData) (db db1 : Db) :
  match changedAdvance existingNote updateData with
  | Some advance =>
      syncAdvance paymentModelAccepts env oid existingNote updateData advance db
      = (db1, Ok tt)
  | None => db1 = db
  end ->
  recalculateBalance paymentModelAccepts env oid existingNote updateData db
  = (db1, Ok (financialsOf existingNote updateData)).
Proof.
  unfold recalculateBalance, financialsOf, changedAdvance.
  destruct (advanceAmount updateData) as [a|]; simpl.
  - destruct (match Backend.advanceAmount existingNote with
              | Some stored => negb (Qeq_bool a stored)
              | None => true
              end);
      destruct (freightRate updateData), (additionalCharges updateData); intros Hs;
      unfold mbind, mret, M_bind, M_ret, bind, ret; rewrite ?Hs; subst; reflexivity.
  - intros ->. destruct (freightRate updateData), (additionalCharges updateData);
      reflexivity.
Qed.

(** The update, once the balance block has run. *)
Lemma updateTruckHiringNote_run (env : PaymentEnv) (id : string) (oid : ObjectId)
    (updateData : UpdateData) (thn thn1 : ThnDoc) (db db1 : Db) :
  castObjectId id = Some oid ->
  thns db !! oid = Some thn ->
  recalculateBalance paymentModelAccepts env oid thn updateData db
  = (db1, Ok (financialsOf thn updateData)) ->
  thns db1 !! oid = Some thn1 ->
  balanceDefined thn updateData ->
  let note' := noteOf oid (applyUpdate updateData (financialsOf thn updateData) thn1)
                      (payments db1) in
  exists logs,
    updateTruckHiringNote castObjectId paymentModelAccepts env id updateData db
    = (mkDb (<[oid := note']> (thns db1)) (payments db1) (invoices db1) (numbering db1)
            (console db1 ++ logs)%list,
       Ok (Json note')).
Proof.
  intros Hc Hl Hre Hl1 Hdef. cbv zeta.
  unfold updateTruckHiringNote, findThnById, castId, modify, gets, throw,
    mbind, mret, M_bind, M_ret, bind, ret.
  rewrite Hc. simpl. rewrite Hl. simpl.
  unfold mbind, mret, M_bind, M_ret, bind, ret in Hre. rewrite Hre.
  assert (Hfin : match financialsOf thn updateData with
                 | Some f => is_Some (newBalanceAmount f)
                 | None => True
                 end).
  { unfold financialsOf.
    destruct Hdef as [[a Ha]|[[a Ha]|[Hf Ha]]].
    - rewrite Ha. destruct (freightRate updateData), (additionalCharges updateData);
        simpl; eauto.
    - rewrite Ha. destruct (freightRate updateData), (advanceAmount updateData),
        (additionalCharges updateData); simpl; eauto.
    - rewrite Hf, Ha. destruct (advanceAmount updateData); simpl; eauto. }
  destruct (financialsOf thn updateData) as [[nf na nac [bal|]]|] eqn:Ef;
    [| destruct Hfin as [? [=]] |]; simpl.
  all: rewrite lookup_alter_eq, Hl1; simpl.
  all: edestruct (updateThnStatus_exact castObjectId id oid) as (logs & E);
    [exact Hc | | rewrite E].
  all: try (simpl; rewrite lookup_alter_eq, Hl1; reflexivity).
  all: simpl; rewrite lookup_insert_eq; simpl.
  all: exists logs; f_equal; f_equal.
  all: apply map_eq; intros o; destruct (decide (o = oid)) as [->|Hno];
    [rewrite !lookup_insert_eq; reflexivity
    |rewrite !lookup_insert_ne, lookup_alter_ne by done; reflexivity].
Qed.

(** X14. An update that does not run into a missing advance replies with
    the note as stored after the recompute: it carries the fields of the
    request, the stored ones where the request brings none, and it is
    reconciled over the payments then in store. Other notes and the
    invoices are untouched. *)
Theorem updateTruckHiringNote_reconciled (env : PaymentEnv) (id : string) (oid : ObjectId)
    (updateData : UpdateData) (thn : ThnDoc) (db : Db) :
  castObjectId id = Some oid ->
  thns db !! oid = Some thn ->
  balanceDefined thn updateData ->
  exists (db' : Db) (note' : ThnDoc),
    updateTruckHiringNote castObjectId paymentModelAccepts env id updateData db
    = (db', Ok (Json note'))
    /\ thns db' !! oid = Some note'
    /\ Reconciled note'
    /\ Backend.freightRate note'
       = default (Backend.freightRate thn) (freightRate updateData)
    /\ Backend.advanceAmount note'
       = match advanceAmount updateData with
         | Some a => Some a
         | None => Backend.advanceAmount thn
         end
    /\ default 0 (Backend.additionalCharges note')
       == default (default 0 (Backend.additionalCharges thn)) (additionalCharges updateData)
    /\ thnDate note' = default (thnDate thn) (date updateData)
    /\ paidAmount note' == (if advanceRecorded oid (payments db')
                            then linkedSum oid (payments db')
                            else linkedSum oid (payments db') + storedAdvance note')
    /\ (forall o, o <> oid -> thns db' !! o = thns db !! o)
    /\ invoices db' = invoices db.
Proof.
  intros Hc Hl Hdef.
  assert (Hsync : exists db1,
            match changedAdvance thn updateData with
            | Some advance =>
                syncAdvance paymentModelAccepts env oid thn updateData advance db
                = (db1, Ok tt)
            | None => db1 = db
            end
            /\ invoices db1 = invoices db
            /\ (forall o, o <> oid -> thns db1 !! o = thns db !! o)
            /\ exists ids, thns db1 !! oid = Some (withPayments ids thn)).
  { destruct (changedAdvance thn updateData) as [a|].
    - destruct (syncAdvance_frame env oid thn updateData a db)
        as (db1 & E & Hi & Ho & Hown). exists db1. auto.
    - exists db. repeat split; auto. exists (thnPayments thn).
      now rewrite withPayments_self. }
  destruct Hsync as (db1 & Hs & Hi & Ho & ids & Hl1).
  pose proof (recalculateBalance_run env oid thn updateData db db1 Hs) as Hre.
  destruct (updateTruckHiringNote_run env id oid updateData thn _ db db1
              Hc Hl Hre Hl1 Hdef) as (logs & E).
  eexists _, _. split; [exact E|]. simpl. rewrite lookup_insert_eq.
  split; [reflexivity|]. split; [apply BackendFacts.reconciled_setFinancials|].
  assert (Hfields :
    Backend.freightRate (applyUpdate updateData (financialsOf thn updateData)
                           (withPayments ids thn))
    = default (Backend.freightRate thn) (freightRate updateData)
    /\ Backend.advanceAmount (applyUpdate updateData (financialsOf thn updateData)
                                (withPayments ids thn))
       = match advanceAmount updateData with
         | Some a => Some a
         | None => Backend.advanceAmount thn
         end
    /\ default 0 (Backend.additionalCharges
                    (applyUpdate updateData (financialsOf thn updateData)
                       (withPayments ids thn)))
       == default (default 0 (Backend.additionalCharges thn))
                  (additionalCharges updateData)).
  { unfold financialsOf, applyUpdate.
    destruct (freightRate updateData), (advanceAmount updateData),
      (additionalCharges updateData); simpl; repeat split; try reflexivity.
    all: rewrite orZero_eq; destruct (Backend.additionalCharges thn); reflexivity. }
  destruct Hfields as (Hf & Ha & Hac).
  split; [exact Hf|]. split; [exact Ha|]. split; [exact Hac|].
  split; [reflexivity|]. split.
  - apply (paidOf_spec oid (applyUpdate updateData (financialsOf thn updateData)
                              (withPayments ids thn))).
  - split; [|exact Hi]. intros o Hno. rewrite lookup_insert_ne by done. now apply Ho.
Qed.


Lemma changedAdvance_Some (thn : ThnDoc) (updateData : UpdateData) (a' a : Q) :
  advanceAmount updateData = Some a' ->
  Backend.advanceAmount thn = Some a ->
  ~ a' == a ->
  changedAdvance thn updateData = Some a'.
Proof.
  intros Hu Hs Hne. unfold changedAdvance. rewrite Hu, Hs.
  destruct (Qeq_bool a' a) eqn:E; [|reflexivity].
  apply Qeq_bool_iff in E. contradiction.
Qed.

Lemma balanceDefined_advance (thn : ThnDoc) (updateData : UpdateData) (a' : Q) :
  advanceAmount updateData = Some a' -> balanceDefined thn updateData.
Proof. intros H. left. rewrite H. eauto. Qed.

Lemma advance_changed_store
    (env : PaymentEnv) (id : string) (oid : ObjectId) (updateData : UpdateData)
    (thn : ThnDoc) (db : Db) (a' a : Q) (adv : PaymentDoc) :
  castObjectId id = Some oid ->
  thns db !! oid = Some thn ->
  advanceAmount updateData = Some a' ->
  Backend.advanceAmount thn = Some a ->
  ~ a' == a ->
  0 < a' ->
  findTaggedAdvance oid (thnNumber thn) (payments db) = Some adv ->
  let ps' := updateById (_id adv)
               (setAmountDate a' (orStr (date updateData) (thnDate thn))) (payments db) in
  let note' := noteOf oid (applyUpdate updateData (financialsOf thn updateData) thn) ps' in
  exists db' : Db,
    updateTruckHiringNote castObjectId paymentModelAccepts env id updateData db
    = (db', Ok (Json note'))
    /\ thns db' !! oid = Some note'
    /\ payments db' = ps'.
Proof.
  intros Hc Hl Hu Hs Hne Hpos Hfind. cbv zeta.
  assert (Hg : gtb0 a' = true) by now apply gtb0_true.
  set (d := orStr (date updateData) (thnDate thn)).
  assert (Hsync : syncAdvance paymentModelAccepts env oid thn updateData a' db
                  = (setPayments (updateById (_id adv) (setAmountDate a' d)) db, Ok tt)).
  { run. rewrite Hfind, Hg. reflexivity. }
  match type of Hsync with
  | _ = (?d1, _) => pose proof (recalculateBalance_run env oid thn updateData db d1) as Hre
  end.
  rewrite (changedAdvance_Some thn updateData a' a Hu Hs Hne) in Hre.
  specialize (Hre Hsync).
  edestruct (updateTruckHiringNote_run env id oid updateData thn thn) as (logs & E);
    [exact Hc | exact Hl | exact Hre | exact Hl
    | exact (balanceDefined_advance thn updateData a' Hu) |].
  eexists. split; [exact E|]. simpl. rewrite lookup_insert_eq.
  split; reflexivity.
Qed.

Lemma advance_changed_paid (oid : ObjectId) (thn : ThnDoc) (ps : list PaymentDoc)
    (adv : PaymentDoc) (a' : Q) (d : string) :
  List.NoDup (List.map _id ps) ->
  In adv ps -> truckHiringNoteId adv = Some oid -> type adv = ADVANCE ->
  paidOf oid thn (updateById (_id adv) (setAmountDate a' d) ps)
  == linkedSum oid ps - amount adv + a'.
Proof.
  intros Hnd Hin Hlink Hty.
  pose proof (find_hasId_unique adv ps Hnd Hin) as Hid.
  rewrite paidOf_spec.
  rewrite (advanceRecorded_In oid _ (setAmountDate a' d adv));
    [| now apply In_updateById | exact Hlink | exact Hty].
  pose proof (linkedSum_updateById oid (_id adv) (setAmountDate a' d) ps adv Hid) as Hsum.
  unfold linkedTo in Hsum. simpl in Hsum.
  rewrite !bool_decide_eq_true_2 in Hsum by exact Hlink. lra.
Qed.

Lemma advanceAmount_applyUpdate (thn : ThnDoc) (updateData : UpdateData) (a' : Q) :
  advanceAmount updateData = Some a' ->
  Backend.advanceAmount (applyUpdate updateData (financialsOf thn updateData) thn)
  = Some a'.
Proof.
  intros Hu. unfold financialsOf. rewrite Hu.
  destruct (freightRate updateData), (additionalCharges updateData); reflexivity.
Qed.

(** X15. Changing the advance of a note that has its advance payment: a
    new advance above 0 is written onto that payment, and the note then
    counts as paid the payments it had with the new advance in place of
    the old one. *)
Theorem updateTruckHiringNote_advance_changed
    (env : PaymentEnv) (id : string) (oid : ObjectId) (updateData : UpdateData)
    (thn : ThnDoc) (db : Db) (a' a : Q) (adv : PaymentDoc) :
  castObjectId id = Some oid ->
  thns db !! oid = Some thn ->
  advanceAmount updateData = Some a' ->
  Backend.advanceAmount thn = Some a ->
  ~ a' == a ->
  0 < a' ->
  findTaggedAdvance oid (thnNumber thn) (payments db) = Some adv ->
  List.NoDup (List.map _id (payments db)) ->
  exists (db' : Db) (note' : ThnDoc),
    updateTruckHiringNote castObjectId paymentModelAccepts env id updateData db
    = (db', Ok (Json note'))
    /\ thns db' !! oid = Some note'
    /\ payments db'
       = updateById (_id adv)
           (setAmountDate a' (orStr (date updateData) (thnDate thn))) (payments db)
    /\ In (setAmountDate a' (orStr (date updateData) (thnDate thn)) adv) (payments db')
    /\ Backend.advanceAmount note' = Some a'
    /\ paidAmount note' == linkedSum oid (payments db) - amount adv + a'
    /\ Reconciled note'.
Proof.
  intros Hc Hl Hu Hs Hne Hpos Hfind Hnd.
  pose proof (findTaggedAdvance_Some _ _ _ _ Hfind) as (Hin & Hlink & Hty & _).
  destruct (advance_changed_store env id oid updateData thn db a' a adv
              Hc Hl Hu Hs Hne Hpos Hfind) as (db' & E & Hl' & Hps).
  eexists _, _. split; [exact E|]. split; [exact Hl'|]. split; [exact Hps|].
  split.
  { rewrite Hps. apply In_updateById. now apply find_hasId_unique. }
  split; [exact (advanceAmount_applyUpdate thn updateData a' Hu)|].
  split; [|apply BackendFacts.reconciled_setFinancials].
  now apply advance_changed_paid.
Qed.

(** X16. Setting the advance of a note to 0 deletes its advance payment
    and takes it off the note's list; the note then counts as paid what
    its other payments come to. *)
Theorem updateTruckHiringNote_advance_removed
    (env : PaymentEnv) (id : string) (oid : ObjectId) (updateData : UpdateData)
    (thn : ThnDoc) (db : Db) (a' a : Q) (adv : PaymentDoc) :
  castObjectId id = Some oid ->
  thns db !! oid = Some thn ->
  advanceAmount updateData = Some a' ->
  Backend.advanceAmount thn = Some a ->
  a' == 0 ->
  ~ a == 0 ->
  findTaggedAdvance oid (thnNumber thn) (payments db) = Some adv ->
  List.NoDup (List.map _id (payments db)) ->
  exists (db' : Db) (note' : ThnDoc),
    updateTruckHiringNote castObjectId paymentModelAccepts env id updateData db
    = (db', Ok (Json note'))
    /\ thns db' !! oid = Some note'
    /\ payments db' = removeById (_id adv) (payments db)
    /\ ~ In adv (payments db')
    /\ thnPayments note' = pull (_id adv) (thnPayments thn)
    /\ Backend.advanceAmount note' = Some a'
    /\ paidAmount note' == linkedSum oid (payments db) - amount adv
    /\ Reconciled note'.
Proof.
  intros Hc Hl Hu Hs Hz Hne Hfind Hnd.
  pose proof (findTaggedAdvance_Some _ _ _ _ Hfind) as (Hin & Hlink & Hty & _).
  pose proof (find_hasId_unique adv (payments db) Hnd Hin) as Hid.
  assert (Hg : gtb0 a' = false).
  { apply not_true_iff_false. intros Hg. apply gtb0_true in Hg. lra. }
  assert (Hq : Qeq_bool a' 0 = true) by now apply Qeq_bool_iff.
  assert (Hsync : syncAdvance paymentModelAccepts env oid thn updateData a' db
                  = (setThns (alter (pullThnPayment (_id adv)) oid)
                       (setPayments (removeById (_id adv)) db), Ok tt)).
  { run. rewrite Hfind, Hg, Hq. reflexivity. }
  assert (Hchanged : ~ a' == a) by (intros E; apply Hne; rewrite <- E; exact Hz).
  match type of Hsync with
  | _ = (?d1, _) => pose proof (recalculateBalance_run env oid thn updateData db d1) as Hre
  end.
  rewrite (changedAdvance_Some thn updateData a' a Hu Hs Hchanged) in Hre.
  specialize (Hre Hsync).
  edestruct (updateTruckHiringNote_run env id oid updateData thn) as (logs & E);
    [exact Hc | exact Hl | exact Hre | | exact (balanceDefined_advance thn updateData a' Hu) |].
  { simpl. rewrite lookup_alter_eq, Hl. reflexivity. }
  eexists _, _. split; [exact E|]. simpl. rewrite lookup_insert_eq.
  split; [reflexivity|]. split; [reflexivity|].
  pose proof (HandlerFacts.removeById_unique (_id adv) (payments db) Hnd) as Hgone.
  split.
  { intros Hin'. rewrite List.Forall_forall in Hgone. exact (Hgone adv Hin' eq_refl). }
  split; [reflexivity|].
  assert (Hadv : Backend.advanceAmount
                   (applyUpdate updateData (financialsOf thn updateData)
                      (pullThnPayment (_id adv) thn)) = Some a').
  { unfold financialsOf. rewrite Hu.
    destruct (freightRate updateData), (additionalCharges updateData); reflexivity. }
  split; [exact Hadv|].
  split; [|apply BackendFacts.reconciled_setFinancials].
  match goal with
  | |- paidOf oid ?t ?ps == _ => rewrite (paidOf_spec oid t ps)
  end.
  unfold storedAdvance. rewrite Hadv. simpl.
  pose proof (HandlerFacts.linkedSum_removeById oid (_id adv) (payments db) adv Hid)
    as Hsum.
  unfold linkedTo in Hsum. rewrite bool_decide_eq_true_2 in Hsum by exact Hlink.
  destruct (advanceRecorded oid (removeById (_id adv) (payments db))); lra.
Qed.

(** X17. Raising the advance of a note that has no payment with the
    note's advance tag writes a new advance payment beside whatever is
    there: a payment of type Advance entered by hand stays, and both are
    counted as paid. *)
Theorem updateTruckHiringNote_advance_created
    (env : PaymentEnv) (id : string) (oid : ObjectId) (updateData : UpdateData)
    (thn : ThnDoc) (db : Db) (a' : Q) :
  castObjectId id = Some oid ->
  thns db !! oid = Some thn ->
  advanceAmount updateData = Some a' ->
  changedAdvance thn updateData = Some a' ->
  0 < a' ->
  findTaggedAdvance oid (thnNumber thn) (payments db) = None ->
  (forall p, paymentModelAccepts p = true) ->
  exists (db' : Db) (created : PaymentDoc) (stored : ThnDoc),
    updateTruckHiringNote castObjectId paymentModelAccepts env id updateData db
    = (db', Ok (Json stored))
    /\ thns db' !! oid = Some stored
    /\ payments db' = (payments db ++ [created])%list
    /\ _id created = newPaymentId env
    /\ truckHiringNoteId created = Some oid
    /\ type created = ADVANCE
    /\ amount created = a'
    /\ referenceNo created = Some (advanceReference (thnNumber thn))
    /\ thnPayments stored = (thnPayments thn ++ [newPaymentId env])%list
    /\ paidAmount stored == linkedSum oid (payments db) + a'
    /\ Reconciled stored.
Proof.
  intros Hc Hl Hu Hch Hpos Hfind Hacc.
  assert (Hg : gtb0 a' = true) by now apply gtb0_true.
  assert (Hsync : exists db1 created,
            syncAdvance paymentModelAccepts env oid thn updateData a' db = (db1, Ok tt)
            /\ payments db1 = (payments db ++ [created])%list
            /\ thns db1 !! oid = Some (pushThnPayment (newPaymentId env) thn)
            /\ _id created = newPaymentId env
            /\ truckHiringNoteId created = Some oid
            /\ type created = ADVANCE
            /\ amount created = a'
            /\ referenceNo created = Some (advanceReference (thnNumber thn))).
  { run. rewrite Hfind, Hg.
    destruct (numbering db !! "paymentId") as [m|]; simpl; rewrite Hacc; simpl.
    all: eexists _, _; split; [reflexivity|]; simpl.
    all: rewrite lookup_alter_eq, Hl; simpl.
    all: repeat split; reflexivity. }
  destruct Hsync as (db1 & created & Hsync & Hp & Hl1 & Hcid & Hcl & Hct & Hca & Hcr).
  pose proof (recalculateBalance_run env oid thn updateData db db1) as Hre.
  rewrite Hch in Hre. specialize (Hre Hsync).
  edestruct (updateTruckHiringNote_run env id oid updateData thn) as (logs & E);
    [exact Hc | exact Hl | exact Hre | exact Hl1
    | exact (balanceDefined_advance thn updateData a' Hu) |].
  eexists _, created, _. split; [exact E|]. simpl. rewrite lookup_insert_eq.
  split; [reflexivity|]. split; [exact Hp|].
  split; [exact Hcid|]. split; [exact Hcl|]. split; [exact Hct|]. split; [exact Hca|].
  split; [exact Hcr|]. split; [reflexivity|].
  split; [|apply BackendFacts.reconciled_setFinancials].
  match goal with
  | |- paidOf oid ?t ?ps == _ => rewrite (paidOf_spec oid t ps)
  end.
  rewrite Hp.
  rewrite (advanceRecorded_In oid _ created);
    [| apply in_or_app; right; now left | exact Hcl | exact Hct].
  rewrite CreationFacts.linkedSum_app. unfold linkedSum at 2. simpl.
  unfold linkedTo. rewrite bool_decide_eq_true_2 by exact Hcl.
  unfold sumOver. simpl. rewrite Hca. ring.
Qed.

End Controller.

Lemma updateById_app_fresh (pid : ObjectId) (f : PaymentDoc -> PaymentDoc)
    (ps : list PaymentDoc) (d : PaymentDoc) :
  Forall (fun q => _id q <> pid) ps ->
  _id d = pid ->
  updateById pid f (ps ++ [d]) = (ps ++ [f d])%list.
Proof.
  intros Hfresh Hd. induction Hfresh as [|p ps Hp _ IH]; simpl.
  - unfold hasId. now rewrite bool_decide_eq_true_2.
  - assert (E : hasId pid p = false) by (unfold hasId; now apply bool_decide_eq_false_2).
    now rewrite E, IH.
Qed.

Lemma findTaggedAdvance_app_fresh (oid : ObjectId) (n : N) (ps : list PaymentDoc)
    (d : PaymentDoc) :
  Forall (fun p => truckHiringNoteId p <> Some oid) ps ->
  truckHiringNoteId d = Some oid -> type d = ADVANCE ->
  referenceNo d = Some (advanceReference n) ->
  findTaggedAdvance oid n (ps ++ [d]) = Some d.
Proof.
  intros Hfresh Hl Ht Hr. unfold findTaggedAdvance.
  induction Hfresh as [|p ps Hp _ IH]; simpl.
  - unfold linkedTo, isAdvance. rewrite !bool_decide_eq_true_2 by assumption. reflexivity.
  - unfold linkedTo at 1. rewrite bool_decide_eq_false_2 by exact Hp. simpl. exact IH.
Qed.

Section Composition.

Variable castObjectId : string -> option ObjectId.
Variable paymentModelAccepts : PaymentDoc -> bool.
Variable thnModelAccepts : ThnDoc -> bool.

(** X18. A note created with an advance and then updated to another
    advance above 0 has one payment, of type Advance and of the new
    amount, and counts exactly the new advance as paid. *)
Theorem createTruckHiringNote_then_update
    (noteEnv : NoteEnv) (noteData : NoteData) (env : PaymentEnv) (id : string)
    (updateData : UpdateData) (db : Db) (a' : Q) :
  0 < orZero (nd_advanceAmount noteData) ->
  (forall note, thnModelAccepts note = true) ->
  (forall payment, paymentModelAccepts payment = true) ->
  Forall (fun p => truckHiringNoteId p <> Some (newNoteId noteEnv)) (payments db) ->
  Forall (fun p => _id p <> newAdvancePaymentId noteEnv) (payments db) ->
  List.NoDup (List.map _id (payments db)) ->
  castObjectId id = Some (newNoteId noteEnv) ->
  advanceAmount updateData = Some a' ->
  ~ a' == orZero (nd_advanceAmount noteData) ->
  0 < a' ->
  exists (db1 db2 : Db) (response : Response) (note' : ThnDoc) (adv : PaymentDoc),
    createTruckHiringNote paymentModelAccepts thnModelAccepts noteEnv noteData db
    = (db1, Ok response)
    /\ updateTruckHiringNote castObjectId paymentModelAccepts env id updateData db1
       = (db2, Ok (Json note'))
    /\ thns db2 !! newNoteId noteEnv = Some note'
    /\ List.filter (linkedTo (newNoteId noteEnv)) (payments db2) = [adv]
    /\ type adv = ADVANCE
    /\ amount adv = a'
    /\ Backend.advanceAmount note' = Some a'
    /\ paidAmount note' == a'
    /\ Reconciled note'.
Proof.
  intros Hpos Ht Hp Hfresh Hids Hnd Hc Hu Hne Hpos'.
  destruct (NoteFacts.createTruckHiringNote_store paymentModelAccepts thnModelAccepts
              noteEnv noteData db Hpos Ht Hp)
    as (db1 & response & note & adv & E1 & Hl & _ & Hps & Hadv & Hdate & _
        & Hid & Hlink & Hty & Hamt & Href).
  assert (Hfind : findTaggedAdvance (newNoteId noteEnv) (thnNumber note) (payments db1)
                  = Some adv).
  { rewrite Hps. now apply findTaggedAdvance_app_fresh. }
  assert (Hnd1 : List.NoDup (List.map _id (payments db1))).
  { rewrite Hps, List.map_app. simpl. apply List.NoDup_app.
    - exact Hnd.
    - repeat constructor. intros [].
    - intros x Hx [<-|[]]. apply List.in_map_iff in Hx as (p & Hpx & Hin).
      rewrite List.Forall_forall in Hids. apply (Hids p Hin). congruence. }
  destruct (advance_changed_store castObjectId paymentModelAccepts env id
              (newNoteId noteEnv) updateData note db1 a' _ adv Hc Hl Hu Hadv Hne Hpos'
              Hfind)
    as (db2 & E2 & Hl2 & Hps2).
  set (d := orStr (date updateData) (thnDate note)) in *.
  set (note' := noteOf (newNoteId noteEnv)
                  (applyUpdate updateData (financialsOf note updateData) note)
                  (updateById (_id adv) (setAmountDate a' d) (payments db1))) in *.
  assert (Ha2 : Backend.advanceAmount note' = Some a')
    by exact (advanceAmount_applyUpdate note updateData a' Hu).
  assert (Hrec : Reconciled note') by apply BackendFacts.reconciled_setFinancials.
  assert (Hpaid : paidAmount note' == linkedSum (newNoteId noteEnv) (payments db1)
                                      - amount adv + a').
  { apply advance_changed_paid; [exact Hnd1| |exact Hlink|exact Hty].
    rewrite Hps. apply in_or_app. right. now left. }
  assert (Hps2' : payments db2 = (payments db ++ [setAmountDate a' d adv])%list).
  { rewrite Hps2, Hps. apply updateById_app_fresh; [|reflexivity].
    rewrite Hid. exact Hids. }
  exists db1, db2, response, note', (setAmountDate a' d adv).
  split; [exact E1|]. split; [exact E2|]. split; [exact Hl2|].
  split.
  { rewrite Hps2', List.filter_app, (CreationFacts.filter_unlinked _ _ Hfresh). simpl.
    unfold linkedTo. simpl. now rewrite bool_decide_eq_true_2. }
  split; [exact Hty|]. split; [reflexivity|]. split; [exact Ha2|].
  split; [|exact Hrec].
  rewrite Hpaid, Hps, CreationFacts.linkedSum_app, (NoteFacts.linkedSum_unlinked _ _ Hfresh).
  unfold linkedSum. simpl. unfold linkedTo.
  rewrite bool_decide_eq_true_2 by exact Hlink. unfold sumOver. simpl. ring.
Qed.

End Composition.
End NoteUpdateFacts.

(** ** Totals and closing balances of the ledgers *)

Module SummaryFacts.
Import Ledger LedgerFacts.

Lemma sumOver_perm {A} (f : A -> Q) (l l' : list A) :
  Permutation l l' -> sumOver f l == sumOver f l'.
Proof.
  unfold sumOver. induction 1; simpl.
  - reflexivity.
  - now rewrite IHPermutation.
  - ring.
  - now rewrite IHPermutation1.
Qed.



Lemma sumOver_flat_map {A B} (f : B -> Q) (g : A -> list B) (l : list A) :
  sumOver f (flat_map g l) == sumOver (fun x => sumOver f (g x)) l.
Proof.
  induction l as [|x l IH]; simpl; [reflexivity|].
  rewrite sumOver_app, IH. unfold sumOver at 4. simpl. reflexivity.
Qed.

Lemma filter_idem {A} (p : A -> bool) (l : list A) :
  List.filter p (List.filter p l) = List.filter p l.
Proof.
  induction l as [|x l IH]; simpl; [reflexivity|].
  destruct (p x) eqn:E; simpl; rewrite ?E, IH; reflexivity.
Qed.

Section Lines.

Context {E : Type} `{LedgerLineLaws E}.

Lemma sumOver_unbalanced (l l' : list E) :
  List.map unbalanced l = List.map unbalanced l' ->
  sumOver lineDebit l = sumOver lineDebit l'
  /\ sumOver lineCredit l = sumOver lineCredit l'.
Proof.
  revert l'. induction l as [|x l IH]; intros [|y l'] Hm; try discriminate.
  - split; reflexivity.
  - injection Hm as Hxy Hm. destruct (IH l' Hm) as [Hd Hc].
    destruct (unbalanced_fields x y Hxy) as (_ & Hxd & Hxc).
    unfold sumOver in *. simpl. rewrite Hd, Hc, Hxd, Hxc. split; reflexivity.
Qed.

Lemma netSum_sums (l : list E) :
  netSum l == sumOver lineDebit l - sumOver lineCredit l.
Proof.
  unfold netSum, sumOver. induction l as [|x l IH]; simpl; [ring|].
  rewrite IH. ring.
Qed.

(** The totals of the balanced lines are those of the lines built. *)
Lemma totals_of_transactions (parseDate : string -> option Z) (entries : list E) :
  sumOver lineDebit (runningBalances 0 (sortByDate parseDate entries))
  == sumOver lineDebit entries
  /\ sumOver lineCredit (runningBalances 0 (sortByDate parseDate entries))
     == sumOver lineCredit entries.
Proof.
  destruct (sumOver_unbalanced _ _
              (unbalanced_runningBalances 0 (sortByDate parseDate entries))) as [-> ->].
  split; apply sumOver_perm, sortByDate_perm; assumption.
Qed.

(** The last balanced line carries the net of all lines. *)
Lemma closing_line (l : list E) :
  match last (runningBalances 0 l) with
  | Some e =>
      lineBalance e == Qabs (sumOver lineDebit l - sumOver lineCredit l)
      /\ (sumOver lineCredit l <= sumOver lineDebit l -> lineBalanceType e = DR)
      /\ (sumOver lineDebit l < sumOver lineCredit l -> lineBalanceType e = CR)
  | None => l = []
  end.
Proof.
  destruct (last (runningBalances 0 l)) as [e|] eqn:El.
  - rewrite last_lookup in El.
    destruct (runningBalances_at 0 l _ e El) as (Hb & Hdr & Hcr). cbv zeta in *.
    assert (Hlen : (0 < length (runningBalances 0 l))%nat).
    { apply lookup_lt_Some in El. lia. }
    rewrite take_ge in Hb, Hdr, Hcr by lia.
    destruct (sumOver_unbalanced _ _ (unbalanced_runningBalances 0 l)) as [Ed Ec].
    assert (Hnet : 0 + netSum (runningBalances 0 l)
                   == sumOver lineDebit l - sumOver lineCredit l).
    { rewrite netSum_sums, Ed, Ec. ring. }
    split; [rewrite Hb; now apply Qabs_wd|].
    split; intros Hs; [apply Hdr | apply Hcr]; rewrite Hnet; lra.
  - apply last_None in El. destruct l; [reflexivity | discriminate].
Qed.

End Lines.

Section Ledgers.

Variable parseDate : string -> option Z.
Variable isoDate : Z -> string.


(** X20. The client ledger is made from the customer's own invoices and
    payments and from nothing else: the records of other customers and the
    truck hiring notes passed in have no effect on it. *)
Theorem client_ledger_own_records
    (customerId : string) (customer : Customer.t) (invoices : list Invoice.t)
    (payments : list Payment.t) (truckHiringNotes notes' : list TruckHiringNote.t)
    (filters : option LedgerFilters) :
  generateClientLedger parseDate customerId customer invoices payments
                       truckHiringNotes filters
  = generateClientLedger parseDate customerId customer
      (List.filter (isCustomerInvoice customerId) invoices)
      (List.filter (isCustomerPayment customerId) payments)
      notes' filters.
Proof.
  unfold generateClientLedger, clientEntries. rewrite !filter_idem. reflexivity.
Qed.


Lemma hasTDS_positive (payment : Payment.t) :
  hasTDS payment = true -> 0 < tdsOf payment /\ isAdvance (Payment.type payment) = false.
Proof.
  unfold hasTDS, tdsOf. intros H.
  apply andb_true_iff in H as [H Ha]. apply andb_true_iff in H as [_ Hr].
  split.
  - destruct (Payment.tdsAmount payment) as [a|]; [|discriminate].
    apply andb_true_iff in Ha as [_ Ha]. now apply gtb0_true.
  - unfold isReceipt in Hr. apply bool_decide_eq_true in Hr. now rewrite Hr.
Qed.

(** What a payment posts to the credit side beyond what it posts to the
    debit side. *)
Lemma companyPaymentEntries_surplus (payment : Payment.t) :
  sumOver credit (companyPaymentEntries payment)
  - sumOver debit (companyPaymentEntries payment)
  == if hasTDS payment then 2 * tdsOf payment else 0.
Proof.
  unfold companyPaymentEntries.
  destruct (isAdvance (Payment.type payment)) eqn:Ea.
  - destruct (hasTDS payment) eqn:Et.
    + apply hasTDS_positive in Et as [_ Et]. congruence.
    + unfold sumOver; simpl. ring.
  - destruct (hasTDS payment); unfold sumOver; simpl; ring.
Qed.

Lemma companyEntries_surplus (startDate endDate : string) (invoices : list Invoice.t)
    (payments : list Payment.t) (truckHiringNotes : list TruckHiringNote.t) :
  sumOver credit (companyEntries parseDate startDate endDate invoices payments
                                 truckHiringNotes)
  - sumOver debit (companyEntries parseDate startDate endDate invoices payments
                                  truckHiringNotes)
  == 2 * sumOver tdsOf
           (List.filter (fun p => inPeriod parseDate startDate endDate (Payment.date p)
                                  && hasTDS p) payments).
Proof.
  unfold companyEntries. rewrite !sumOver_app.
  assert (Hi : forall l : list Invoice.t,
            sumOver credit (flat_map (fun invoice =>
              if inPeriod parseDate startDate endDate (Invoice.date invoice)
              then companyInvoiceEntries invoice else []) l)
            - sumOver debit (flat_map (fun invoice =>
              if inPeriod parseDate startDate endDate (Invoice.date invoice)
              then companyInvoiceEntries invoice else []) l) == 0).
  { induction l as [|x l IH]; [reflexivity|]. cbn [flat_map].
    rewrite !sumOver_app.
    destruct (inPeriod parseDate startDate endDate (Invoice.date x));
      unfold sumOver in *; simpl in *; lra. }
  assert (Ht : forall l : list TruckHiringNote.t,
            sumOver credit (flat_map (fun thn =>
              if inPeriod parseDate startDate endDate (TruckHiringNote.date thn)
              then companyThnEntries thn else []) l)
            - sumOver debit (flat_map (fun thn =>
              if inPeriod parseDate startDate endDate (TruckHiringNote.date thn)
              then companyThnEntries thn else []) l) == 0).
  { induction l as [|x l IH]; [reflexivity|]. cbn [flat_map].
    rewrite !sumOver_app.
    destruct (inPeriod parseDate startDate endDate (TruckHiringNote.date x));
      unfold sumOver in *; simpl in *; lra. }
  assert (Hp : forall l : list Payment.t,
            sumOver credit (flat_map (fun payment =>
              if inPeriod parseDate startDate endDate (Payment.date payment)
              then companyPaymentEntries payment else []) l)
            - sumOver debit (flat_map (fun payment =>
              if inPeriod parseDate startDate endDate (Payment.date payment)
              then companyPaymentEntries payment else []) l)
            == 2 * sumOver tdsOf
                     (List.filter (fun p => inPeriod parseDate startDate endDate
                                                     (Payment.date p)
                                            && hasTDS p) l)).
  { induction l as [|x l IH]; [reflexivity|]. cbn [flat_map List.filter].
    rewrite !sumOver_app.
    pose proof (companyPaymentEntries_surplus x) as Hx.
    destruct (inPeriod parseDate startDate endDate (Payment.date x)); cbn [andb].
    - destruct (hasTDS x).
      + change (sumOver tdsOf (x :: ?l)) with (tdsOf x + sumOver tdsOf l). lra.
      + lra.
    - unfold sumOver at 1 3. cbn [fold_right]. lra. }
  specialize (Hi invoices). specialize (Ht truckHiringNotes). specialize (Hp payments).
  lra.
Qed.

Lemma sumOver_tds_nonneg (l : list Payment.t) :
  Forall (fun p => hasTDS p = true) l -> 0 <= sumOver tdsOf l.
Proof.
  induction 1 as [|p l Hp _ IH]; [unfold sumOver; simpl; lra|].
  apply hasTDS_positive in Hp as [Hp _].
  change (sumOver tdsOf (p :: l)) with (tdsOf p + sumOver tdsOf l). lra.
Qed.

(** X21. The company ledger closes on twice the TDS of the period: over
    its transactions the credits exceed the debits by twice the TDS of the
    receipts dated within the period, that is the balance of the last
    line, and it stands on the CR side as soon as one such receipt
    exists. Without TDS the books close at 0 DR. *)
Theorem company_closing
    (clock : Clock) (customers : list Customer.t) (invoices : list Invoice.t)
    (payments : list Payment.t) (truckHiringNotes : list TruckHiringNote.t)
    (filters : option LedgerFilters) :
  let ledger := generateCompanyLedger parseDate isoDate clock customers invoices
                                      payments truckHiringNotes filters in
  let inside := inPeriod parseDate (periodStart isoDate clock filters)
                         (periodEnd isoDate clock filters) in
  let withheld :=
    sumOver tdsOf (List.filter (fun p => inside (Payment.date p) && hasTDS p) payments) in
  0 <= withheld
  /\ sumOver credit (transactions ledger) - sumOver debit (transactions ledger)
     == 2 * withheld
  /\ forall e, last (transactions ledger) = Some e ->
       balance e == 2 * withheld
       /\ (withheld == 0 -> balanceType e = DR)
       /\ (0 < withheld -> balanceType e = CR).
Proof.
  cbv zeta. unfold generateCompanyLedger. cbn [transactions].
  set (startDate := periodStart isoDate clock filters).
  set (endDate := periodEnd isoDate clock filters).
  set (entries := companyEntries parseDate startDate endDate invoices payments
                                 truckHiringNotes).
  set (withheld := sumOver tdsOf
         (List.filter (fun p => inPeriod parseDate startDate endDate (Payment.date p)
                                && hasTDS p) payments)).
  assert (H0 : 0 <= withheld).
  { apply sumOver_tds_nonneg. apply List.Forall_forall. intros p Hp.
    apply filter_In in Hp as [_ Hp]. now apply andb_true_iff in Hp as [_ Hp]. }
  pose proof (companyEntries_surplus startDate endDate invoices payments truckHiringNotes)
    as Hs. fold entries withheld in Hs.
  destruct (totals_of_transactions parseDate entries) as [Td Tc].
  cbn [lineDebit lineCredit CompanyLine] in Td, Tc.
  assert (Sd : sumOver debit (sortByDate parseDate entries) == sumOver debit entries)
    by (apply sumOver_perm, sortByDate_perm; exact _).
  assert (Sc : sumOver credit (sortByDate parseDate entries) == sumOver credit entries)
    by (apply sumOver_perm, sortByDate_perm; exact _).
  split; [exact H0|]. split; [rewrite Td, Tc; exact Hs|].
  intros e He.
  pose proof (closing_line (sortByDate parseDate entries)) as Hlast.
  rewrite He in Hlast.
  cbn [lineDebit lineCredit lineBalance lineBalanceType CompanyLine] in Hlast.
  destruct Hlast as (Hb & Hdr & Hcr).
  split; [|split].
  - rewrite Hb, Sd, Sc.
    assert (E : sumOver debit entries - sumOver credit entries == - (2 * withheld)) by lra.
    rewrite E, Qabs_opp. apply Qabs_pos. lra.
  - intros Hz. apply Hdr. lra.
  - intros Hpos. apply Hcr. lra.
Qed.

End Ledgers.
End SummaryFacts.

(** ** The PDF service *)

Module PdfFacts.
Import Pdf.

Lemma Qgt_bool_true (a b : Q) : Qgt_bool a b = true <-> b < a.
Proof.
  unfold Qgt_bool. rewrite negb_true_iff, <- not_true_iff_false, Qle_bool_iff.
  split; intros Hab; [now apply Qnot_le_lt | now apply Qlt_not_le].
Qed.

Lemma Qgt_bool_false (a b : Q) : Qgt_bool a b = false <-> a <= b.
Proof.
  unfold Qgt_bool. rewrite negb_false_iff, Qle_bool_iff. reflexivity.
Qed.

Lemma Qge_bool_true (a b : Q) : Qge_bool a b = true <-> b <= a.
Proof. unfold Qge_bool. apply Qle_bool_iff. Qed.

Lemma Qge_bool_false (a b : Q) : Qge_bool a b = false <-> a < b.
Proof.
  unfold Qge_bool. rewrite <- not_true_iff_false, Qle_bool_iff.
  split; intros Hab; [now apply Qnot_le_lt | now apply Qlt_not_le].
Qed.

Lemma inject_succ (j : nat) : inject_Z (Z.of_nat (S j)) == inject_Z (Z.of_nat j) + 1.
Proof. rewrite Nat2Z.inj_succ, <- Z.add_1_r, inject_Z_plus. reflexivity. Qed.

Lemma inject_zero : inject_Z (Z.of_nat 0) == 0.
Proof. reflexivity. Qed.

Lemma addImage_addPage (image : Image) (pdf : Document) :
  addImage image (addPage pdf) = (pdf ++ [[image]])%list.
Proof.
  unfold addPage. induction pdf as [|page pdf IH]; [reflexivity|].
  cbn [app addImage]. rewrite IH.
  destruct pdf; reflexivity.
Qed.

(** The checks of [waitForLibraries], from any attempt on. *)
Lemma checkLibraries_spec (loaded : nat -> bool) (fuel attempts : nat) :
  (fuel + attempts = maxAttempts)%nat ->
  match checkLibraries loaded fuel attempts with
  | Some n => (attempts < n <= maxAttempts)%nat /\ loaded n = true
              /\ forall k, (attempts < k < n)%nat -> loaded k = false
  | None => forall k, (attempts < k <= maxAttempts)%nat -> loaded k = false
  end.
Proof.
  revert attempts. induction fuel as [|fuel IH]; intros attempts Hsum;
    cbn [checkLibraries].
  - intros k Hk. lia.
  - cbv zeta. destruct (loaded (S attempts)) eqn:El.
    + split; [lia|]. split; [exact El|]. intros k Hk. lia.
    + destruct (maxAttempts <=? S attempts)%nat eqn:Em.
      * apply Nat.leb_le in Em. intros k Hk.
        assert (k = S attempts) as -> by lia. exact El.
      * apply Nat.leb_gt in Em. specialize (IH (S attempts) ltac:(lia)).
        destruct (checkLibraries loaded fuel (S attempts)) as [n|].
        -- destruct IH as (Hn & Hl & Hk). split; [lia|]. split; [exact Hl|].
           intros k Hk'. destruct (decide (k = S attempts)) as [->|Hne]; [exact El|].
           apply Hk. lia.
        -- intros k Hk. destruct (decide (k = S attempts)) as [->|Hne]; [exact El|].
           apply IH. lia.
Qed.

(** X22. [waitForLibraries] resolves at the first of its checks that finds
    the libraries, provided that is one of the first 50, and rejects
    exactly when none of the first 50 checks finds them: it never
    checks a 51st time. *)
Theorem waitForLibraries_spec (loaded : nat -> bool) :
  match waitForLibraries loaded with
  | Some n => (1 <= n <= 50)%nat /\ loaded n = true
              /\ forall k, (1 <= k < n)%nat -> loaded k = false
  | None => forall k, (1 <= k <= 50)%nat -> loaded k = false
  end.
Proof.
  pose proof (checkLibraries_spec loaded maxAttempts 0 eq_refl) as Hspec.
  unfold waitForLibraries. destruct (checkLibraries loaded maxAttempts 0) as [n|].
  - destruct Hspec as (Hn & Hl & Hk). unfold maxAttempts in Hn.
    split; [lia|]. split; [exact Hl|]. intros k Hk'. apply Hk. lia.
  - intros k Hk. apply Hspec. unfold maxAttempts. lia.
Qed.

Section Service.

Variable today : string.
Variable pageSize : Orientation -> Format -> PageSize.

(** X23. The name under which [generatePdf] and [generateDocumentPdf] save
    is always [Document_] followed by today's date: the [fileName] of the
    options, and with it the name [generateDocumentPdf] builds from the
    document type, number and date, has no effect, as the base name has
    none on [generateFileName]. *)
Theorem generatePdf_fileName :
  (forall baseName baseName' documentType documentNumber date,
      generateFileName today baseName documentType documentNumber date
      = generateFileName today baseName' documentType documentNumber date)
  /\ (forall loaded element options name pdf,
        generatePdf today pageSize loaded element options = Saved name pdf ->
        name = "Document_" ++ today ++ ".pdf")
  /\ (forall loaded element documentType documentNumber date name pdf,
        generateDocumentPdf today pageSize loaded element documentType documentNumber date
        = Saved name pdf ->
        name = "Document_" ++ today ++ ".pdf").
Proof.
  assert (Hgen : forall loaded element options name pdf,
            generatePdf today pageSize loaded element options = Saved name pdf ->
            name = "Document_" ++ today ++ ".pdf").
  { intros loaded element options name pdf. unfold generatePdf.
    destruct element as [canvas|]; [|discriminate].
    destruct (waitForLibraries loaded); [|discriminate].
    cbv zeta. destruct (Qgt_bool _ _); intros [= <- _]; reflexivity. }
  split; [reflexivity|]. split; [exact Hgen|].
  intros loaded element documentType documentNumber date name pdf.
  unfold generateDocumentPdf. apply Hgen.
Qed.

(** The fit of an image of the canvas's proportions into the content box. *)
Lemma fit_to_page (canvasWidth canvasHeight contentWidth contentHeight : Q) :
  0 < canvasWidth -> 0 < canvasHeight -> 0 < contentWidth -> 0 < contentHeight ->
  let ratio := canvasWidth / canvasHeight in
  let fitted :=
    if Qgt_bool (contentWidth / ratio) contentHeight
    then (contentHeight * ratio, contentHeight)
    else (contentWidth, contentWidth / ratio) in
  0 < fitted.1 /\ fitted.1 <= contentWidth
  /\ 0 < fitted.2 /\ fitted.2 <= contentHeight
  /\ fitted.1 * canvasHeight == fitted.2 * canvasWidth
  /\ (fitted.1 == contentWidth \/ fitted.2 == contentHeight).
Proof.
  intros HW HH Hcw Hch. cbv zeta.
  set (r := canvasWidth / canvasHeight).
  assert (Hr : r * canvasHeight == canvasWidth) by (unfold r; field; lra).
  assert (Hrpos : 0 < r) by (unfold r; apply Qlt_shift_div_l; lra).
  set (h0 := contentWidth / r).
  assert (Hh0 : h0 * r == contentWidth) by (unfold h0; field; lra).
  assert (Hh0pos : 0 < h0) by (unfold h0; apply Qlt_shift_div_l; lra).
  destruct (Qgt_bool h0 contentHeight) eqn:Hgt; cbn [fst snd].
  - apply Qgt_bool_true in Hgt.
    assert (Hlt : contentHeight * r < h0 * r) by (apply Qmult_lt_compat_r; assumption).
    assert (Hp : 0 < contentHeight * r) by (apply Qmult_lt_0_compat; assumption).
    split; [exact Hp|]. split; [lra|]. split; [exact Hch|]. split; [lra|].
    split; [|right; reflexivity].
    rewrite <- Hr. ring.
  - apply Qgt_bool_false in Hgt.
    split; [exact Hcw|]. split; [lra|]. split; [exact Hh0pos|]. split; [exact Hgt|].
    split; [|left; reflexivity].
    rewrite <- Hr, <- Hh0. ring.
Qed.

(** X24. [generatePdf] on a rendered element puts one image on one page:
    it keeps the proportions of the canvas, lies inside the margins,
    fills the content box in width or in height, and is centred in both
    directions. *)
Theorem generatePdf_fits (loaded : nat -> bool) (canvas : Canvas) (options : PDFOptions) :
  let size := pageSize (default portrait (orientation options))
                       (default a4 (format options)) in
  let margins := default defaultMargins (margins options) in
  let contentWidth := getWidth size - left margins - right margins in
  let contentHeight := getHeight size - top margins - bottom margins in
  is_Some (waitForLibraries loaded) ->
  0 < width canvas -> 0 < height canvas ->
  0 < contentWidth -> 0 < contentHeight ->
  exists (name : string) (image : Image),
    generatePdf today pageSize loaded (Some canvas) options = Saved name [[image]]
    /\ 0 < imgWidth image /\ 0 < imgHeight image
    /\ imgWidth image * height canvas == imgHeight image * width canvas
    /\ left margins <= x image
    /\ x image + imgWidth image <= getWidth size - right margins
    /\ top margins <= y image
    /\ y image + imgHeight image <= getHeight size - bottom margins
    /\ (imgWidth image == contentWidth \/ imgHeight image == contentHeight)
    /\ x image - left margins == getWidth size - right margins - (x image + imgWidth image)
    /\ y image - top margins == getHeight size - bottom margins - (y image + imgHeight image).
Proof.
  cbv zeta. intros [n Hn] HW HH Hcw Hch.
  pose proof (fit_to_page _ _ _ _ HW HH Hcw Hch) as Hfit. cbv zeta in Hfit.
  unfold generatePdf. rewrite Hn. cbv zeta.
  set (fitted := if Qgt_bool _ _ then _ else _) in *.
  destruct fitted as [w h]. cbn [fst snd] in Hfit. cbv beta iota.
  destruct Hfit as (H1 & H2 & H3 & H4 & H5 & H6).
  eexists _, _. split; [reflexivity|]. cbn [x y imgWidth imgHeight].
  match goal with
  | |- context [(?a - w) / 2] =>
      set (dx := (a - w) / 2) in *;
      assert (Edx : 2 * dx == a - w) by (unfold dx; field)
  end.
  match goal with
  | |- context [(?a - h) / 2] =>
      set (dy := (a - h) / 2) in *;
      assert (Edy : 2 * dy == a - h) by (unfold dy; field)
  end.
  split; [exact H1|]. split; [exact H3|]. split; [exact H5|].
  split; [lra|]. split; [lra|]. split; [lra|]. split; [lra|].
  split; [exact H6|]. split; lra.
Qed.

(** The loop of [generateMultiPagePdf], run from a height left that calls
    for [m] more pages. *)
Lemma additionalPages_run (margins : Margins) (imgWidth imgHeight contentHeight : Q)
    (m : nat) :
  forall (fuel : nat) (heightLeft : Q) (pdf : Document),
    (m <= fuel)%nat ->
    (forall j, (j < m)%nat -> 0 <= heightLeft - inject_Z (Z.of_nat j) * contentHeight) ->
    heightLeft - inject_Z (Z.of_nat m) * contentHeight < 0 ->
    exists pages,
      additionalPages fuel margins imgWidth imgHeight contentHeight heightLeft pdf
      = Some (pdf ++ pages)%list
      /\ length pages = m
      /\ forall j page, pages !! j = Some page ->
           exists image,
             page = [image]
             /\ x image = left margins
             /\ Pdf.imgWidth image = imgWidth /\ Pdf.imgHeight image = imgHeight
             /\ y image == top margins
                           + (heightLeft - inject_Z (Z.of_nat j) * contentHeight - imgHeight).
Proof.
  induction m as [|m IH]; intros fuel heightLeft pdf Hfuel Hrun Hstop.
  - assert (Hneg : Qge_bool heightLeft 0 = false).
    { apply Qge_bool_false. rewrite inject_zero in Hstop. lra. }
    exists []. destruct fuel; simpl; rewrite Hneg, app_nil_r.
    all: split; [reflexivity|]; split; [reflexivity|]; intros j page Hj; discriminate.
  - assert (Hpos : Qge_bool heightLeft 0 = true).
    { apply Qge_bool_true. specialize (Hrun 0%nat ltac:(lia)).
      rewrite inject_zero in Hrun. lra. }
    destruct fuel as [|fuel]; [lia|].
    cbn [additionalPages]. rewrite Hpos. cbv zeta. rewrite addImage_addPage.
    destruct (IH fuel (heightLeft - contentHeight)
                 (pdf ++ [[mkImage (left margins) (top margins + (heightLeft - imgHeight))
                                   imgWidth imgHeight]])%list)
      as (pages & E & Hlen & Hpages).
    + lia.
    + intros j Hj. specialize (Hrun (S j) ltac:(lia)).
      rewrite inject_succ in Hrun. lra.
    + rewrite inject_succ in Hstop. lra.
    + eexists (_ :: pages). split; [rewrite E, <- app_assoc; reflexivity|].
      split; [simpl; now rewrite Hlen|].
      intros [|j] page Hj; simpl in Hj.
      * injection Hj as <-. eexists. split; [reflexivity|]. cbn [x y Pdf.imgWidth Pdf.imgHeight].
        repeat split; try reflexivity. rewrite inject_zero. ring.
      * destruct (Hpages j page Hj) as (image & -> & Hx & Hw & Hh & Hy).
        exists image. split; [reflexivity|]. repeat split; try assumption.
        rewrite Hy, inject_succ. ring.
Qed.

Lemma additionalPages_forever (margins : Margins) (imgWidth imgHeight contentHeight : Q)
    (fuel : nat) :
  contentHeight <= 0 ->
  forall (heightLeft : Q) (pdf : Document),
    0 <= heightLeft ->
    additionalPages fuel margins imgWidth imgHeight contentHeight heightLeft pdf = None.
Proof.
  intros Hc. induction fuel as [|fuel IH]; intros heightLeft pdf Hh; simpl.
  - assert (E : Qge_bool heightLeft 0 = true) by now apply Qge_bool_true.
    now rewrite E.
  - assert (E : Qge_bool heightLeft 0 = true) by now apply Qge_bool_true.
    rewrite E. apply IH. lra.
Qed.

(** X25. [generateMultiPagePdf] draws the full-width image once per page,
    each page shifted up by one content height: with image height [h] and
    content height [c] it makes [floor(h / c) + 1] pages, so an image
    that fills its last page exactly is followed by one more page. *)
Theorem generateMultiPagePdf_pages
    (fuel : nat) (loaded : nat -> bool) (canvas : Canvas) (options : PDFOptions) :
  let size := pageSize (default portrait (orientation options))
                       (default a4 (format options)) in
  let margins := default defaultMargins (margins options) in
  let contentWidth := getWidth size - left margins - right margins in
  let contentHeight := getHeight size - top margins - bottom margins in
  let h := contentWidth / (width canvas / height canvas) in
  let more := Z.to_nat (Qfloor (h / contentHeight)) in
  is_Some (waitForLibraries loaded) ->
  0 < width canvas -> 0 < height canvas ->
  0 < contentWidth -> 0 < contentHeight ->
  (more <= fuel)%nat ->
  exists pdf,
    generateMultiPagePdf today pageSize fuel loaded (Some canvas) options
    = Some (Saved ("MultiPage_" ++ today ++ ".pdf") pdf)
    /\ length pdf = S more
    /\ forall k page, pdf !! k = Some page ->
         exists image,
           page = [image]
           /\ x image = left margins
           /\ imgWidth image = contentWidth /\ imgHeight image = h
           /\ y image == top margins - inject_Z (Z.of_nat k) * contentHeight.
Proof.
  cbv zeta. intros [n Hn] HW HH Hcw Hch Hfuel.
  set (size := pageSize (default portrait (orientation options))
                        (default a4 (format options))) in *.
  set (margins := default defaultMargins (Pdf.margins options)) in *.
  set (cw := getWidth size - left margins - right margins) in *.
  set (c := getHeight size - top margins - bottom margins) in *.
  set (h := cw / (width canvas / height canvas)) in *.
  set (more := Z.to_nat (Qfloor (h / c))) in *.
  assert (Hr : 0 < width canvas / height canvas) by (apply Qlt_shift_div_l; lra).
  assert (Hh : 0 < h) by (unfold h; apply Qlt_shift_div_l; lra).
  assert (Hq : 0 <= h / c) by (apply Qle_shift_div_l; lra).
  assert (Hfl : (0 <= Qfloor (h / c))%Z).
  { change 0%Z with (Qfloor 0). now apply Qfloor_resp_le. }
  assert (Hmore : inject_Z (Z.of_nat more) == inject_Z (Qfloor (h / c))).
  { unfold more. now rewrite Z2Nat.id. }
  assert (Hlo : inject_Z (Z.of_nat more) * c <= h).
  { rewrite Hmore. pose proof (Qfloor_le (h / c)) as Hle.
    apply (Qmult_le_compat_r _ _ c) in Hle; [|lra].
    assert (E : h / c * c == h) by (field; lra). lra. }
  assert (Hhi : h < (inject_Z (Z.of_nat more) + 1) * c).
  { rewrite Hmore. pose proof (Qlt_floor (h / c)) as Hlt.
    rewrite inject_Z_plus in Hlt. change (inject_Z 1) with 1 in Hlt.
    apply (Qmult_lt_compat_r _ _ c) in Hlt; [|lra].
    assert (E : h / c * c == h) by (field; lra). lra. }
  unfold generateMultiPagePdf. rewrite Hn. cbv zeta.
  fold size. fold margins. fold cw. fold c. fold h.
  destruct (additionalPages_run margins cw h c more fuel (h - c)
              (addImage (mkImage (left margins) (top margins + 0) cw h) newDocument)
              Hfuel)
    as (pages & E & Hlen & Hpages).
  - intros j Hj.
    assert (Hj' : inject_Z (Z.of_nat j) + 1 <= inject_Z (Z.of_nat more)).
    { rewrite <- (inject_Z_plus _ 1). rewrite <- Zle_Qle. lia. }
    assert (Hjc : (inject_Z (Z.of_nat j) + 1) * c <= inject_Z (Z.of_nat more) * c)
      by (apply Qmult_le_compat_r; lra).
    lra.
  - lra.
  - rewrite E. simpl. eexists. split; [reflexivity|].
    split; [simpl; now rewrite Hlen|].
    intros [|k] page Hk; simpl in Hk.
    + injection Hk as <-. eexists. split; [reflexivity|].
      cbn [x y imgWidth imgHeight].
      repeat split; try reflexivity. rewrite inject_zero. ring.
    + destruct (Hpages k page Hk) as (image & -> & Hx & Hw & Hhh & Hy).
      exists image. split; [reflexivity|]. repeat split; try assumption.
      rewrite Hy, inject_succ. ring.
Qed.

(** X26. With margins that leave no content height the loop of
    [generateMultiPagePdf] never ends: whatever the fuel, the model runs
    out of it. *)
Theorem generateMultiPagePdf_diverges
    (fuel : nat) (loaded : nat -> bool) (canvas : Canvas) (options : PDFOptions) :
  let size := pageSize (default portrait (orientation options))
                       (default a4 (format options)) in
  let margins := default defaultMargins (margins options) in
  let contentWidth := getWidth size - left margins - right margins in
  let contentHeight := getHeight size - top margins - bottom margins in
  is_Some (waitForLibraries loaded) ->
  0 < width canvas -> 0 < height canvas ->
  0 <= contentWidth -> contentHeight <= 0 ->
  generateMultiPagePdf today pageSize fuel loaded (Some canvas) options = None.
Proof.
  cbv zeta. intros [n Hn] HW HH Hcw Hch.
  unfold generateMultiPagePdf. rewrite Hn. cbv zeta.
  rewrite additionalPages_forever; [reflexivity | exact Hch |].
  assert (Hr : 0 < width canvas / height canvas) by (apply Qlt_shift_div_l; lra).
  assert (Hh : 0 <= (getWidth (pageSize (default portrait (orientation options))
                                        (default a4 (format options)))
                     - left (default defaultMargins (margins options))
                     - right (default defaultMargins (margins options)))
                    / (width canvas / height canvas))
    by (apply Qle_shift_div_l; lra).
  lra.
Qed.


End Service.
End PdfFacts.

(** ** The payment form and the server *)

Module FormFacts.
Import Form.

Lemma orZero_Some (q : Q) : orZero (Some q) == q.
Proof. apply (orZero_eq (Some q)). Qed.

Lemma calculatedTdsAmount_eq (payment : PaymentState) :
  tdsApplicable payment = true ->
  calculatedTdsAmount payment == amount payment * tdsRate payment / 100.
Proof.
  intros Ha. unfold calculatedTdsAmount, tdsRateOf, grossAmount. rewrite Ha.
  rewrite !orZero_Some. field.
Qed.

(** X28. What the form sends. Without TDS the amount entered goes out as
    it is. With TDS on a Receipt the amount sent is the amount entered
    less the TDS, and the TDS goes with it, so the two add up to the
    amount entered. With the TDS box ticked on a payment that is not a
    Receipt the TDS keys are removed but the amount sent is still the
    amount entered less the TDS. *)
Theorem paymentToSave_amounts (payment : PaymentState) :
  let body := paymentToSave payment in
  (tdsApplicable payment = false ->
   exists sent, Validation.raw_amount body = Validation.JNumber sent
                /\ sent == amount payment
                /\ Validation.raw_tdsApplicable body = Validation.JUndefined
                /\ Validation.raw_tdsAmount body = Validation.JUndefined)
  /\ (tdsApplicable payment = true -> type payment = RECEIPT ->
      exists sent tds,
        Validation.raw_amount body = Validation.JNumber sent
        /\ Validation.raw_tdsAmount body = Validation.JNumber tds
        /\ Validation.raw_tdsRate body = Validation.JNumber (tdsRate payment)
        /\ Validation.raw_tdsApplicable body = Validation.JBool true
        /\ tds == amount payment * tdsRate payment / 100
        /\ sent + tds == amount payment)
  /\ (tdsApplicable payment = true -> type payment <> RECEIPT ->
      exists sent,
        Validation.raw_amount body = Validation.JNumber sent
        /\ sent == amount payment - amount payment * tdsRate payment / 100
        /\ Validation.raw_tdsApplicable body = Validation.JUndefined
        /\ Validation.raw_tdsRate body = Validation.JUndefined
        /\ Validation.raw_tdsAmount body = Validation.JUndefined
        /\ Validation.raw_tdsDate body = Validation.JUndefined).
Proof.
  cbv zeta. unfold paymentToSave. cbn [Validation.raw_amount Validation.raw_tdsApplicable
    Validation.raw_tdsAmount Validation.raw_tdsRate Validation.raw_tdsDate].
  split; [|split].
  - intros Ha. rewrite Ha. cbn [andb]. eexists. split; [reflexivity|].
    split; [|auto]. unfold netAmount, calculatedTdsAmount, grossAmount. rewrite Ha.
    rewrite orZero_Some. ring.
  - intros Ha Hr. rewrite Ha, Hr. cbn [andb isReceipt]. eexists _, _.
    split; [reflexivity|]. split; [reflexivity|]. split; [reflexivity|].
    split; [reflexivity|]. split; [now apply calculatedTdsAmount_eq|].
    unfold netAmount, grossAmount. rewrite orZero_Some. ring.
  - intros Ha Hr. rewrite Ha.
    assert (E : isReceipt (type payment) = false).
    { unfold isReceipt. now apply bool_decide_eq_false_2. }
    rewrite E. cbn [andb]. eexists. split; [reflexivity|]. split; [|auto].
    unfold netAmount. rewrite (calculatedTdsAmount_eq payment Ha).
    unfold grossAmount. rewrite orZero_Some. reflexivity.
Qed.

(** X29. A Receipt with TDS entered in the form against a note, read by
    the server: the schema accepts it for a rate below 100 and the TDS
    block of [createPayment] stores the net amount and the TDS the form
    computed, which add up to the amount entered; at a rate of 100 the net
    amount is 0 and the schema refuses the body. *)
Theorem paymentToSave_on_server (payment : PaymentState) (thnId : string) :
  tdsApplicable payment = true ->
  type payment = RECEIPT ->
  invoiceId payment = None ->
  truckHiringNoteId payment = Some thnId ->
  thnId <> "" ->
  date payment <> "" ->
  0 < amount payment ->
  0 <= tdsRate payment ->
  tdsRate payment <= 100 ->
  (tdsRate payment < 100 ->
   exists data net tds tdsDate,
     Validation.createPaymentSchema (paymentToSave payment) = Some data
     /\ Backend.handleTds data = inr (net, Some tds, Some (tdsRate payment), Some tdsDate)
     /\ tds == amount payment * tdsRate payment / 100
     /\ net + tds == amount payment
     /\ 0 < net)
  /\ (tdsRate payment == 100 ->
      Validation.createPaymentSchema (paymentToSave payment) = None).
Proof.
  intros Ha Hr Hinv Hthn Hne Hd Hpos H0 H100.
  assert (Hcalc := calculatedTdsAmount_eq payment Ha).
  assert (Hnet : netAmount payment == amount payment - calculatedTdsAmount payment).
  { unfold netAmount, grossAmount. rewrite orZero_Some. reflexivity. }
  assert (Hprod : amount payment * tdsRate payment / 100
                  == amount payment * (tdsRate payment / 100)) by field.
  assert (Hdate : (1 <=? String.length (date payment))%nat = true).
  { destruct (date payment); [congruence | reflexivity]. }
  assert (Htype : parsePaymentType (PaymentType_str (type payment)) = Some (type payment)).
  { destruct (type payment); reflexivity. }
  assert (Hmode : parsePaymentMode (PaymentMode_str (mode payment)) = Some (mode payment)).
  { destruct (mode payment); reflexivity. }
  assert (Hrate : Qle_bool 0 (tdsRate payment) && Qle_bool (tdsRate payment) 100 = true).
  { apply andb_true_iff. split; now apply Qle_bool_iff. }
  assert (Htds0 : 0 <= calculatedTdsAmount payment).
  { rewrite Hcalc, Hprod. apply Qmult_le_0_compat; [lra|].
    apply Qle_shift_div_l; lra. }
  assert (Htds : Qle_bool 0 (calculatedTdsAmount payment) = true)
    by now apply Qle_bool_iff.
  split.
  - intros Hlt.
    assert (Hnetpos : 0 < netAmount payment).
    { rewrite Hnet, Hcalc, Hprod.
      assert (amount payment * (tdsRate payment / 100) < amount payment * 1).
      { apply Qmult_lt_l; [exact Hpos|]. apply Qlt_shift_div_r; lra. }
      lra. }
    assert (Hg : gtb0 (netAmount payment) = true) by now apply gtb0_true.
    unfold Validation.createPaymentSchema, Validation.paymentObject, paymentToSave.
    assert (Hrec : isReceipt (type payment) = true) by (rewrite Hr; reflexivity).
    rewrite Ha, Hrec, Hinv, Hthn. cbn [andb jsonOfOption].
    cbn [Validation.raw_invoiceId Validation.raw_truckHiringNoteId Validation.raw_customer
         Validation.raw_amount Validation.raw_date Validation.raw_type Validation.raw_mode
         Validation.raw_referenceNo Validation.raw_notes Validation.raw_tdsApplicable
         Validation.raw_tdsRate Validation.raw_tdsAmount Validation.raw_tdsDate
         Validation.z_string_optional Validation.z_number_positive Validation.z_string_min1
         Validation.z_nativeEnum Validation.z_boolean_optional
         Validation.z_number_0_100_optional Validation.z_number_nonnegative_optional].
    rewrite Hg, Hdate, Htype, Hmode, Hrate, Htds.
    destruct (customer payment) as [c|]; cbn [jsonOfOption Validation.z_string_optional];
      cbn [mbind option_bind].
    all: assert (Href : forall data,
           Validation.invoiceId data = None ->
           Validation.truckHiringNoteId data = Some thnId ->
           Validation.tdsApplicable data = Some true ->
           Validation.type data = RECEIPT ->
           is_Some (Validation.tdsRate data) ->
           Validation.refineReference data && Validation.refineCustomer data
           && Validation.refineTdsReceipt data && Validation.refineTdsRate data = true)
      by (intros data Di Dt Da Dty [r Dr];
          unfold Validation.refineReference, Validation.refineCustomer,
            Validation.refineTdsReceipt, Validation.refineTdsRate;
          rewrite Di, Dt, Da, Dty, Dr; destruct thnId; [congruence | reflexivity]).
    all: rewrite Href by (cbn; eauto).
    all: eexists _, _, _, _; split; [reflexivity|].
    all: unfold Backend.handleTds; cbn [Validation.tdsApplicable Validation.type
           Validation.tdsRate Validation.tdsAmount Validation.amount Validation.tdsDate
           Validation.date]; rewrite Hr; cbn.
    all: split; [reflexivity|]; split; [exact Hcalc|]; split; [rewrite Hnet; ring | exact Hnetpos].
  - intros E100.
    assert (Hnet0 : netAmount payment == 0).
    { rewrite Hnet, Hcalc, E100. field. }
    assert (Hg : gtb0 (netAmount payment) = false).
    { apply not_true_iff_false. intros Hg. apply gtb0_true in Hg. lra. }
    unfold Validation.createPaymentSchema, Validation.paymentObject, paymentToSave.
    cbn [Validation.raw_invoiceId Validation.raw_truckHiringNoteId Validation.raw_customer
         Validation.raw_amount Validation.z_number_positive].
    rewrite Hg.
    destruct (invoiceId payment), (truckHiringNoteId payment), (customer payment);
      reflexivity.
Qed.

End FormFacts.

(** ** The handlers on the sample data *)

Module HandlerInstances.
Import Sample Scenarios.

Example showObjectId_ex : HostIds.showObjectId noteOid = noteIdText.
Proof. reflexivity. Qed.

Lemma handleTds_after_schema_witness :
  exists data finalAmount,
    Validation.createPaymentSchema receiptBody = Some data
    /\ (exists tdsAmount tdsRate tdsDate,
          Backend.handleTds data = inr (finalAmount, tdsAmount, tdsRate, tdsDate))
    /\ 0 <= finalAmount /\ finalAmount <= 10000.
Proof.
  destruct (Validation.createPaymentSchema receiptBody) as [data|] eqn:Hs;
    [|vm_compute in Hs; discriminate].
  destruct (PaymentFacts.handleTds_after_schema receiptBody data Hs)
    as (fin & tA & tR & tD & Hh & Hnone & _).
  vm_compute in Hs. injection Hs as <-.
  eexists _, fin. split; [reflexivity|]. split; [eauto|].
  exact (Hnone eq_refl).
Defined.

Lemma createPayment_rejected_witness :
  exists db' response,
    Backend.createPayment Host.castObjectId acceptAll invoicesUntouched
                          paymentEnv neitherBody legacyDb
    = (db', Backend.Ok response)
    /\ Backend.statusCode response = 400%N
    /\ Backend.sameRecords db' legacyDb.
Proof.
  destruct (Backend.createPayment Host.castObjectId acceptAll invoicesUntouched
              paymentEnv neitherBody legacyDb) as [db' [response|e]] eqn:E;
    [|vm_compute in E; discriminate].
  assert (H400 : Backend.statusCode response = 400%N).
  { vm_compute in E. injection E as _ <-. reflexivity. }
  exists db', response. split; [reflexivity|]. split; [exact H400|].
  exact (PaymentFacts.createPayment_rejected Host.castObjectId acceptAll invoicesUntouched
           paymentEnv neitherBody legacyDb db' response E H400).
Defined.

Lemma createPayment_invoice_first_witness :
  exists db' response doc,
    Backend.createPayment Host.castObjectId acceptAll invoicesUntouched
                          paymentEnv bothBody legacyDb
    = (db', Backend.Ok response)
    /\ Backend.statusCode response = 201%N
    /\ Backend.thns db' = Backend.thns legacyDb
    /\ Backend.payments db' = (Backend.payments legacyDb ++ [doc])%list
    /\ Backend.truckHiringNoteId doc = Some noteOid.
Proof.
  destruct (Backend.createPayment Host.castObjectId acceptAll invoicesUntouched
              paymentEnv bothBody legacyDb) as [db' [response|e]] eqn:E;
    [|vm_compute in E; discriminate].
  assert (H201 : Backend.statusCode response = 201%N).
  { vm_compute in E. injection E as _ <-. reflexivity. }
  destruct (Validation.createPaymentSchema bothBody) as [data|] eqn:Hs;
    [|vm_compute in Hs; discriminate].
  assert (Hinv : truthyStr (Validation.invoiceId data) = true).
  { vm_compute in Hs. injection Hs as <-. reflexivity. }
  destruct (PaymentFacts.createPayment_invoice_first Host.castObjectId acceptAll
              invoicesUntouched paymentEnv bothBody data legacyDb db' response
              E H201 Hs Hinv) as (Ht & doc & Hp & Hd & _).
  exists db', response, doc. split; [reflexivity|]. split; [exact H201|].
  split; [exact Ht|]. split; [exact Hp|].
  rewrite Hd. vm_compute in Hs. injection Hs as <-. reflexivity.
Defined.

Lemma createPayment_note_recomputed_witness :
  exists db' response thn',
    Backend.createPayment Host.castObjectId acceptAll invoicesUntouched
                          paymentEnv scenarioReceipt legacyDb
    = (db', Backend.Ok response)
    /\ Backend.statusCode response = 201%N
    /\ Backend.thns db' = <[noteOid := thn']> (Backend.thns legacyDb)
    /\ Backend.Reconciled thn'
    /\ Backend.thnPayments thn' = [163%N].
Proof.
  destruct (Backend.createPayment Host.castObjectId acceptAll invoicesUntouched
              paymentEnv scenarioReceipt legacyDb) as [db' [response|e]] eqn:E;
    [|vm_compute in E; discriminate].
  assert (H201 : Backend.statusCode response = 201%N).
  { vm_compute in E. injection E as _ <-. reflexivity. }
  destruct (Validation.createPaymentSchema scenarioReceipt) as [data|] eqn:Hs;
    [|vm_compute in Hs; discriminate].
  assert (Hd : data = Validation.mkPaymentData None (Some noteIdText) None 6500
                        "2025-01-10" RECEIPT CASH None None None None None None).
  { vm_compute in Hs. injection Hs as <-. reflexivity. }
  destruct (PaymentFacts.createPayment_note_recomputed Host.castObjectId acceptAll
              invoicesUntouched paymentEnv scenarioReceipt data legacyDb db' response
              noteIdText noteOid legacyNote E H201 Hs)
    as (doc & thn' & _ & _ & _ & Ht & Hl & Hr & _);
    [rewrite Hd; reflexivity | rewrite Hd; reflexivity | discriminate
    | reflexivity | reflexivity |].
  exists db', response, thn'. split; [reflexivity|]. split; [exact H201|].
  split; [exact Ht|]. split; [exact Hr|]. exact Hl.
Defined.

(** The advance payment cannot be written: the note stands with 5000 paid
    all the same, before and after the recompute. *)
Lemma createTruckHiringNote_settled_witness :
  exists db1 response note,
    Backend.createTruckHiringNote rejectAll acceptAll noteEnv noteData emptyDb
    = (db1, Backend.Ok response)
    /\ Backend.payments db1 = []
    /\ Backend.thns db1 !! noteOid = Some note
    /\ Backend.paidAmount note == 5000
    /\ exists db2 note',
         Backend.updateThnStatus Host.castObjectId noteIdText db1 = (db2, Backend.Ok tt)
         /\ Backend.thns db2 !! noteOid = Some note'
         /\ Backend.paidAmount note' == 5000.
Proof.
  destruct (NoteFacts.createTruckHiringNote_settled Host.castObjectId rejectAll acceptAll
              noteEnv noteData emptyDb (fun _ => eq_refl) (List.Forall_nil _))
    as (db1 & response & note & E & _ & Hl & _ & Hpaid & _ & Hre).
  exists db1, response, note. split; [exact E|].
  split; [vm_compute in E; injection E as <- _; reflexivity|].
  split; [exact Hl|]. split; [exact Hpaid|].
  destruct (Hre noteIdText eq_refl) as (db2 & note' & E2 & Hl2 & Hp2 & _).
  exists db2, note'. split; [exact E2|]. split; [exact Hl2|].
  rewrite Hp2. exact Hpaid.
Defined.

Lemma createTruckHiringNote_rejected_witness :
  exists db' response,
    Backend.createTruckHiringNote acceptAll rejectAll noteEnv noteData numberedDb
    = (db', Backend.Ok response)
    /\ Backend.statusCode response = 400%N
    /\ Backend.thns db' = ∅
    /\ Backend.numbering db' !! "truckHiringNoteId" = Some 9%N.
Proof.
  destruct (Backend.createTruckHiringNote acceptAll rejectAll noteEnv noteData numberedDb)
    as [db' [response|e]] eqn:E; [|vm_compute in E; discriminate].
  assert (Hno : Backend.statusCode response <> 201%N).
  { vm_compute in E. injection E as _ <-. discriminate. }
  destruct (NoteFacts.createTruckHiringNote_rejected acceptAll rejectAll noteEnv noteData
              numberedDb db' response E Hno) as (-> & Ht & _ & _ & Hn).
  eexists db', _. split; [reflexivity|]. split; [reflexivity|]. split; [exact Ht|].
  rewrite (Hn 8%N eq_refl). reflexivity.
Defined.

Lemma deletePayment_note_witness :
  exists db' thn',
    Handlers.deletePayment Host.castObjectId HostIds.showObjectId invoicesUntouched
                           "000000000000000000000002" settledDb
    = (db', Backend.Ok (Handlers.Json "Deleted Payment"))
    /\ Backend.payments db' = [advancePaid]
    /\ Backend.thns db' !! noteOid = Some thn'
    /\ Backend.Reconciled thn'
    /\ Backend.paidAmount thn' == 2000.
Proof.
  destruct (HandlerFacts.deletePayment_note Host.castObjectId HostIds.showObjectId
              invoicesUntouched "000000000000000000000002" 2%N noteOid cashReceipt
              legacyNote settledDb eq_refl eq_refl eq_refl eq_refl eq_refl eq_refl)
    as (db' & thn' & E & Hp & _ & _ & Ht & _ & Hr & Hpaid & _).
  exists db', thn'. split; [exact E|]. split; [rewrite Hp; reflexivity|].
  split; [rewrite Ht; apply lookup_insert_eq|]. split; [exact Hr|].
  rewrite Hpaid, Hp. reflexivity.
Defined.

Lemma deletePayment_advance_stays_witness :
  exists db' thn',
    Handlers.deletePayment Host.castObjectId HostIds.showObjectId invoicesUntouched
                           "000000000000000000000003" settledDb
    = (db', Backend.Ok (Handlers.Json "Deleted Payment"))
    /\ Backend.thns db' !! noteOid = Some thn'
    /\ Backend.paidAmount thn' == 5000.
Proof.
  destruct (HandlerFacts.deletePayment_advance_stays Host.castObjectId
              HostIds.showObjectId invoicesUntouched "000000000000000000000003"
              3%N noteOid advancePaid legacyNote settledDb
              eq_refl eq_refl eq_refl eq_refl eq_refl eq_refl)
    as (db' & thn' & E & Hl & _ & _ & Hpaid).
  - repeat constructor; simpl; intuition discriminate.
  - reflexivity.
  - reflexivity.
  - intros q [<-|[<-|[]]] _ Hty; [reflexivity | discriminate].
  - exists db', thn'. split; [exact E|]. split; [exact Hl|].
    rewrite Hpaid. reflexivity.
Defined.

Lemma getTruckHiringNotes_reconciled_witness :
  exists db' note,
    Handlers.getTruckHiringNotes Host.castObjectId HostIds.showObjectId legacyDb
    = (db', Backend.Ok [(noteOid, note)])
    /\ Backend.Reconciled note.
Proof.
  destruct (HandlerFacts.getTruckHiringNotes_reconciled Host.castObjectId
              HostIds.showObjectId legacyDb)
    as (db' & notes & E & _ & _ & _ & _ & Hall).
  { intros oid [thn Hl]. unfold legacyDb in Hl. cbn [Backend.thns] in Hl.
    apply lookup_singleton_Some in Hl as [<- _]. reflexivity. }
  assert (Hn : exists note, notes = [(noteOid, note)]).
  { vm_compute in E. injection E as _ <-. eauto. }
  destruct Hn as [note ->]. exists db', note. split; [exact E|].
  now apply List.Forall_inv in Hall.
Defined.

Lemma single_note_reads_agree_witness :
  (Handlers.getTruckHiringNoteById Host.castObjectId noteIdText legacyDb).2
  = (Handlers.recalculateThnStatus Host.castObjectId noteIdText legacyDb).2
  /\ exists thn',
       (Handlers.getTruckHiringNoteById Host.castObjectId noteIdText legacyDb).2
       = Backend.Ok (Handlers.Json thn')
       /\ Backend.Reconciled thn'.
Proof.
  destruct (HandlerFacts.single_note_reads_agree Host.castObjectId noteIdText legacyDb)
    as (Hsame & _ & Hfound & _).
  split; [exact Hsame|].
  destruct (Hfound noteOid legacyNote eq_refl eq_refl) as (thn' & E & _ & Hr).
  eauto.
Defined.

Lemma deleteTruckHiringNote_cascade_witness :
  exists db',
    Handlers.deleteTruckHiringNote Host.castObjectId noteIdText settledDb
    = (db', Backend.Ok (Handlers.Json "Truck Hiring Note deleted successfully"))
    /\ Backend.thns db' = delete noteOid (Backend.thns settledDb)
    /\ ~ In cashReceipt (Backend.payments db').
Proof.
  destruct (proj1 (HandlerFacts.deleteTruckHiringNote_cascade Host.castObjectId
                     noteIdText noteOid settledDb eq_refl))
    as (db' & E & Ht & Hp & _).
  { eexists. reflexivity. }
  exists db'. split; [exact E|]. split; [exact Ht|].
  intros Hin. apply Hp in Hin as [_ Hn]. apply Hn. reflexivity.
Defined.

Lemma createPayment_deletePayment_witness :
  exists db1 response db2,
    Backend.createPayment Host.castObjectId acceptAll invoicesUntouched
                          paymentEnv scenarioReceipt legacyDb
    = (db1, Backend.Ok response)
    /\ Handlers.deletePayment Host.castObjectId HostIds.showObjectId invoicesUntouched
                              "0000000000000000000000a3" db1
       = (db2, Backend.Ok (Handlers.Json "Deleted Payment"))
    /\ Backend.payments db2 = Backend.payments legacyDb
    /\ Backend.thns db2
       = Backend.thns (Backend.updateThnStatus Host.castObjectId noteIdText legacyDb).1.
Proof.
  destruct (Backend.createPayment Host.castObjectId acceptAll invoicesUntouched
              paymentEnv scenarioReceipt legacyDb) as [db1 [response|e]] eqn:E;
    [|vm_compute in E; discriminate].
  assert (H201 : Backend.statusCode response = 201%N).
  { vm_compute in E. injection E as _ <-. reflexivity. }
  destruct (Validation.createPaymentSchema scenarioReceipt) as [data|] eqn:Hs;
    [|vm_compute in Hs; discriminate].
  assert (Hd : data = Validation.mkPaymentData None (Some noteIdText) None 6500
                        "2025-01-10" RECEIPT CASH None None None None None None).
  { vm_compute in Hs. injection Hs as <-. reflexivity. }
  destruct (HandlerFacts.createPayment_deletePayment Host.castObjectId
              HostIds.showObjectId acceptAll invoicesUntouched paymentEnv scenarioReceipt
              data legacyDb db1 response noteIdText "0000000000000000000000a3"
              noteOid legacyNote E H201 Hs)
    as (db2 & E2 & Hp & _ & Ht);
    [rewrite Hd; reflexivity | rewrite Hd; reflexivity | discriminate
    | reflexivity | reflexivity | reflexivity | reflexivity
    | repeat constructor; discriminate | intros [] |].
  exists db1, response, db2. auto.
Defined.

End HandlerInstances.

(** ** Updates of the sample note *)

Module UpdateInstances.
Import Sample Scenarios UpdateSample.

Lemma updateTruckHiringNote_reconciled_witness :
  exists db' note',
    NoteUpdate.updateTruckHiringNote Host.castObjectId acceptAll paymentEnv noteIdText
                                     newFreight settledDb
    = (db', Backend.Ok (Handlers.Json note'))
    /\ Backend.Reconciled note'
    /\ Backend.freightRate note' = 12000.
Proof.
  destruct (NoteUpdateFacts.updateTruckHiringNote_reconciled Host.castObjectId acceptAll
              paymentEnv noteIdText noteOid newFreight legacyNote settledDb
              eq_refl eq_refl)
    as (db' & note' & E & _ & Hr & Hf & _).
  - right. left. eexists. reflexivity.
  - exists db', note'. auto.
Defined.

Lemma updateTruckHiringNote_advance_changed_witness :
  exists db' note',
    NoteUpdate.updateTruckHiringNote Host.castObjectId acceptAll paymentEnv noteIdText
                                     (advanceTo 2500) settledDb
    = (db', Backend.Ok (Handlers.Json note'))
    /\ Backend.paidAmount note' == 5500.
Proof.
  destruct (NoteUpdateFacts.updateTruckHiringNote_advance_changed Host.castObjectId
              acceptAll paymentEnv noteIdText noteOid (advanceTo 2500) legacyNote
              settledDb 2500 2000 advancePaid eq_refl eq_refl eq_refl eq_refl)
    as (db' & note' & E & _ & _ & _ & _ & Hpaid & _).
  - intros H. vm_compute in H. discriminate.
  - reflexivity.
  - reflexivity.
  - repeat constructor; simpl; intuition discriminate.
  - exists db', note'. split; [exact E|]. rewrite Hpaid. reflexivity.
Defined.

Lemma updateTruckHiringNote_advance_removed_witness :
  exists db' note',
    NoteUpdate.updateTruckHiringNote Host.castObjectId acceptAll paymentEnv noteIdText
                                     (advanceTo 0) settledDb
    = (db', Backend.Ok (Handlers.Json note'))
    /\ Backend.payments db' = [cashReceipt]
    /\ Backend.paidAmount note' == 3000.
Proof.
  destruct (NoteUpdateFacts.updateTruckHiringNote_advance_removed Host.castObjectId
              acceptAll paymentEnv noteIdText noteOid (advanceTo 0) legacyNote
              settledDb 0 2000 advancePaid eq_refl eq_refl eq_refl eq_refl)
    as (db' & note' & E & _ & Hp & _ & _ & _ & Hpaid & _).
  - reflexivity.
  - intros H. vm_compute in H. discriminate.
  - reflexivity.
  - repeat constructor; simpl; intuition discriminate.
  - exists db', note'. split; [exact E|]. split; [rewrite Hp; reflexivity|].
    rewrite Hpaid. reflexivity.
Defined.

(** The legacy note with its hand-entered advance of 1000: raising the
    advance to 2500 makes 3500 paid. *)
Lemma updateTruckHiringNote_advance_created_witness :
  exists db' created stored,
    NoteUpdate.updateTruckHiringNote Host.castObjectId acceptAll paymentEnv noteIdText
                                     (advanceTo 2500) legacyDb
    = (db', Backend.Ok (Handlers.Json stored))
    /\ Backend.payments db' = [manualAdvance; created]
    /\ Backend.paidAmount stored == 3500.
Proof.
  destruct (NoteUpdateFacts.updateTruckHiringNote_advance_created Host.castObjectId
              acceptAll paymentEnv noteIdText noteOid (advanceTo 2500) legacyNote
              legacyDb 2500 eq_refl eq_refl eq_refl eq_refl)
    as (db' & created & stored & E & _ & Hp & _ & _ & _ & _ & _ & _ & Hpaid & _).
  - reflexivity.
  - reflexivity.
  - intros p. reflexivity.
  - exists db', created, stored. split; [exact E|]. split; [exact Hp|].
    rewrite Hpaid. reflexivity.
Defined.

Lemma createTruckHiringNote_then_update_witness :
  exists db1 db2 response note' adv,
    Backend.createTruckHiringNote acceptAll acceptAll noteEnv noteData emptyDb
    = (db1, Backend.Ok response)
    /\ NoteUpdate.updateTruckHiringNote Host.castObjectId acceptAll paymentEnv noteIdText
                                        (advanceTo 3000) db1
       = (db2, Backend.Ok (Handlers.Json note'))
    /\ Backend.payments db2 = [adv]
    /\ Backend.amount adv = 3000
    /\ Backend.paidAmount note' == 3000.
Proof.
  destruct (NoteUpdateFacts.createTruckHiringNote_then_update Host.castObjectId
              acceptAll acceptAll noteEnv noteData paymentEnv noteIdText (advanceTo 3000)
              emptyDb 3000)
    as (db1 & db2 & response & note' & adv & E1 & E2 & _ & Hf & _ & Ha & _ & Hpaid & _).
  - reflexivity.
  - intros note. reflexivity.
  - intros p. reflexivity.
  - constructor.
  - constructor.
  - constructor.
  - reflexivity.
  - reflexivity.
  - intros H. vm_compute in H. discriminate.
  - reflexivity.
  - exists db1, db2, response, note', adv. split; [exact E1|]. split; [exact E2|].
    split; [|split; [exact Ha | exact Hpaid]].
    vm_compute in E1. injection E1 as <- _.
    vm_compute in E2. injection E2 as <- _.
    vm_compute in Hf. vm_compute. exact Hf.
Defined.

End UpdateInstances.

(** ** Ledgers, PDF service and form on the sample data *)

Module MoreInstances.
Import Sample PdfSample.


Lemma company_closing_witness :
  let ledger := Ledger.generateCompanyLedger Host.parseDate Host.isoDate clock [acme]
                  [invoiceJan] [paymentJan; tdsReceipt] [] (Some january) in
  exists e, last (Ledger.transactions ledger) = Some e
            /\ Ledger.balance e == 2000 /\ Ledger.balanceType e = Ledger.CR.
Proof.
  cbv zeta.
  destruct (last (Ledger.transactions
                    (Ledger.generateCompanyLedger Host.parseDate Host.isoDate clock [acme]
                       [invoiceJan] [paymentJan; tdsReceipt] [] (Some january))))
    as [e|] eqn:He; [|vm_compute in He; discriminate].
  destruct (SummaryFacts.company_closing Host.parseDate Host.isoDate clock [acme]
              [invoiceJan] [paymentJan; tdsReceipt] [] (Some january))
    as (_ & _ & Hlast).
  destruct (Hlast e He) as (Hb & _ & Hcr).
  exists e. split; [reflexivity|]. split.
  - rewrite Hb. reflexivity.
  - apply Hcr. reflexivity.
Defined.

Lemma waitForLibraries_spec_witness :
  exists n, Pdf.waitForLibraries loadedAtThird = Some n
            /\ loadedAtThird n = true /\ (n <= 50)%nat.
Proof.
  pose proof (PdfFacts.waitForLibraries_spec loadedAtThird) as Hspec.
  destruct (Pdf.waitForLibraries loadedAtThird) as [n|] eqn:E;
    [|vm_compute in E; discriminate].
  destruct Hspec as (Hn & Hl & _). exists n. split; [reflexivity|]. split; [exact Hl | lia].
Defined.

Lemma generatePdf_fileName_witness :
  exists pdf,
    Pdf.generateDocumentPdf today pageSize loadedAtThird (Some wideCanvas)
                            Pdf.invoice (Pdf.Number 42) (Some "2025-01-31")
    = Pdf.Saved "Document_2025-02-01.pdf" pdf.
Proof.
  destruct (Pdf.generateDocumentPdf today pageSize loadedAtThird (Some wideCanvas)
              Pdf.invoice (Pdf.Number 42) (Some "2025-01-31")) as [| |name pdf] eqn:E;
    try (vm_compute in E; discriminate).
  exists pdf. f_equal.
  exact (proj2 (proj2 (PdfFacts.generatePdf_fileName today pageSize))
               loadedAtThird (Some wideCanvas) Pdf.invoice (Pdf.Number 42)
               (Some "2025-01-31") name pdf E).
Defined.

Lemma generatePdf_fits_witness :
  exists name image,
    Pdf.generatePdf today pageSize loadedAtThird (Some tallCanvas) plainOptions
    = Pdf.Saved name [[image]]
    /\ Pdf.imgHeight image == 80189 # 100.
Proof.
  destruct (PdfFacts.generatePdf_fits today pageSize loadedAtThird tallCanvas plainOptions)
    as (name & image & E & _ & _ & _ & _ & _ & _ & _ & _ & _ & _).
  - eexists. reflexivity.
  - reflexivity.
  - reflexivity.
  - reflexivity.
  - reflexivity.
  - exists name, image. split; [exact E|].
    vm_compute in E. injection E as _ <-. reflexivity.
Defined.

Lemma generateMultiPagePdf_pages_witness :
  exists pdf,
    Pdf.generateMultiPagePdf today pageSize 10 loadedAtThird (Some tallCanvas) plainOptions
    = Some (Pdf.Saved "MultiPage_2025-02-01.pdf" pdf)
    /\ length pdf = 3%nat.
Proof.
  destruct (PdfFacts.generateMultiPagePdf_pages today pageSize 10 loadedAtThird
              tallCanvas plainOptions) as (pdf & E & Hlen & _).
  - eexists. reflexivity.
  - reflexivity.
  - reflexivity.
  - reflexivity.
  - reflexivity.
  - apply Nat.leb_le. vm_compute. reflexivity.
  - exists pdf. split; [exact E|]. rewrite Hlen. vm_compute. reflexivity.
Defined.

Lemma generateMultiPagePdf_diverges_witness :
  Pdf.generateMultiPagePdf today pageSize 1000 loadedAtThird (Some tallCanvas) noRoom
  = None.
Proof.
  apply (PdfFacts.generateMultiPagePdf_diverges today pageSize 1000 loadedAtThird
           tallCanvas noRoom).
  - eexists. reflexivity.
  - reflexivity.
  - reflexivity.
  - vm_compute. discriminate.
  - vm_compute. discriminate.
Defined.


Lemma paymentToSave_amounts_witness :
  (exists sent tds,
     Validation.raw_amount (Form.paymentToSave tdsEntry) = Validation.JNumber sent
     /\ Validation.raw_tdsAmount (Form.paymentToSave tdsEntry) = Validation.JNumber tds
     /\ sent + tds == 10000)
  /\ (exists sent,
        Validation.raw_amount (Form.paymentToSave advanceEntry) = Validation.JNumber sent
        /\ sent == 9000
        /\ Validation.raw_tdsAmount (Form.paymentToSave advanceEntry)
           = Validation.JUndefined).
Proof.
  split.
  - destruct (proj1 (proj2 (FormFacts.paymentToSave_amounts tdsEntry)) eq_refl eq_refl)
      as (sent & tds & Es & Et & _ & _ & _ & Hsum).
    exists sent, tds. auto.
  - destruct (proj2 (proj2 (FormFacts.paymentToSave_amounts advanceEntry)) eq_refl)
      as (sent & Es & Hs & _ & _ & Ht & _); [discriminate|].
    exists sent. split; [exact Es|]. split; [rewrite Hs; reflexivity | exact Ht].
Defined.

Lemma paymentToSave_on_server_witness :
  exists data net tds tdsDate,
    Validation.createPaymentSchema (Form.paymentToSave tdsEntry) = Some data
    /\ Backend.handleTds data = inr (net, Some tds, Some 10, Some tdsDate)
    /\ net + tds == 10000.
Proof.
  destruct (proj1 (FormFacts.paymentToSave_on_server tdsEntry noteIdText
                     eq_refl eq_refl eq_refl eq_refl
                     ltac:(discriminate) ltac:(discriminate)
                     ltac:(reflexivity) ltac:(vm_compute; discriminate)
                     ltac:(vm_compute; discriminate)))
    as (data & net & tds & d & Hs & Hh & _ & Hsum & _); [reflexivity|].
  exists data, net, tds, d. auto.
Defined.

End MoreInstances.
